(** * chunksToVideo: a shallow embedding of [src/app/chunksToVideo.py]

    The program reassembles indexed WebM fragments into one MP4 (plus an
    optional WAV).  Everything it does goes through the file system, the
    wall clock and an external [ffmpeg] process, so the embedding threads an
    explicit [world] through a small state-and-exception monad:

    - the file system is a finite map from paths to nodes;
    - the clock is the value [datetime.now()] would return;
    - the external binary is a parameter of the development (section
      variable [spawn]): any behaviour of [ffmpeg] is allowed, including
      not being launchable at all and writing output that is not text;
    - every call of [subprocess.run] is appended to a trace, so that "no
      external step was performed" and "the same command was built" are
      statements about the final world.

    Console output ([print]) is not modelled. *)

From Stdlib Require Import ZArith Lia Ascii String.
From Stdlib.Strings Require Import Byte.
From stdpp Require Import base option list gmap strings fin_maps pretty sorting.

Local Open Scope string_scope.
Local Open Scope list_scope.

(** ** Paths ([pathlib.PurePath])

    A path is the list of its components below a fixed root; the empty list
    is that root.  [p </> name] is [p / name] for a [name] without
    separator, which is the only way the program extends a path. *)

Abbreviation Path := (list string).

Definition joinpath (p : Path) (name : string) : Path := p ++ [name].
Infix "</>" := joinpath (at level 45, left associativity).

(** [str(path)] *)
Definition str (p : Path) : string := String.concat "/" p.

(** [path.parent] *)
Definition parent (p : Path) : Path := removelast p.

(** [path.name]: the final component, [""] for the root. *)
Definition name (p : Path) : string := List.last p "".

(** [str.rfind(c)], as an option instead of [-1]. *)
Fixpoint rfind_from (c : ascii) (s : string) (i : nat) : option nat :=
  match s with
  | EmptyString => None
  | String a s' =>
      match rfind_from c s' (S i) with
      | Some j => Some j
      | None => if Ascii.eqb a c then Some i else None
      end
  end.

Definition rfind (c : ascii) (s : string) : option nat := rfind_from c s 0.

Fixpoint contains_char (c : ascii) (s : string) : bool :=
  match s with
  | EmptyString => false
  | String a s' => Ascii.eqb a c || contains_char c s'
  end.

Definition startswith_dot (s : string) : bool :=
  match s with
  | String a _ => Ascii.eqb a "."
  | EmptyString => false
  end.

(** [path.suffix]: [name[i:]] for [i = name.rfind('.')] when
    [0 < i < len(name) - 1], and [''] otherwise. *)
Definition suffix_start (nm : string) : option nat :=
  match rfind "." nm with
  | Some i => if ((0 <? i) && (i <? String.length nm - 1))%nat then Some i else None
  | None => None
  end.

Definition suffix (p : Path) : string :=
  match suffix_start (name p) with
  | Some i => substring i (String.length (name p) - i) (name p)
  | None => ""
  end.

(** [path.with_suffix(sfx)].  [None] stands for the [ValueError] pathlib
    raises for an invalid suffix or for a path with an empty name. *)
Definition with_suffix (p : Path) (sfx : string) : option Path :=
  if contains_char "/" sfx then None
  else if (negb (String.eqb sfx "") && negb (startswith_dot sfx)) || String.eqb sfx "."
  then None
  else
    let nm := name p in
    if String.eqb nm "" then None
    else
      let nm' :=
        match suffix_start nm with
        | None => nm +:+ sfx
        | Some i => substring 0 i nm +:+ sfx
        end in
      Some (parent p </> nm').

(** ** Wall clock ([datetime]) *)

Record datetime := mk_datetime {
  year : nat; month : nat; day : nat;
  hour : nat; minute : nat; second : nat;
  microsecond : nat
}.

(** Decimal rendering, left-padded with zeros to [width] characters. *)
Fixpoint zeros (k : nat) : string :=
  match k with
  | O => ""
  | S k' => "0" +:+ zeros k'
  end.

Definition zfill (width n : nat) : string :=
  let d := pretty n in
  zeros (width - String.length d) +:+ d.

(** [now.strftime("%Y-%m-%d_%H-%M-%S")] *)
Definition strftime (now : datetime) : string :=
  zfill 4 (year now) +:+ "-" +:+ zfill 2 (month now) +:+ "-" +:+ zfill 2 (day now)
  +:+ "_" +:+ zfill 2 (hour now) +:+ "-" +:+ zfill 2 (minute now) +:+ "-"
  +:+ zfill 2 (second now).

(** ** The world: file system, clock, trace of external commands *)

Inductive node :=
| File (content : list Byte.byte)
| Dir.

Record world := mk_world {
  files : gmap Path node;
  clock : datetime;
  trace : list (list string)
}.

(** The exceptions the program can meet.  All of them derive from
    [Exception]; [CalledProcessError] carries the exit status and the
    captured standard error.  [OSError] stands for an operating-system
    error that has no subclass of its own. *)
Inductive exn :=
| FileNotFoundError
| FileExistsError
| IsADirectoryError
| NotADirectoryError
| PermissionError
| OSError
| ValueError
| UnicodeDecodeError
| CalledProcessError (returncode : Z) (stderr : string).

(** ** State-and-exception monad *)

Inductive outcome (A : Type) :=
| Return (a : A)
| Raise (e : exn).
Arguments Return {A} a.
Arguments Raise {A} e.

Definition M (A : Type) : Type := world -> outcome A * world.

Definition ret {A} (a : A) : M A := fun w => (Return a, w).

Definition raise {A} (e : exn) : M A := fun w => (Raise e, w).

Definition bind {A B} (m : M A) (k : A -> M B) : M B :=
  fun w =>
    match m w with
    | (Return a, w') => k a w'
    | (Raise e, w') => (Raise e, w')
    end.

(** [try: m except ...: handler(e)]; a handler re-raises what it does not
    catch. *)
Definition try_except {A} (m : M A) (handler : exn -> M A) : M A :=
  fun w =>
    match m w with
    | (Return a, w') => (Return a, w')
    | (Raise e, w') => handler e w'
    end.

(** [try: m finally: cleanup], the shape of a [with] block's exit. *)
Definition finally {A} (m : M A) (cleanup : world -> world) : M A :=
  fun w => let '(r, w') := m w in (r, cleanup w').

Definition gets {A} (f : world -> A) : M A := fun w => (Return (f w), w).

Definition modify (f : world -> world) : M unit := fun w => (Return tt, f w).

Declare Scope monad_scope.
Delimit Scope monad_scope with monad.
Notation "x <- m ;; k" := (bind m (fun x => k))
  (at level 100, m at next level, right associativity) : monad_scope.
Notation "m ;;; k" := (bind m (fun _ => k))
  (at level 100, right associativity) : monad_scope.
Local Open Scope monad_scope.

(** [for x in xs: body x] *)
Fixpoint for_each {A} (xs : list A) (body : A -> M unit) : M unit :=
  match xs with
  | [] => ret tt
  | x :: xs' => body x ;;; for_each xs' body
  end.

Definition set_files (fs : gmap Path node) (w : world) : world :=
  {| files := fs; clock := clock w; trace := trace w |}.

Definition set_clock (now : datetime) (w : world) : world :=
  {| files := files w; clock := now; trace := trace w |}.

Definition log_command (command : list string) (w : world) : world :=
  {| files := files w; clock := clock w; trace := trace w ++ [command] |}.

(** ** File-system primitives

    The store is flat: a path is looked up directly, and an operation that
    needs the parent directory checks that one entry.  Permissions are not
    modelled. *)

(** What is found at a path; the root is always a directory. *)
Definition lookup_node (fs : gmap Path node) (p : Path) : option node :=
  match p with
  | [] => Some Dir
  | _ => fs !! p
  end.

(** The error of an operation on a missing path: [ENOTDIR] when the parent
    is a regular file, [ENOENT] otherwise. *)
Definition missing_error (fs : gmap Path node) (p : Path) : exn :=
  match lookup_node fs (parent p) with
  | Some (File _) => NotADirectoryError
  | _ => FileNotFoundError
  end.

(** [path.exists()] *)
Definition path_exists (p : Path) : M bool :=
  gets (fun w => bool_decide (is_Some (lookup_node (files w) p))).

(** [path.is_dir()] *)
Definition is_dir (p : Path) : M bool :=
  gets (fun w =>
    match lookup_node (files w) p with
    | Some Dir => true
    | _ => false
    end).

(** [open(p, 'rb').read()] *)
Definition read_bytes (p : Path) : M (list Byte.byte) :=
  fun w =>
    match lookup_node (files w) p with
    | Some (File content) => (Return content, w)
    | Some Dir => (Raise IsADirectoryError, w)
    | None => (Raise (missing_error (files w) p), w)
    end.

(** [open(p, 'wb')]: creates the file or truncates it. *)
Definition open_wb (p : Path) : M unit :=
  fun w =>
    match lookup_node (files w) p with
    | Some Dir => (Raise IsADirectoryError, w)
    | Some (File _) => (Return tt, set_files (<[p := File []]> (files w)) w)
    | None =>
        match lookup_node (files w) (parent p) with
        | Some Dir => (Return tt, set_files (<[p := File []]> (files w)) w)
        | Some (File _) => (Raise NotADirectoryError, w)
        | None => (Raise FileNotFoundError, w)
        end
    end.

(** [outfile.write(data)] on the file opened at [p]: appends. *)
Definition write_bytes (p : Path) (data : list Byte.byte) : M unit :=
  modify (fun w =>
    match files w !! p with
    | Some (File content) => set_files (<[p := File (content ++ data)]> (files w)) w
    | _ => w
    end).

(** [path.unlink()] *)
Definition unlink (p : Path) : M unit :=
  fun w =>
    match lookup_node (files w) p with
    | Some (File _) => (Return tt, set_files (delete p (files w)) w)
    | Some Dir => (Raise IsADirectoryError, w)
    | None => (Raise (missing_error (files w) p), w)
    end.

(** [os.mkdir(p)] *)
Definition os_mkdir (p : Path) : M unit :=
  fun w =>
    match lookup_node (files w) p with
    | Some _ => (Raise FileExistsError, w)
    | None =>
        match lookup_node (files w) (parent p) with
        | Some Dir => (Return tt, set_files (<[p := Dir]> (files w)) w)
        | Some (File _) => (Raise NotADirectoryError, w)
        | None => (Raise FileNotFoundError, w)
        end
    end.

(** [path.mkdir(parents=False, exist_ok=True)] *)
Definition mkdir_exist_ok (p : Path) : M unit :=
  try_except (os_mkdir p) (fun e =>
    match e with
    | FileNotFoundError => raise e
    | _ => d <- is_dir p ;; if d : bool then ret tt else raise e
    end).

(** [path.mkdir(parents=True, exist_ok=True)], by recursion on the reversed
    path: on [FileNotFoundError] pathlib creates the parent the same way and
    then retries without [parents]. *)
Fixpoint mkdir_parents_rev (rp : list string) : M unit :=
  try_except (os_mkdir (rev rp)) (fun e =>
    match e with
    | FileNotFoundError =>
        match rp with
        | [] => raise e
        | _ :: rp' => mkdir_parents_rev rp' ;;; mkdir_exist_ok (rev rp)
        end
    | _ => d <- is_dir (rev rp) ;; if d : bool then ret tt else raise e
    end).

Definition mkdir_parents (p : Path) : M unit := mkdir_parents_rev (rev p).

(** [shutil.rmtree(p)]: the entry at [p] and everything below it. *)
Definition rmtree (p : Path) (w : world) : world :=
  set_files (filter (fun kv => ~ p `prefix_of` kv.1) (files w)) w.

(** [datetime.now()] *)
Definition datetime_now : M datetime := gets clock.

(** ** The external process and the temporary-directory service *)

(** What [subprocess.run] can observe of one invocation.

    - [Exited]: the process ran to completion, leaving an exit status, its
      two captured streams, which decode as text, and whatever it did to the
      file system while the clock advanced.
    - [Undecodable]: the process ran to completion likewise, but the bytes
      it wrote to a captured stream do not decode in the locale's encoding.
    - [NotLaunched]: no binary of that name was found ([ENOENT]).
    - [NotExecutable]: the binary is there but may not be executed
      ([EACCES]).
    - [ExecFailed]: the operating system refused to start the process for
      another reason ([ENOEXEC], [E2BIG], ...). *)
Inductive proc :=
| Exited (returncode : Z) (stdout stderr : string)
         (fs : gmap Path node) (now : datetime)
| NotLaunched
| NotExecutable
| ExecFailed
| Undecodable (returncode : Z) (fs : gmap Path node) (now : datetime).

(** The processor object: the fields [__init__] stores. *)
Record VideoProcessor := mk_VideoProcessor {
  video_chunks_dir : Path;
  audio_chunks_dir : Path;
  video_output_dir : Path;
  audio_output_dir : Path;
  transcript_output_dir : option Path
}.

(** [list.sort(key=lambda x: x[0])]: a stable sort on the index. *)
Fixpoint insert_by_index (x : nat * Path) (l : list (nat * Path)) : list (nat * Path) :=
  match l with
  | [] => [x]
  | y :: l' => if (x.1 <=? y.1)%nat then x :: y :: l' else y :: insert_by_index x l'
  end.

Definition sort_by_index (l : list (nat * Path)) : list (nat * Path) :=
  foldr insert_by_index [] l.

(** [range(1000)] *)
Definition MAX_INDEX : nat := 1000.

(** [f"{kind}_{i}.webm"] *)
Definition chunk_name (kind : string) (i : nat) : string :=
  kind +:+ "_" +:+ pretty i +:+ ".webm".

Section Program.

(** The behaviour of the external binary on a command line in a world. *)
Variable spawn : list string -> world -> proc.

(** [tempfile.gettempdir()], the stream of candidate names of
    [tempfile._get_candidate_names()], and [tempfile.TMP_MAX]. *)
Variable gettempdir : Path.
Variable candidate_names : nat -> string.
Variable TMP_MAX : nat.

(** [subprocess.run(command, capture_output=True, text=True, check=True)].
    [Popen] raises the [OSError] of a launch that fails; [communicate]
    waits for the process and then decodes the captured streams, raising
    [UnicodeDecodeError] whatever the exit status was; only then is the
    status checked, a non-zero one raising [CalledProcessError].  Otherwise
    the captured standard output is returned. *)
Definition subprocess_run (command : list string) : M string :=
  fun w =>
    let w0 := log_command command w in
    match spawn command w0 with
    | NotLaunched => (Raise FileNotFoundError, w0)
    | NotExecutable => (Raise PermissionError, w0)
    | ExecFailed => (Raise OSError, w0)
    | Undecodable rc fs now =>
        (Raise UnicodeDecodeError, set_clock now (set_files fs w0))
    | Exited rc out err fs now =>
        let w' := set_clock now (set_files fs w0) in
        if (rc =? 0)%Z then (Return out, w')
        else (Raise (CalledProcessError rc err), w')
    end.

(** [tempfile.mkdtemp()]: tries candidate names until [os.mkdir] accepts
    one, [TMP_MAX] times at most. *)
Fixpoint mkdtemp_from (seq : nat) (attempts : nat) : M Path :=
  match attempts with
  | O => raise FileExistsError
  | S attempts' =>
      let file := gettempdir </> ("tmp" +:+ candidate_names seq) in
      try_except (os_mkdir file ;;; ret file) (fun e =>
        match e with
        | FileExistsError => mkdtemp_from (S seq) attempts'
        | _ => raise e
        end)
  end.

Definition mkdtemp : M Path := mkdtemp_from 0 TMP_MAX.

(** [with tempfile.TemporaryDirectory() as temp_dir: body]: the directory
    is removed when the block is left, normally or by an exception. *)
Definition with_TemporaryDirectory {A} (body : Path -> M A) : M A :=
  temp_dir <- mkdtemp ;;
  finally (body temp_dir) (rmtree temp_dir).

(** *** [VideoProcessor.__init__] *)
Definition init (video_chunks_dir audio_chunks_dir
                 video_output_dir audio_output_dir : Path)
                (transcript_output_dir : option Path) : M VideoProcessor :=
  let self := mk_VideoProcessor video_chunks_dir audio_chunks_dir
                video_output_dir audio_output_dir transcript_output_dir in
  mkdir_parents video_output_dir ;;;
  mkdir_parents audio_output_dir ;;;
  match transcript_output_dir with
  | Some d => mkdir_parents d
  | None => ret tt
  end ;;;
  ret self.

(** *** [VideoProcessor.run_ffmpeg] *)
Definition run_ffmpeg (command : list string) (description : string)
  : M (bool * string) :=
  try_except
    (stdout <- subprocess_run command ;;
     ret (true, stdout))
    (fun e =>
       match e with
       | CalledProcessError _ stderr => ret (false, stderr)
       | _ => raise e
       end).

(** *** [VideoProcessor.find_chunk_sequences] *)

(** One of the two scanning loops: [chunks] is the list being appended
    to. *)
Fixpoint scan_chunks (dir : Path) (kind : string) (indices : list nat)
                     (chunks : list (nat * Path)) : M (list (nat * Path)) :=
  match indices with
  | [] => ret chunks
  | i :: rest =>
      let file := dir </> chunk_name kind i in
      found <- path_exists file ;;
      scan_chunks dir kind rest
        (if found : bool then chunks ++ [(i, file)] else chunks)
  end.

Definition find_chunk_sequences (self : VideoProcessor)
  : M (list (nat * Path) * list (nat * Path)) :=
  video_chunks <- scan_chunks (video_chunks_dir self) "video" (seq 0 MAX_INDEX) [] ;;
  audio_chunks <- scan_chunks (audio_chunks_dir self) "audio" (seq 0 MAX_INDEX) [] ;;
  let video_chunks := sort_by_index video_chunks in
  let audio_chunks := sort_by_index audio_chunks in
  ret (video_chunks, audio_chunks).

(** *** [VideoProcessor.concatenate_raw_chunks] *)

Definition repair_command (temp_concat_path output_path : Path) : list string :=
  ["ffmpeg"; "-y"; "-fflags"; "+genpts"; "-i"; str temp_concat_path;
   "-c"; "copy"; "-avoid_negative_ts"; "make_zero"; str output_path].

(** [if temp_concat_path.exists(): temp_concat_path.unlink()] *)
Definition unlink_if_exists (p : Path) : M unit :=
  found <- path_exists p ;;
  if found : bool then unlink p else ret tt.

(** The [with open(temp_concat_path, 'wb') as outfile] block. *)
Definition write_raw_concat (temp_concat_path : Path)
                            (chunks : list (nat * Path)) : M unit :=
  open_wb temp_concat_path ;;;
  for_each chunks (fun chunk =>
    data <- read_bytes chunk.2 ;;
    write_bytes temp_concat_path data).

Definition concatenate_raw_chunks (chunks : list (nat * Path))
                                  (output_path : Path) (chunk_type : string)
  : M bool :=
  match chunks with
  | [] => ret false
  | _ =>
      temp_concat_path <-
        match with_suffix output_path ".temp.webm" with
        | Some p => ret p
        | None => raise ValueError
        end ;;
      try_except
        (write_raw_concat temp_concat_path chunks ;;;
         r <- run_ffmpeg (repair_command temp_concat_path output_path)
                ("Fixing concatenated " +:+ chunk_type +:+ " file") ;;
         unlink_if_exists temp_concat_path ;;;
         ret r.1)
        (fun e =>
           unlink_if_exists temp_concat_path ;;;
           ret false)
  end.

(** *** [VideoProcessor.mux_video_audio_with_captions] *)
Definition mux_video_audio_with_captions
    (video_path : Path) (audio_path srt_path : option Path) (output_path : Path)
  : M bool :=
  let command := ["ffmpeg"; "-y"] in
  let command := command ++ ["-i"; str video_path] in
  let command :=
    match audio_path with
    | Some a => command ++ ["-i"; str a]
    | None => command
    end in
  let command := command ++ ["-c:v"; "libx264"; "-preset"; "medium"; "-crf"; "23"] in
  let command :=
    match audio_path with
    | Some _ => command ++ ["-c:a"; "aac"; "-b:a"; "128k"]
    | None => command
    end in
  with_srt <-
    match srt_path with
    | Some s => path_exists s
    | None => ret false
    end ;;
  let command :=
    match srt_path with
    | Some s =>
        if with_srt : bool
        then command ++ ["-i"; str s; "-c:s"; "mov_text";
                         "-metadata:s:s:0"; "language=eng"]
        else command
    | None => command
    end in
  let command := command ++ ["-shortest"; "-avoid_negative_ts"; "make_zero"] in
  let command := command ++ [str output_path] in
  r <- run_ffmpeg command "Creating MP4 with video, audio, and soft captions" ;;
  ret r.1.

(** *** [VideoProcessor.process_chunks] *)

(** Step 2: concatenate the audio chunks, if there are any; the result is
    the value of [audio_concat_path] afterwards. *)
Definition concat_audio_step (audio_chunks : list (nat * Path)) (temp_dir : Path)
  : M (option Path) :=
  match audio_chunks with
  | [] => ret None
  | _ =>
      let audio_concat_path := temp_dir </> "audio_concatenated.webm" in
      ok <- concatenate_raw_chunks audio_chunks audio_concat_path "audio" ;;
      ret (if ok : bool then Some audio_concat_path else None)
  end.

(** Step 3: the two output names, from one reading of the clock. *)
Definition output_paths (self : VideoProcessor) (now : datetime) : Path * Path :=
  let timestamp := strftime now in
  (video_output_dir self </> ("output_" +:+ timestamp +:+ ".mp4"),
   audio_output_dir self </> ("audio_" +:+ timestamp +:+ ".wav")).

Definition wav_command (audio_concat_path final_audio_path : Path) : list string :=
  ["ffmpeg"; "-y"; "-i"; str audio_concat_path;
   "-acodec"; "pcm_s16le"; "-ar"; "44100"; str final_audio_path].

(** Step 4: convert the audio to WAV; the result is the value of
    [saved_audio_path] afterwards. *)
Definition save_wav_step (audio_concat_path : option Path) (final_audio_path : Path)
  : M (option Path) :=
  match audio_concat_path with
  | None => ret None
  | Some p =>
      found <- path_exists p ;;
      if found : bool then
        try_except
          (r <- run_ffmpeg (wav_command p final_audio_path)
                  "Converting audio to WAV format" ;;
           ret (if r.1 : bool then Some final_audio_path else None))
          (fun e => ret None)
      else ret None
  end.

(** The body of the [with tempfile.TemporaryDirectory()] block. *)
Definition run_in_workspace (self : VideoProcessor) (srt_path : option Path)
    (video_chunks audio_chunks : list (nat * Path)) (temp_dir : Path)
  : M (option Path * option Path) :=
  let video_concat_path := temp_dir </> "video_concatenated.webm" in
  ok <- concatenate_raw_chunks video_chunks video_concat_path "video" ;;
  if negb ok then ret (None, None)
  else
    audio_concat_path <- concat_audio_step audio_chunks temp_dir ;;
    now <- datetime_now ;;
    let final_video_path := (output_paths self now).1 in
    let final_audio_path := (output_paths self now).2 in
    saved_audio_path <- save_wav_step audio_concat_path final_audio_path ;;
    ok <- mux_video_audio_with_captions video_concat_path audio_concat_path
            srt_path final_video_path ;;
    if ok : bool then ret (Some final_video_path, saved_audio_path)
    else ret (None, saved_audio_path).

Definition process_chunks (self : VideoProcessor) (srt_path : option Path)
  : M (option Path * option Path) :=
  chunks <- find_chunk_sequences self ;;
  let '(video_chunks, audio_chunks) := chunks in
  match video_chunks with
  | [] => ret (None, None)
  | _ =>
      with_TemporaryDirectory
        (run_in_workspace self srt_path video_chunks audio_chunks)
  end.

End Program.

(** ** Specification-level vocabulary *)

(** The chunks the scan is specified to find: the indices of [indices] whose
    canonical file exists, each paired with that file. *)
Definition chunk_file (dir : Path) (kind : string) (i : nat) : Path :=
  dir </> chunk_name kind i.

Definition present (fs : gmap Path node) (dir : Path) (kind : string) (i : nat) : Prop :=
  is_Some (lookup_node fs (chunk_file dir kind i)).

Definition expected_chunks (fs : gmap Path node) (dir : Path) (kind : string)
                           (indices : list nat) : list (nat * Path) :=
  (fun i => (i, chunk_file dir kind i)) <$> filter (present fs dir kind) indices.

(** A fragment sequence in the sense of the data model: strictly ascending
    indices. *)
Definition ascending (chunks : list (nat * Path)) : Prop :=
  StronglySorted lt (chunks.*1).

(** The bytes of a regular file, nothing for anything else. *)
Definition content_of (fs : gmap Path node) (p : Path) : list Byte.byte :=
  match lookup_node fs p with
  | Some (File content) => content
  | _ => []
  end.

Definition is_file (fs : gmap Path node) (p : Path) : Prop :=
  exists content, lookup_node fs p = Some (File content).

(** The fragments' bytes laid end to end in ascending index order. *)
Definition bytes_in_index_order (fs : gmap Path node) (chunks : list (nat * Path))
  : list Byte.byte :=
  concat ((fun chunk => content_of fs chunk.2) <$> sort_by_index chunks).

(** A path can be opened for writing: it is a regular file already, or it is
    free and its parent is a directory. *)
Definition writable (fs : gmap Path node) (p : Path) : Prop :=
  is_file fs p \/
  (lookup_node fs p = None /\ lookup_node fs (parent p) = Some Dir).

(** The subtitle file the muxer embeds: the one provided, if it exists. *)
Definition embedded_captions (fs : gmap Path node) (srt_path : option Path)
  : option Path :=
  match srt_path with
  | Some s => if bool_decide (is_Some (lookup_node fs s)) then Some s else None
  | None => None
  end.

(** The command line of the mux step, by its parts. *)
Definition caption_args (captions : option Path) : list string :=
  match captions with
  | Some s => ["-i"; str s; "-c:s"; "mov_text"; "-metadata:s:s:0"; "language=eng"]
  | None => []
  end.

Definition mux_command (video_path : Path) (audio_path captions : option Path)
                       (output_path : Path) : list string :=
  ["ffmpeg"; "-y"; "-i"; str video_path]
  ++ match audio_path with Some a => ["-i"; str a] | None => [] end
  ++ ["-c:v"; "libx264"; "-preset"; "medium"; "-crf"; "23"]
  ++ match audio_path with Some _ => ["-c:a"; "aac"; "-b:a"; "128k"] | None => [] end
  ++ caption_args captions
  ++ ["-shortest"; "-avoid_negative_ts"; "make_zero"; str output_path].

(** What one invocation of the external binary leaves behind. *)
Definition after_spawn (spawn : list string -> world -> proc)
                       (command : list string) (w : world) : world :=
  let w0 := log_command command w in
  match spawn command w0 with
  | Exited _ _ _ fs now | Undecodable _ fs now => set_clock now (set_files fs w0)
  | NotLaunched | NotExecutable | ExecFailed => w0
  end.

(** The exception of an invocation that did not start a process. *)
Definition launch_error (p : proc) : option exn :=
  match p with
  | NotLaunched => Some FileNotFoundError
  | NotExecutable => Some PermissionError
  | ExecFailed => Some OSError
  | Exited _ _ _ _ _ | Undecodable _ _ _ => None
  end.

(** What [run_ffmpeg] makes of an invocation. *)
Definition run_result (p : proc) : outcome (bool * string) :=
  match p with
  | Exited rc out err _ _ =>
      if (rc =? 0)%Z then Return (true, out) else Return (false, err)
  | Undecodable _ _ _ => Raise UnicodeDecodeError
  | NotLaunched => Raise FileNotFoundError
  | NotExecutable => Raise PermissionError
  | ExecFailed => Raise OSError
  end.

(** Running [command] puts no directory at [p] where none stood. *)
Definition creates_no_directory_at (spawn : list string -> world -> proc)
                                   (command : list string) (p : Path) : Prop :=
  forall w,
    lookup_node (files w) p <> Some Dir ->
    match spawn command w with
    | Exited _ _ _ fs _ | Undecodable _ fs _ => lookup_node fs p <> Some Dir
    | NotLaunched | NotExecutable | ExecFailed => True
    end.

(** No regular file stands at a path or at any of its ancestors, so that the
    path can be made a directory. *)
Definition no_file_on_path (fs : gmap Path node) (p : Path) : Prop :=
  forall q content, q `prefix_of` p -> lookup_node fs q <> Some (File content).

(** Every entry of the store has its parent directory in the store. *)
Definition parents_exist (fs : gmap Path node) : Prop :=
  map_Forall (fun p _ => lookup_node fs (parent p) = Some Dir) fs.

(** The rest of [concatenate_raw_chunks] once the raw intermediate is
    written: repair, clean up, report. *)
Definition repair_and_clean_up (spawn : list string -> world -> proc)
                               (temp_concat_path output_path : Path)
                               (chunk_type : string) : M bool :=
  try_except
    (r <- run_ffmpeg spawn (repair_command temp_concat_path output_path)
            ("Fixing concatenated " +:+ chunk_type +:+ " file") ;;
     unlink_if_exists temp_concat_path ;;;
     ret r.1)
    (fun e =>
       unlink_if_exists temp_concat_path ;;;
       ret false).


(** ** Test doubles

    Concrete worlds and concrete stand-ins for the external binary, on which
    the statements below are exercised. *)
Module Fixture.

Definition started : datetime := mk_datetime 2025 6 29 9 5 7 123.
Definition later : datetime := mk_datetime 2025 6 29 9 5 9 4.

Definition processor : VideoProcessor :=
  mk_VideoProcessor ["in"; "video"] ["in"; "audio"]
                    ["out"; "video"] ["out"; "audio"] None.

(** Video fragments 0, 2 and 5, one audio fragment, output directories in
    place. *)
Definition disk : gmap Path node :=
  list_to_map
    [ (["tmp"], Dir); (["in"], Dir); (["in"; "video"], Dir); (["in"; "audio"], Dir);
      (["out"], Dir); (["out"; "video"], Dir); (["out"; "audio"], Dir);
      (["in"; "video"; "video_0.webm"], File [x01]);
      (["in"; "video"; "video_2.webm"], File [x02; x03]);
      (["in"; "video"; "video_5.webm"], File [x04]);
      (["in"; "audio"; "audio_0.webm"], File [x0a]) ].

Definition world0 : world := mk_world disk started [].

(** Only audio fragments. *)
Definition disk_no_video : gmap Path node :=
  list_to_map
    [ (["tmp"], Dir); (["in"], Dir); (["in"; "video"], Dir); (["in"; "audio"], Dir);
      (["in"; "audio"; "audio_0.webm"], File [x0a]) ].

Definition world_no_video : world := mk_world disk_no_video started [].

(** Nothing but the temporary root and an unrelated regular file. *)
Definition disk_bare : gmap Path node :=
  list_to_map [ (["tmp"], Dir); (["notes.txt"], File [x68; x69]) ].

Definition world_bare : world := mk_world disk_bare started [].

(** The name [mkdtemp] will pick, and the workspace it yields. *)
Definition names (n : nat) : string := "k3f9".
Definition workspace : Path := ["tmp"; "tmpk3f9"].

Definition last_arg (command : list string) : string := List.last command "".

(** Writes an empty file at each of [outs] that the command names as its
    output. *)
Definition touch_output (outs : list Path) (command : list string)
                        (fs : gmap Path node) : gmap Path node :=
  foldr (fun p acc =>
           if String.eqb (last_arg command) (str p) then <[p := File []]> acc
           else acc) fs outs.

Definition intermediates : list Path :=
  [workspace </> "video_concatenated.webm";
   workspace </> "audio_concatenated.webm"].

(** A binary that always succeeds, takes two seconds, and produces the
    intermediates it is asked for. *)
Definition ffmpeg_ok (command : list string) (w : world) : proc :=
  Exited 0 "done" "" (touch_output intermediates command (files w)) later.

(** A binary that cannot be launched. *)
Definition ffmpeg_missing (command : list string) (w : world) : proc :=
  NotLaunched.

(** A binary that is there but may not be executed. *)
Definition ffmpeg_not_executable (command : list string) (w : world) : proc :=
  NotExecutable.

(** A binary that exits with status 1 after writing bytes that are not text
    to its standard error. *)
Definition ffmpeg_garbled (command : list string) (w : world) : proc :=
  Undecodable 1 (files w) (clock w).

(** A binary that always exits with status 1. *)
Definition ffmpeg_broken (command : list string) (w : world) : proc :=
  Exited 1 "" "Invalid data found when processing input" (files w) (clock w).

(** A binary that fails on the commands [fails] selects and succeeds on the
    others. *)
Definition ffmpeg_failing (fails : list string -> bool)
                          (command : list string) (w : world) : proc :=
  if fails command then ffmpeg_broken command w else ffmpeg_ok command w.

Definition is_audio_repair (command : list string) : bool :=
  String.eqb (last_arg command) (str (workspace </> "audio_concatenated.webm")).

Definition is_mux (command : list string) : bool :=
  bool_decide ("libx264" ∈ command).

End Fixture.

(** ** The entry point ([main])

    [LOCAL_DIR] and [OUTPUT_DIR] come from the [driver] module; they are
    parameters here.  [os.path.join(d, name)] is [d </> name].  The timing
    and the size report at the end only read the clock and the file system
    and print; the [stat] calls sit in a [try] with a bare [except]. *)
Section EntryPoint.

Variable spawn : list string -> world -> proc.
Variable gettempdir : Path.
Variable candidate_names : nat -> string.
Variable TMP_MAX : nat.
Variable LOCAL_DIR OUTPUT_DIR : Path.

(** [subprocess.run(command, capture_output=True, check=True)], its result
    discarded.  Without [text=True] the captured bytes are not decoded, so
    that only the launch and the exit status matter; the bytes a
    [CalledProcessError] would carry are left out. *)
Definition subprocess_run_bytes (command : list string) : M unit :=
  fun w =>
    let w0 := log_command command w in
    match spawn command w0 with
    | NotLaunched => (Raise FileNotFoundError, w0)
    | NotExecutable => (Raise PermissionError, w0)
    | ExecFailed => (Raise OSError, w0)
    | Exited rc _ _ fs now | Undecodable rc fs now =>
        let w' := set_clock now (set_files fs w0) in
        if (rc =? 0)%Z then (Return tt, w')
        else (Raise (CalledProcessError rc ""), w')
    end.

(** The [try: subprocess.run(["ffmpeg", "-version"], ...)] probe: whether
    the [except (CalledProcessError, FileNotFoundError)] branch was not
    taken.  Any other exception passes through. *)
Definition ffmpeg_found : M bool :=
  try_except
    (subprocess_run_bytes ["ffmpeg"; "-version"] ;;;
     ret true)
    (fun e =>
       match e with
       | CalledProcessError _ _ => ret false
       | FileNotFoundError => ret false
       | _ => raise e
       end).

Definition main : M unit :=
  start_time <- datetime_now ;;
  let video_chunks_dir := LOCAL_DIR </> "video" in
  let audio_chunks_dir := LOCAL_DIR </> "audio" in
  let video_output_dir := OUTPUT_DIR </> "video" in
  let audio_output_dir := OUTPUT_DIR </> "audio" in
  let transcript_output_dir := OUTPUT_DIR </> "transcripts" in
  found <- ffmpeg_found ;;
  if negb found then ret tt
  else
    video_dir_exists <- path_exists video_chunks_dir ;;
    if negb video_dir_exists then ret tt
    else
      audio_dir_exists <- path_exists audio_chunks_dir ;;
      let srt_path : option Path := None in
      processor <- init video_chunks_dir audio_chunks_dir video_output_dir
                     audio_output_dir (Some transcript_output_dir) ;;
      results <- process_chunks spawn gettempdir candidate_names TMP_MAX
                   processor srt_path ;;
      end_time <- datetime_now ;;
      ret tt.

End EntryPoint.

(** ** More vocabulary *)

(** An external binary that leaves the file system alone. *)
Definition keeps_files (spawn : list string -> world -> proc) : Prop :=
  forall command w,
    match spawn command w with
    | Exited _ _ _ fs _ | Undecodable _ fs _ => fs = files w
    | NotLaunched | NotExecutable | ExecFailed => True
    end.

(** A computation changes no entry of the file system outside [region],
    however it ends. *)
Definition touches_only {A} (region : Path -> Prop) (m : M A) : Prop :=
  forall w p, ~ region p -> files (m w).2 !! p = files w !! p.

(** The fields of a timestamp are in the range of a [datetime]. *)
Definition valid_datetime (now : datetime) : Prop :=
  (1000 <= year now <= 9999 /\ month now <= 12 /\ day now <= 31
   /\ hour now <= 23 /\ minute now <= 59 /\ second now <= 59)%nat.

(** Two readings of the clock in the same second. *)
Definition same_second (a b : datetime) : Prop :=
  year a = year b /\ month a = month b /\ day a = day b
  /\ hour a = hour b /\ minute a = minute b /\ second a = second b.


(** The command [main] probes the external binary with. *)
Definition probe_command : list string := ["ffmpeg"; "-version"].

(** What the probe makes of an invocation. *)
Definition probe_result (p : proc) : outcome bool :=
  match p with
  | Exited rc _ _ _ _ | Undecodable rc _ _ => Return (rc =? 0)%Z
  | NotLaunched => Return false
  | NotExecutable => Raise PermissionError
  | ExecFailed => Raise OSError
  end.

(** ** More test doubles *)
Module Scenario.



(** The name of video fragment 1 is taken by a directory. *)
Definition disk_directory_fragment : gmap Path node :=
  list_to_map
    [ (["tmp"], Dir); (["in"], Dir); (["in"; "video"], Dir); (["in"; "audio"], Dir);
      (["in"; "video"; "video_0.webm"], File [x01]);
      (["in"; "video"; "video_1.webm"], Dir);
      (["out"], Dir); (["out"; "video"], Dir); (["out"; "audio"], Dir) ].

Definition world_directory_fragment : world :=
  mk_world disk_directory_fragment Fixture.started [].

(** The video output path is taken by a regular file. *)
Definition disk_output_is_file : gmap Path node :=
  list_to_map [ (["out"], Dir); (["out"; "video"], File [x00]) ].

Definition world_output_is_file : world :=
  mk_world disk_output_is_file Fixture.started [].

(** A binary that works until the mux step and cannot be launched then. *)
Definition ffmpeg_vanishes (command : list string) (w : world) : proc :=
  if Fixture.is_mux command then NotLaunched else Fixture.ffmpeg_ok command w.

End Scenario.

(** * Properties *)

(** ** Monad and file-system facts *)

Lemma bind_Return {A B} (m : M A) (k : A -> M B) w a w' :
  m w = (Return a, w') -> bind m k w = k a w'.
Proof. unfold bind. by intros ->. Qed.

Lemma bind_Raise {A B} (m : M A) (k : A -> M B) w e w' :
  m w = (Raise e, w') -> bind m k w = (Raise e, w').
Proof. unfold bind. by intros ->. Qed.

Lemma try_except_Return {A} (m : M A) (h : exn -> M A) w a w' :
  m w = (Return a, w') -> try_except m h w = (Return a, w').
Proof. unfold try_except. by intros ->. Qed.

Lemma try_except_Raise {A} (m : M A) (h : exn -> M A) w e w' :
  m w = (Raise e, w') -> try_except m h w = h e w'.
Proof. unfold try_except. by intros ->. Qed.

Lemma sort_by_index_ascending (chunks : list (nat * Path)) :
  ascending chunks -> sort_by_index chunks = chunks.
Proof.
  unfold ascending. induction chunks as [|x l IH]; [done|].
  rewrite fmap_cons. intros Hs. apply StronglySorted_inv in Hs as [Hl Hx].
  simpl. rewrite IH by done.
  destruct l as [|y l']; [done|]. simpl.
  rewrite fmap_cons in Hx. apply Forall_cons in Hx as [Hxy _].
  destruct (Nat.leb_spec x.1 y.1); [done | lia].
Qed.

Lemma StronglySorted_lt_seq (start len : nat) : StronglySorted lt (seq start len).
Proof.
  revert start. induction len as [|len IH]; intros start; simpl.
  - constructor.
  - constructor; [apply IH|].
    apply Forall_forall. intros j Hj. apply elem_of_seq in Hj. lia.
Qed.

Lemma StronglySorted_filter {A} (R : relation A) (P : A -> Prop)
    `{forall x, Decision (P x)} (l : list A) :
  StronglySorted R l -> StronglySorted R (filter P l).
Proof.
  induction 1 as [|x l Hl IH Hx]; [constructor|].
  rewrite filter_cons. destruct (decide (P x)); [|done].
  constructor; [done|].
  apply Forall_forall. intros y Hy. apply list_elem_of_filter in Hy as [_ Hy].
  rewrite Forall_forall in Hx. by apply Hx.
Qed.

Lemma expected_chunks_ascending fs dir kind start len :
  ascending (expected_chunks fs dir kind (seq start len)).
Proof.
  unfold ascending, expected_chunks.
  assert (Hfst : forall l : list nat,
             ((fun i => (i, chunk_file dir kind i)) <$> l).*1 = l).
  { induction l as [|i l IH]; [done|]. rewrite !fmap_cons. simpl. by rewrite IH. }
  rewrite Hfst.
  apply StronglySorted_filter, StronglySorted_lt_seq.
Qed.

Lemma scan_chunks_spec dir kind indices chunks w :
  scan_chunks dir kind indices chunks w
  = (Return (chunks ++ expected_chunks (files w) dir kind indices), w).
Proof.
  revert chunks. induction indices as [|i rest IH]; intros chunks.
  - simpl. unfold ret, expected_chunks. by rewrite filter_nil, app_nil_r.
  - simpl. unfold bind, path_exists, gets. rewrite IH.
    unfold expected_chunks. rewrite filter_cons.
    fold (chunk_file dir kind i). unfold present at 2.
    destruct (decide (is_Some (lookup_node (files w) (chunk_file dir kind i)))) as [Hp|Hp].
    + rewrite bool_decide_eq_true_2 by done.
      rewrite fmap_cons. by rewrite <- app_assoc.
    + by rewrite bool_decide_eq_false_2 by done.
Qed.

(** The scan as a function of the file system alone. *)
Lemma find_chunk_sequences_eq self w :
  find_chunk_sequences self w
  = (Return (expected_chunks (files w) (video_chunks_dir self) "video" (seq 0 MAX_INDEX),
             expected_chunks (files w) (audio_chunks_dir self) "audio" (seq 0 MAX_INDEX)),
     w).
Proof.
  unfold find_chunk_sequences.
  erewrite bind_Return by apply scan_chunks_spec.
  erewrite bind_Return by apply scan_chunks_spec.
  rewrite !app_nil_l.
  unfold ret. by rewrite !sort_by_index_ascending by apply expected_chunks_ascending.
Qed.

Lemma elem_of_expected_chunks fs dir kind indices i p :
  (i, p) ∈ expected_chunks fs dir kind indices
  <-> i ∈ indices /\ p = chunk_file dir kind i /\ present fs dir kind i.
Proof.
  unfold expected_chunks. rewrite list_elem_of_fmap. split.
  - intros (j & Heq & Hj). apply list_elem_of_filter in Hj as [Hp Hj].
    by simplify_eq.
  - intros (Hi & -> & Hp). exists i. split; [done|].
    by apply list_elem_of_filter.
Qed.

(** From here on the scan is used through [find_chunk_sequences_eq] only. *)
Opaque find_chunk_sequences.

(** ** C1: what the scan returns *)

(** C1. For every file-system state, [find_chunk_sequences] returns
    normally, leaves the world untouched, and for each stream kind returns
    exactly the pairs [(i, dir / kind_i.webm)] with [i < 1000] whose file
    exists, in strictly ascending index order. *)
Theorem find_chunk_sequences_spec (self : VideoProcessor) (w : world) :
  exists video audio,
    find_chunk_sequences self w = (Return (video, audio), w)
    /\ (forall i p, (i, p) ∈ video <->
          (i < 1000 /\ p = video_chunks_dir self </> chunk_name "video" i
           /\ is_Some (lookup_node (files w) p)))
    /\ (forall i p, (i, p) ∈ audio <->
          (i < 1000 /\ p = audio_chunks_dir self </> chunk_name "audio" i
           /\ is_Some (lookup_node (files w) p)))
    /\ StronglySorted lt (video.*1)
    /\ StronglySorted lt (audio.*1).
Proof.
  eexists _, _. split; [apply find_chunk_sequences_eq|].
  split; [|split; [|split]]; try apply expected_chunks_ascending.
  - intros i p. rewrite elem_of_expected_chunks, elem_of_seq.
    unfold present, chunk_file, MAX_INDEX. split.
    + intros (? & -> & ?). split; [lia|done].
    + intros (? & -> & ?). split; [lia|done].
  - intros i p. rewrite elem_of_expected_chunks, elem_of_seq.
    unfold present, chunk_file, MAX_INDEX. split.
    + intros (? & -> & ?). split; [lia|done].
    + intros (? & -> & ?). split; [lia|done].
Qed.

(** ** The process runner *)

Section Runner.

Variable spawn : list string -> world -> proc.

(** [run_ffmpeg] by cases on what the external process did. *)
Lemma run_ffmpeg_eq command description w :
  run_ffmpeg spawn command description w
  = (run_result (spawn command (log_command command w)),
     after_spawn spawn command w).
Proof.
  unfold run_ffmpeg, try_except, bind, subprocess_run, after_spawn, run_result.
  destruct (spawn command (log_command command w))
    as [rc out err fs now| | | |rc fs now]; try reflexivity.
  by destruct (rc =? 0)%Z.
Qed.

Lemma after_spawn_trace command w :
  trace (after_spawn spawn command w) = trace w ++ [command].
Proof.
  unfold after_spawn.
  by destruct (spawn command (log_command command w)).
Qed.

Lemma run_ffmpeg_trace command description w :
  trace (run_ffmpeg spawn command description w).2 = trace w ++ [command].
Proof. rewrite run_ffmpeg_eq. apply after_spawn_trace. Qed.

(** The muxer runs exactly [mux_command], with the captions that exist. *)
Lemma mux_eq video_path audio_path srt_path output_path w :
  mux_video_audio_with_captions spawn video_path audio_path srt_path output_path w
  = (r <- run_ffmpeg spawn
            (mux_command video_path audio_path
               (embedded_captions (files w) srt_path) output_path)
            "Creating MP4 with video, audio, and soft captions" ;;
     ret r.1) w.
Proof.
  unfold mux_video_audio_with_captions, mux_command, embedded_captions.
  destruct srt_path as [s|].
  - erewrite bind_Return by reflexivity.
    destruct (bool_decide (is_Some (lookup_node (files w) s)));
      destruct audio_path; simpl; by rewrite <- ?app_assoc.
  - erewrite bind_Return by reflexivity.
    destruct audio_path; simpl; by rewrite <- ?app_assoc.
Qed.

(** ** C7: a subtitle path that does not exist *)

(** C7. Calling the muxer with a subtitle path that does not exist is the
    same computation as calling it without one: the same command is run
    (no caption input, no caption options) with the same outcome and final
    world.  In general the command run is [mux_command] with the caption
    arguments of the subtitle file exactly when one is provided and
    exists. *)
Theorem mux_missing_subtitle_as_absent
    (video_path : Path) (audio_path : option Path) (s output_path : Path)
    (w : world) :
  lookup_node (files w) s = None ->
  mux_video_audio_with_captions spawn video_path audio_path (Some s) output_path w
  = mux_video_audio_with_captions spawn video_path audio_path None output_path w
  /\ trace (mux_video_audio_with_captions spawn video_path audio_path (Some s)
              output_path w).2
     = trace w ++ [mux_command video_path audio_path None output_path]
  /\ (forall srt_path,
        trace (mux_video_audio_with_captions spawn video_path audio_path srt_path
                 output_path w).2
        = trace w ++ [mux_command video_path audio_path
                        (embedded_captions (files w) srt_path) output_path])
  /\ (forall srt_path s',
        embedded_captions (files w) srt_path = Some s'
        <-> srt_path = Some s' /\ is_Some (lookup_node (files w) s')).
Proof.
  intros Hmissing.
  assert (Htrace : forall srt_path,
    trace (mux_video_audio_with_captions spawn video_path audio_path srt_path
             output_path w).2
    = trace w ++ [mux_command video_path audio_path
                    (embedded_captions (files w) srt_path) output_path]).
  { intros srt_path. rewrite mux_eq. unfold bind.
    pose proof (run_ffmpeg_trace
      (mux_command video_path audio_path
         (embedded_captions (files w) srt_path) output_path)
      "Creating MP4 with video, audio, and soft captions" w) as Ht.
    destruct (run_ffmpeg spawn _ _ w) as [[r|e] w']; exact Ht. }
  assert (Hnone : embedded_captions (files w) (Some s) = None).
  { unfold embedded_captions. rewrite bool_decide_eq_false_2; [done|].
    rewrite Hmissing. by intros [? ?]. }
  split; [|split; [|split]].
  - rewrite !mux_eq. by rewrite Hnone.
  - by rewrite Htrace, Hnone.
  - exact Htrace.
  - intros srt_path s'. unfold embedded_captions.
    destruct srt_path as [s0|]; [|naive_solver].
    destruct (decide (is_Some (lookup_node (files w) s0))) as [Hs|Hs].
    + rewrite bool_decide_eq_true_2 by done. naive_solver.
    + rewrite bool_decide_eq_false_2 by done. naive_solver.
Qed.

End Runner.

Lemma mux_missing_subtitle_as_absent_witness :
  let v := Fixture.workspace </> "video_concatenated.webm" in
  let out := ["out"; "video"; "output.mp4"] in
  lookup_node (files Fixture.world0) ["in"; "captions.srt"] = None
  /\ mux_video_audio_with_captions Fixture.ffmpeg_ok v None
       (Some ["in"; "captions.srt"]) out Fixture.world0
     = mux_video_audio_with_captions Fixture.ffmpeg_ok v None None out Fixture.world0.
Proof.
  split; [reflexivity|].
  apply (mux_missing_subtitle_as_absent Fixture.ffmpeg_ok
           (Fixture.workspace </> "video_concatenated.webm") None
           ["in"; "captions.srt"] ["out"; "video"; "output.mp4"] Fixture.world0).
  reflexivity.
Defined.

(** ** The orchestrator *)

Section Pipeline.

Variable spawn : list string -> world -> proc.
Variable gettempdir : Path.
Variable candidate_names : nat -> string.
Variable TMP_MAX : nat.

Local Abbreviation mkdtemp := (mkdtemp gettempdir candidate_names TMP_MAX).
Local Abbreviation run_chunks :=
  (process_chunks spawn gettempdir candidate_names TMP_MAX).

Lemma find_chunk_sequences_world self w r w' :
  find_chunk_sequences self w = (r, w') -> w' = w.
Proof. rewrite find_chunk_sequences_eq. intros Heq. by injection Heq. Qed.

(** Once the scan has found video chunks and the workspace exists, the run
    is the body of the [with] block followed by the removal of the
    workspace. *)
Lemma process_chunks_in_workspace self srt_path w video audio temp_dir w1 :
  find_chunk_sequences self w = (Return (video, audio), w) ->
  video <> [] ->
  mkdtemp w = (Return temp_dir, w1) ->
  run_chunks self srt_path w
  = ((run_in_workspace spawn self srt_path video audio temp_dir w1).1,
     rmtree temp_dir (run_in_workspace spawn self srt_path video audio temp_dir w1).2).
Proof.
  intros Hfind Hvideo Htmp. unfold process_chunks.
  erewrite bind_Return by exact Hfind. clear Hfind.
  destruct video as [|chunk video]; [exfalso; apply Hvideo; reflexivity|].
  unfold with_TemporaryDirectory.
  erewrite bind_Return by exact Htmp.
  unfold finally.
  destruct (run_in_workspace _ _ _ _ _ _ _) as [r w2]. reflexivity.
Qed.

(** What [mkdtemp] returns is a new directory directly below
    [gettempdir()], named [tmp] followed by a candidate name. *)
Lemma mkdtemp_from_Return seq attempts w temp_dir w1 :
  mkdtemp_from gettempdir candidate_names seq attempts w = (Return temp_dir, w1) ->
  (exists k, temp_dir = gettempdir </> ("tmp" +:+ candidate_names k))
  /\ lookup_node (files w) temp_dir = None
  /\ w1 = set_files (<[temp_dir := Dir]> (files w)) w.
Proof.
  revert seq. induction attempts as [|n IH]; intros seq; simpl; [done|].
  unfold try_except, bind, os_mkdir, ret.
  destruct (lookup_node (files w) (gettempdir </> ("tmp" +:+ candidate_names seq)))
    as [nd|] eqn:Hnode.
  - apply IH.
  - destruct (lookup_node (files w)
                (parent (gettempdir </> ("tmp" +:+ candidate_names seq))))
      as [[c|]|]; try done.
    intros [= <- <-]. eauto.
Qed.

Lemma rmtree_inside p q w : p `prefix_of` q -> files (rmtree p w) !! q = None.
Proof.
  intros Hpq. unfold rmtree. simpl.
  apply map_lookup_filter_None. right. intros nd _ Hn. by apply Hn.
Qed.

Lemma rmtree_outside p q w : ~ p `prefix_of` q -> files (rmtree p w) !! q = files w !! q.
Proof.
  intros Hpq. unfold rmtree. simpl.
  destruct (files w !! q) as [nd|] eqn:Hq.
  - by apply map_lookup_filter_Some.
  - apply map_lookup_filter_None. by left.
Qed.

Lemma rmtree_trace p w : trace (rmtree p w) = trace w.
Proof. done. Qed.

Lemma rmtree_clock p w : clock (rmtree p w) = clock w.
Proof. done. Qed.

Lemma lookup_node_nonroot fs p : p <> [] -> lookup_node fs p = fs !! p.
Proof. by destruct p. Qed.

(** In a store closed under parents, every proper prefix of an entry is a
    directory. *)
Lemma parents_exist_prefix fs p q :
  parents_exist fs -> is_Some (fs !! p) -> q `prefix_of` p -> q <> p ->
  lookup_node fs q = Some Dir.
Proof.
  intros Hfs Hp [r ->]. revert Hp.
  induction r as [|c r IH] using rev_ind; intros Hp Hne.
  - by rewrite app_nil_r in Hne.
  - destruct Hp as [nd Hp]. pose proof (Hfs _ _ Hp) as Hpar. simpl in Hpar.
    unfold parent in Hpar. rewrite app_assoc, removelast_last in Hpar.
    destruct (decide (r = [])) as [->|Hr].
    + by rewrite app_nil_r in Hpar.
    + apply IH.
      * assert (q ++ r <> []) as Hnil by (by destruct q, r).
        rewrite lookup_node_nonroot in Hpar by exact Hnil. by rewrite Hpar.
      * intros Heq. apply Hr. apply (app_inv_head q). by rewrite app_nil_r.
Qed.

(** ** C4: no video chunks *)

(** C4. If the scan finds no video chunk, [process_chunks] returns
    [(None, None)] and leaves the world exactly as it was: no workspace is
    created, no file is written, and no external command is run (the trace
    is unchanged), so nothing is concatenated, transcoded or muxed. *)
Theorem process_chunks_no_video
    (self : VideoProcessor) (srt_path : option Path) (w w' : world)
    (audio : list (nat * Path)) :
  find_chunk_sequences self w = (Return ([], audio), w') ->
  run_chunks self srt_path w = (Return (None, None), w)
  /\ trace (run_chunks self srt_path w).2 = trace w
  /\ files (run_chunks self srt_path w).2 = files w.
Proof.
  intros Hfind.
  assert (Hrun : run_chunks self srt_path w = (Return (None, None), w)).
  { pose proof (find_chunk_sequences_world _ _ _ _ Hfind) as ->.
    unfold process_chunks. erewrite bind_Return by exact Hfind. reflexivity. }
  clear Hfind. rewrite Hrun. repeat split; reflexivity.
Qed.

End Pipeline.

Lemma process_chunks_no_video_witness :
  find_chunk_sequences Fixture.processor Fixture.world_no_video
  = (Return ([], [(0, ["in"; "audio"; "audio_0.webm"])]), Fixture.world_no_video)
  /\ process_chunks Fixture.ffmpeg_ok ["tmp"] Fixture.names 100
       Fixture.processor None Fixture.world_no_video
     = (Return (None, None), Fixture.world_no_video).
Proof.
  split; [vm_compute; reflexivity|].
  apply (process_chunks_no_video Fixture.ffmpeg_ok ["tmp"] Fixture.names 100
           Fixture.processor None Fixture.world_no_video Fixture.world_no_video
           [(0, ["in"; "audio"; "audio_0.webm"])]).
  vm_compute; reflexivity.
Defined.

(** ** C8: the workspace is gone when the run is over *)

Section Workspace.

Variable spawn : list string -> world -> proc.
Variable gettempdir : Path.
Variable candidate_names : nat -> string.
Variable TMP_MAX : nat.

Local Abbreviation mkdtemp := (mkdtemp gettempdir candidate_names TMP_MAX).
Local Abbreviation run_chunks :=
  (process_chunks spawn gettempdir candidate_names TMP_MAX).

Lemma prefix_snoc_inv {A} (p q : list A) (x : A) :
  p `prefix_of` q ++ [x] -> p `prefix_of` q \/ p = q ++ [x].
Proof.
  intros [r Hr]. destruct r as [|y r _] using rev_ind.
  - right. by rewrite app_nil_r in Hr.
  - left. rewrite app_assoc in Hr. apply app_inj_tail in Hr as [-> _].
    by exists r.
Qed.

(** A directory that existed before the workspace was created does not lie
    inside the workspace, and neither does a file directly below it whose
    name does not start like a workspace name. *)
Lemma output_outside_workspace fs dir temp_dir file_name c s :
  parents_exist fs ->
  is_Some (lookup_node fs dir) ->
  lookup_node fs temp_dir = None ->
  (exists k, temp_dir = gettempdir </> ("tmp" +:+ candidate_names k)) ->
  file_name = String c s -> c <> "t"%char ->
  ~ temp_dir `prefix_of` dir </> file_name.
Proof.
  intros Hfs Hdir Hfresh [k Hk] Hname Hc Hpre.
  apply prefix_snoc_inv in Hpre as [Hpre | Heq].
  - destruct (decide (temp_dir = dir)) as [->|Hne].
    + rewrite Hfresh in Hdir. by destruct Hdir.
    + destruct dir as [|d dir'].
      { apply prefix_nil_inv in Hpre. done. }
      simpl in Hdir.
      pose proof (parents_exist_prefix _ _ _ Hfs Hdir Hpre Hne) as Hd.
      congruence.
  - rewrite Hk in Heq. unfold joinpath in Heq.
    apply app_inj_tail in Heq as [_ Heq]. rewrite Hname in Heq.
    simpl in Heq. injection Heq as Hchar _. by apply Hc.
Qed.

(** C8. Whenever a run creates its workspace, then on every exit path of
    the [with] block (a normal return of any outcome, or an exception)
    [process_chunks] delivers that same outcome and ends in a world where
    nothing exists at or below the workspace path.  The removal touches
    nothing outside the workspace; in particular the two final output paths,
    for output directories that existed when the workspace was created, are
    left as the pipeline wrote them. *)
Theorem workspace_removed_on_every_exit
    (self : VideoProcessor) (srt_path : option Path) (w w1 : world)
    (video audio : list (nat * Path)) (temp_dir : Path) :
  find_chunk_sequences self w = (Return (video, audio), w) ->
  video <> [] ->
  mkdtemp w = (Return temp_dir, w1) ->
  parents_exist (files w) ->
  is_Some (lookup_node (files w) (video_output_dir self)) ->
  is_Some (lookup_node (files w) (audio_output_dir self)) ->
  let body := run_in_workspace spawn self srt_path video audio temp_dir w1 in
  let final := (run_chunks self srt_path w).2 in
  (run_chunks self srt_path w).1 = body.1
  /\ (forall p, temp_dir `prefix_of` p -> files final !! p = None)
  /\ (forall p, ~ temp_dir `prefix_of` p -> files final !! p = files body.2 !! p)
  /\ (forall now,
        files final !! (output_paths self now).1
        = files body.2 !! (output_paths self now).1
        /\ files final !! (output_paths self now).2
           = files body.2 !! (output_paths self now).2).
Proof.
  intros Hfind Hvideo Htmp Hfs Hvdir Hadir body final.
  pose proof (process_chunks_in_workspace spawn gettempdir candidate_names TMP_MAX
                self srt_path w video audio temp_dir w1 Hfind Hvideo Htmp) as Hrun.
  clear Hfind.
  subst final. rewrite Hrun. fold body. cbn [fst snd].
  apply mkdtemp_from_Return in Htmp as (Hk & Hfresh & _).
  split; [reflexivity|]. split; [|split].
  - intros p Hp. by apply rmtree_inside.
  - intros p Hp. by apply rmtree_outside.
  - intros now. unfold output_paths. cbn [fst snd].
    split; apply rmtree_outside.
    + eapply (output_outside_workspace _ _ _ _ "o"%char);
        [exact Hfs | exact Hvdir | exact Hfresh | exact Hk | reflexivity | discriminate].
    + eapply (output_outside_workspace _ _ _ _ "a"%char);
        [exact Hfs | exact Hadir | exact Hfresh | exact Hk | reflexivity | discriminate].
Qed.

End Workspace.

Lemma parents_exist_disk : parents_exist Fixture.disk.
Proof.
  apply map_Forall_to_list. vm_compute. repeat constructor.
Qed.

Lemma workspace_removed_on_every_exit_witness :
  files (process_chunks Fixture.ffmpeg_ok ["tmp"] Fixture.names 100
           Fixture.processor None Fixture.world0).2 !! Fixture.workspace = None
  /\ files (process_chunks Fixture.ffmpeg_ok ["tmp"] Fixture.names 100
              Fixture.processor None Fixture.world0).2
     !! (Fixture.workspace </> "video_concatenated.webm") = None.
Proof.
  assert (Hfind : find_chunk_sequences Fixture.processor Fixture.world0
                  = (Return ([(0, ["in"; "video"; "video_0.webm"]);
                              (2, ["in"; "video"; "video_2.webm"]);
                              (5, ["in"; "video"; "video_5.webm"])],
                             [(0, ["in"; "audio"; "audio_0.webm"])]),
                     Fixture.world0))
    by (vm_compute; reflexivity).
  assert (Htmp : mkdtemp ["tmp"] Fixture.names 100 Fixture.world0
                 = (Return Fixture.workspace,
                    (mkdtemp ["tmp"] Fixture.names 100 Fixture.world0).2))
    by (vm_compute; reflexivity).
  assert (Hvdir : is_Some (lookup_node (files Fixture.world0)
                             (video_output_dir Fixture.processor)))
    by (vm_compute; eauto).
  assert (Hadir : is_Some (lookup_node (files Fixture.world0)
                             (audio_output_dir Fixture.processor)))
    by (vm_compute; eauto).
  pose proof (workspace_removed_on_every_exit
    Fixture.ffmpeg_ok ["tmp"] Fixture.names 100 Fixture.processor None
    Fixture.world0 _ _ _ Fixture.workspace
    Hfind ltac:(discriminate) Htmp parents_exist_disk Hvdir Hadir) as H.
  cbv zeta in H. destruct H as (_ & Hgone & _).
  split; apply Hgone.
  - by exists [].
  - by exists ["video_concatenated.webm"].
Defined.

(** ** C5, C6: partial failures *)

Section Degradation.

Variable spawn : list string -> world -> proc.
Variable gettempdir : Path.
Variable candidate_names : nat -> string.
Variable TMP_MAX : nat.

Local Abbreviation mkdtemp := (mkdtemp gettempdir candidate_names TMP_MAX).
Local Abbreviation run_chunks :=
  (process_chunks spawn gettempdir candidate_names TMP_MAX).

(** Step 4 never raises: it yields the WAV path exactly when there is a
    repaired audio intermediate on disk and the conversion exits with
    status 0. *)
Lemma save_wav_step_eq audio_concat_path final_audio_path w :
  save_wav_step spawn audio_concat_path final_audio_path w
  = match audio_concat_path with
    | None => (Return None, w)
    | Some p =>
        if bool_decide (is_Some (lookup_node (files w) p)) then
          (match spawn (wav_command p final_audio_path)
                   (log_command (wav_command p final_audio_path) w) with
           | Exited rc _ _ _ _ =>
               Return (if (rc =? 0)%Z then Some final_audio_path else None)
           | _ => Return None
           end,
           after_spawn spawn (wav_command p final_audio_path) w)
        else (Return None, w)
    end.
Proof.
  unfold save_wav_step. destruct audio_concat_path as [p|]; [|done].
  erewrite bind_Return by reflexivity.
  destruct (bool_decide (is_Some (lookup_node (files w) p))); [|done].
  unfold try_except, bind. rewrite run_ffmpeg_eq. unfold run_result.
  destruct (spawn _ _) as [rc out err fs now| | | |rc fs now]; try reflexivity.
  by destruct (rc =? 0)%Z.
Qed.

Lemma save_wav_step_Return audio_concat_path final_audio_path w :
  exists saved w',
    save_wav_step spawn audio_concat_path final_audio_path w = (Return saved, w')
    /\ (saved = None \/ saved = Some final_audio_path).
Proof.
  rewrite save_wav_step_eq. destruct audio_concat_path as [p|]; [|eauto].
  destruct (bool_decide _); [|eauto].
  destruct (spawn _ _) as [rc out err fs now| | | |rc fs now]; [|eauto..].
  destruct (rc =? 0)%Z; eauto.
Qed.

(** The body of the [with] block once both concatenation steps are over. *)
Lemma run_in_workspace_after_concat
    self srt_path video audio temp_dir w1 w2 audio_concat_path w3 saved w4 :
  concatenate_raw_chunks spawn video (temp_dir </> "video_concatenated.webm")
    "video" w1 = (Return true, w2) ->
  concat_audio_step spawn audio temp_dir w2 = (Return audio_concat_path, w3) ->
  save_wav_step spawn audio_concat_path (output_paths self (clock w3)).2 w3
    = (Return saved, w4) ->
  run_in_workspace spawn self srt_path video audio temp_dir w1
  = match mux_video_audio_with_captions spawn
            (temp_dir </> "video_concatenated.webm") audio_concat_path srt_path
            (output_paths self (clock w3)).1 w4 with
    | (Return ok, w5) =>
        (Return (if ok : bool then Some (output_paths self (clock w3)).1 else None,
                 saved), w5)
    | (Raise e, w5) => (Raise e, w5)
    end.
Proof.
  intros Hvideo Haudio Hwav. unfold run_in_workspace.
  erewrite bind_Return by exact Hvideo. simpl.
  erewrite bind_Return by exact Haudio.
  erewrite bind_Return by reflexivity.
  erewrite bind_Return by exact Hwav.
  unfold bind.
  destruct (mux_video_audio_with_captions _ _ _ _ _ _) as [[ok|e] w5]; [|done].
  by destruct ok.
Qed.

(** C5. If audio fragments exist and their concatenation fails after the
    video concatenation succeeded, the rest of the run is the audio-free
    one: no WAV conversion is run, the only external command after the
    failure is the mux command without audio input and audio codec options,
    the audio field of the outcome is absent, and the video field is the
    final video path determined by the mux step alone.  A run that found no
    audio at all and reached the same world after concatenation ends in the
    same outcome and the same world. *)
Theorem audio_failure_degrades_to_video_only
    (self : VideoProcessor) (srt_path : option Path) (w w1 w2 w3 : world)
    (video audio : list (nat * Path)) (temp_dir : Path) :
  find_chunk_sequences self w = (Return (video, audio), w) ->
  video <> [] ->
  audio <> [] ->
  mkdtemp w = (Return temp_dir, w1) ->
  concatenate_raw_chunks spawn video (temp_dir </> "video_concatenated.webm")
    "video" w1 = (Return true, w2) ->
  concatenate_raw_chunks spawn audio (temp_dir </> "audio_concatenated.webm")
    "audio" w2 = (Return false, w3) ->
  let video_concat_path := temp_dir </> "video_concatenated.webm" in
  let final_video_path := (output_paths self (clock w3)).1 in
  let mux := mux_video_audio_with_captions spawn video_concat_path None srt_path
               final_video_path w3 in
  run_chunks self srt_path w
  = (match mux.1 with
     | Return ok => Return (if ok : bool then Some final_video_path else None, None)
     | Raise e => Raise e
     end, rmtree temp_dir mux.2)
  /\ trace (run_chunks self srt_path w).2
     = trace w3 ++ [mux_command video_concat_path None
                      (embedded_captions (files w3) srt_path) final_video_path]
  /\ (forall w1',
        concatenate_raw_chunks spawn video video_concat_path "video" w1'
          = (Return true, w3) ->
        run_in_workspace spawn self srt_path video [] temp_dir w1'
        = run_in_workspace spawn self srt_path video audio temp_dir w1).
Proof.
  intros Hfind Hvideo Haudio Htmp Hv Ha video_concat_path final_video_path mux.
  pose proof (process_chunks_in_workspace spawn gettempdir candidate_names TMP_MAX
                self srt_path w video audio temp_dir w1 Hfind Hvideo Htmp) as Hws.
  clear Hfind.
  assert (Hstep : concat_audio_step spawn audio temp_dir w2 = (Return None, w3)).
  { unfold concat_audio_step. destruct audio as [|chunk audio'].
    - exfalso. apply Haudio. reflexivity.
    - erewrite bind_Return by exact Ha. reflexivity. }
  assert (Hbody : run_in_workspace spawn self srt_path video audio temp_dir w1
                  = (match mux.1 with
                     | Return ok =>
                         Return (if ok : bool then Some final_video_path else None, None)
                     | Raise e => Raise e
                     end, mux.2)).
  { erewrite run_in_workspace_after_concat by (try exact Hv; try exact Hstep; reflexivity).
    subst mux video_concat_path final_video_path.
    by destruct (mux_video_audio_with_captions _ _ _ _ _ _) as [[ok|e] w5]. }
  assert (Hrun : run_chunks self srt_path w
                 = (match mux.1 with
                    | Return ok =>
                        Return (if ok : bool then Some final_video_path else None, None)
                    | Raise e => Raise e
                    end, rmtree temp_dir mux.2)).
  { rewrite Hws, Hbody. reflexivity. }
  split; [exact Hrun|]. split.
  - rewrite Hrun. cbn [fst snd]. rewrite rmtree_trace. subst mux.
    assert (Htr : forall sp,
      trace (mux_video_audio_with_captions spawn video_concat_path None sp
               final_video_path w3).2
      = trace w3 ++ [mux_command video_concat_path None
                       (embedded_captions (files w3) sp) final_video_path]).
    { intros sp. rewrite mux_eq. unfold bind.
      pose proof (run_ffmpeg_trace spawn
        (mux_command video_concat_path None (embedded_captions (files w3) sp)
           final_video_path)
        "Creating MP4 with video, audio, and soft captions" w3) as Ht.
      by destruct (run_ffmpeg spawn _ _ w3) as [[r|e] w']. }
    apply Htr.
  - intros w1' Hv'. rewrite Hbody.
    erewrite run_in_workspace_after_concat
      by (try exact Hv'; reflexivity).
    subst mux video_concat_path final_video_path.
    by destruct (mux_video_audio_with_captions _ _ _ _ _ _) as [[ok|e] w5].
Qed.

(** C6. If the mux step returns failure, [process_chunks] returns an absent
    video path together with whatever standalone audio path step 4 had
    produced: the audio field is the WAV path exactly when a repaired audio
    intermediate existed and its conversion exited with status 0, whether or
    not the mux then fails. *)
Theorem mux_failure_keeps_saved_audio
    (self : VideoProcessor) (srt_path : option Path) (w w1 w2 w3 w4 w5 : world)
    (video audio : list (nat * Path)) (temp_dir : Path)
    (audio_concat_path saved : option Path) :
  find_chunk_sequences self w = (Return (video, audio), w) ->
  video <> [] ->
  mkdtemp w = (Return temp_dir, w1) ->
  concatenate_raw_chunks spawn video (temp_dir </> "video_concatenated.webm")
    "video" w1 = (Return true, w2) ->
  concat_audio_step spawn audio temp_dir w2 = (Return audio_concat_path, w3) ->
  save_wav_step spawn audio_concat_path (output_paths self (clock w3)).2 w3
    = (Return saved, w4) ->
  mux_video_audio_with_captions spawn (temp_dir </> "video_concatenated.webm")
    audio_concat_path srt_path (output_paths self (clock w3)).1 w4
    = (Return false, w5) ->
  run_chunks self srt_path w = (Return (None, saved), rmtree temp_dir w5)
  /\ (saved = Some (output_paths self (clock w3)).2
      <-> exists p out err fs now,
            audio_concat_path = Some p
            /\ is_Some (lookup_node (files w3) p)
            /\ spawn (wav_command p (output_paths self (clock w3)).2)
                 (log_command (wav_command p (output_paths self (clock w3)).2) w3)
               = Exited 0 out err fs now)
  /\ (saved = None \/ saved = Some (output_paths self (clock w3)).2).
Proof.
  intros Hfind Hvideo Htmp Hv Ha Hwav Hmux.
  pose proof (process_chunks_in_workspace spawn gettempdir candidate_names TMP_MAX
                self srt_path w video audio temp_dir w1 Hfind Hvideo Htmp) as Hws.
  clear Hfind.
  split; [|clear Hws Hv Ha Hmux Htmp Hvideo; split].
  - rewrite Hws.
    erewrite run_in_workspace_after_concat by eassumption.
    rewrite Hmux. reflexivity.
  - rewrite save_wav_step_eq in Hwav.
    destruct audio_concat_path as [p|].
    2:{ injection Hwav as <- _. split; [done|]. by intros (? & ? & ? & ? & ? & ? & _). }
    destruct (decide (is_Some (lookup_node (files w3) p))) as [Hp|Hp].
    2:{ rewrite bool_decide_eq_false_2 in Hwav by done. injection Hwav as <- _.
        split; [done|]. intros (? & ? & ? & ? & ? & [= <-] & ? & _). done. }
    rewrite bool_decide_eq_true_2 in Hwav by done.
    destruct (spawn _ _) as [rc out err fs now| | | |rc fs now] eqn:Hsp.
    2-5: (injection Hwav as <- _; split; [done|];
          intros (? & ? & ? & ? & ? & [= <-] & _ & Heq);
          rewrite Hsp in Heq; discriminate).
    destruct (Z.eqb_spec rc 0) as [->|Hrc]; injection Hwav as <- _.
    + split; [|done]. intros _. exists p, out, err, fs, now. done.
    + split; [done|]. intros (? & ? & ? & ? & ? & [= <-] & _ & Heq).
      rewrite Hsp in Heq. congruence.
  - destruct (save_wav_step_Return audio_concat_path
                (output_paths self (clock w3)).2 w3) as (s & w' & Hs & Hor).
    rewrite Hs in Hwav. by injection Hwav as <- _.
Qed.

End Degradation.

Lemma audio_failure_degrades_to_video_only_witness :
  (process_chunks (Fixture.ffmpeg_failing Fixture.is_audio_repair) ["tmp"]
     Fixture.names 100 Fixture.processor None Fixture.world0).1
  = Return (Some ["out"; "video"; "output_2025-06-29_09-05-09.mp4"], None).
Proof.
  pose (spawn := Fixture.ffmpeg_failing Fixture.is_audio_repair).
  pose (video := [(0, ["in"; "video"; "video_0.webm"]);
                  (2, ["in"; "video"; "video_2.webm"]);
                  (5, ["in"; "video"; "video_5.webm"])]).
  pose (audio := [(0, ["in"; "audio"; "audio_0.webm"])]).
  pose (w1 := (mkdtemp ["tmp"] Fixture.names 100 Fixture.world0).2).
  pose (w2 := (concatenate_raw_chunks spawn video
                 (Fixture.workspace </> "video_concatenated.webm") "video" w1).2).
  pose (w3 := (concatenate_raw_chunks spawn audio
                 (Fixture.workspace </> "audio_concatenated.webm") "audio" w2).2).
  assert (Hfind : find_chunk_sequences Fixture.processor Fixture.world0
                  = (Return (video, audio), Fixture.world0))
    by (vm_compute; reflexivity).
  assert (Htmp : mkdtemp ["tmp"] Fixture.names 100 Fixture.world0
                 = (Return Fixture.workspace, w1))
    by (vm_compute; reflexivity).
  assert (Hv : concatenate_raw_chunks spawn video
                 (Fixture.workspace </> "video_concatenated.webm") "video" w1
               = (Return true, w2))
    by (vm_compute; reflexivity).
  assert (Ha : concatenate_raw_chunks spawn audio
                 (Fixture.workspace </> "audio_concatenated.webm") "audio" w2
               = (Return false, w3))
    by (vm_compute; reflexivity).
  pose proof (audio_failure_degrades_to_video_only spawn ["tmp"] Fixture.names 100
                Fixture.processor None Fixture.world0 w1 w2 w3 video audio
                Fixture.workspace Hfind ltac:(discriminate) ltac:(discriminate)
                Htmp Hv Ha) as H.
  cbv zeta in H. destruct H as (Hrun & _).
  unfold spawn in Hrun. rewrite Hrun. vm_compute. reflexivity.
Defined.

Lemma mux_failure_keeps_saved_audio_witness :
  (process_chunks (Fixture.ffmpeg_failing Fixture.is_mux) ["tmp"]
     Fixture.names 100 Fixture.processor None Fixture.world0).1
  = Return (None, Some ["out"; "audio"; "audio_2025-06-29_09-05-09.wav"]).
Proof.
  pose (spawn := Fixture.ffmpeg_failing Fixture.is_mux).
  pose (video := [(0, ["in"; "video"; "video_0.webm"]);
                  (2, ["in"; "video"; "video_2.webm"]);
                  (5, ["in"; "video"; "video_5.webm"])]).
  pose (audio := [(0, ["in"; "audio"; "audio_0.webm"])]).
  pose (video_concat_path := Fixture.workspace </> "video_concatenated.webm").
  pose (audio_concat_path := Fixture.workspace </> "audio_concatenated.webm").
  pose (w1 := (mkdtemp ["tmp"] Fixture.names 100 Fixture.world0).2).
  pose (w2 := (concatenate_raw_chunks spawn video video_concat_path "video" w1).2).
  pose (w3 := (concat_audio_step spawn audio Fixture.workspace w2).2).
  pose (saved := ["out"; "audio"; "audio_2025-06-29_09-05-09.wav"]).
  pose (w4 := (save_wav_step spawn (Some audio_concat_path)
                 (output_paths Fixture.processor (clock w3)).2 w3).2).
  pose (w5 := (mux_video_audio_with_captions spawn video_concat_path
                 (Some audio_concat_path) None
                 (output_paths Fixture.processor (clock w3)).1 w4).2).
  assert (Hfind : find_chunk_sequences Fixture.processor Fixture.world0
                  = (Return (video, audio), Fixture.world0))
    by (vm_compute; reflexivity).
  assert (Htmp : mkdtemp ["tmp"] Fixture.names 100 Fixture.world0
                 = (Return Fixture.workspace, w1))
    by (vm_compute; reflexivity).
  assert (Hv : concatenate_raw_chunks spawn video video_concat_path "video" w1
               = (Return true, w2))
    by (vm_compute; reflexivity).
  assert (Ha : concat_audio_step spawn audio Fixture.workspace w2
               = (Return (Some audio_concat_path), w3))
    by (vm_compute; reflexivity).
  assert (Hwav : save_wav_step spawn (Some audio_concat_path)
                   (output_paths Fixture.processor (clock w3)).2 w3
                 = (Return (Some saved), w4))
    by (vm_compute; reflexivity).
  assert (Hmux : mux_video_audio_with_captions spawn video_concat_path
                   (Some audio_concat_path) None
                   (output_paths Fixture.processor (clock w3)).1 w4
                 = (Return false, w5))
    by (vm_compute; reflexivity).
  pose proof (mux_failure_keeps_saved_audio spawn ["tmp"] Fixture.names 100
                Fixture.processor None Fixture.world0 w1 w2 w3 w4 w5 video audio
                Fixture.workspace (Some audio_concat_path) (Some saved)
                Hfind ltac:(discriminate) Htmp Hv Ha Hwav Hmux) as H.
  destruct H as (Hrun & _).
  unfold spawn in Hrun. rewrite Hrun. reflexivity.
Defined.

(** ** The concatenator *)

Section Concatenator.

Variable spawn : list string -> world -> proc.

Lemma lookup_node_insert_ne fs p q nd :
  p <> q -> lookup_node (<[p := nd]> fs) q = lookup_node fs q.
Proof. intros Hne. destruct q; [done|]. simpl. by rewrite lookup_insert_ne. Qed.

Lemma writable_nonroot fs p : writable fs p -> p <> [].
Proof. intros [[c Hc] | [Hn _]] ->; simpl in *; discriminate. Qed.

Lemma open_wb_writable p w :
  writable (files w) p ->
  open_wb p w = (Return tt, set_files (<[p := File []]> (files w)) w).
Proof.
  unfold open_wb. intros [[c Hc] | [Hn Hp]].
  - by rewrite Hc.
  - by rewrite Hn, Hp.
Qed.

(** [if p.exists(): p.unlink()] by what stands at [p]. *)
Lemma unlink_if_exists_file p w content :
  lookup_node (files w) p = Some (File content) ->
  unlink_if_exists p w = (Return tt, set_files (delete p (files w)) w).
Proof.
  intros Hp. unfold unlink_if_exists, bind, path_exists, gets.
  rewrite bool_decide_eq_true_2 by (rewrite Hp; eauto).
  unfold unlink. by rewrite Hp.
Qed.

Lemma unlink_if_exists_dir p w :
  lookup_node (files w) p = Some Dir ->
  unlink_if_exists p w = (Raise IsADirectoryError, w).
Proof.
  intros Hp. unfold unlink_if_exists, bind, path_exists, gets.
  rewrite bool_decide_eq_true_2 by (rewrite Hp; eauto).
  unfold unlink. by rewrite Hp.
Qed.

Lemma unlink_if_exists_missing p w :
  lookup_node (files w) p = None ->
  unlink_if_exists p w = (Return tt, w).
Proof.
  intros Hp. unfold unlink_if_exists, bind, path_exists, gets.
  rewrite bool_decide_eq_false_2; [done|]. rewrite Hp. by intros [? ?].
Qed.

Lemma contents_insert_ne fs temp nd (chunks : list (nat * Path)) :
  temp ∉ chunks.*2 ->
  (fun chunk : nat * Path => content_of (<[temp := nd]> fs) chunk.2) <$> chunks
  = (fun chunk : nat * Path => content_of fs chunk.2) <$> chunks.
Proof.
  induction chunks as [|chunk chunks IH]; [done|].
  rewrite fmap_cons. intros Hnot. apply not_elem_of_cons in Hnot as [Hne Hnot].
  rewrite !fmap_cons. rewrite IH by done. f_equal.
  unfold content_of. by rewrite lookup_node_insert_ne.
Qed.

(** The copying loop: every chunk's bytes are appended, in list order, to
    what the intermediate already holds. *)
Lemma for_each_write_chunks temp (chunks : list (nat * Path)) :
  forall w acc,
    files w !! temp = Some (File acc) ->
    (forall chunk, chunk ∈ chunks -> is_file (files w) chunk.2) ->
    temp ∉ chunks.*2 ->
    for_each chunks (fun chunk =>
      data <- read_bytes chunk.2 ;; write_bytes temp data) w
    = (Return tt,
       set_files (<[temp := File (acc ++ concat ((fun chunk : nat * Path =>
                     content_of (files w) chunk.2) <$> chunks))]> (files w)) w).
Proof.
  induction chunks as [|chunk chunks IH]; intros w acc Htemp Hfiles Hnot.
  - simpl. rewrite app_nil_r. rewrite insert_id by done. by destruct w.
  - rewrite fmap_cons in Hnot. apply not_elem_of_cons in Hnot as [Hne Hnot].
    destruct (Hfiles chunk) as [c Hc]; [by left|].
    simpl.
    assert (Hbody : (data <- read_bytes chunk.2 ;; write_bytes temp data) w
                    = (Return tt,
                       set_files (<[temp := File (acc ++ c)]> (files w)) w)).
    { unfold bind, read_bytes. rewrite Hc. unfold write_bytes, modify.
      by rewrite Htemp. }
    erewrite bind_Return by exact Hbody.
    rewrite (IH _ (acc ++ c)).
    + simpl. rewrite insert_insert_eq. rewrite contents_insert_ne by done.
      unfold content_of at 2. rewrite Hc. by rewrite <- app_assoc.
    + simpl. apply lookup_insert_eq.
    + intros chunk' Hin. simpl.
      destruct (Hfiles chunk') as [c' Hc']; [by right|].
      exists c'. rewrite lookup_node_insert_ne; [done|].
      intros ->. apply Hnot. apply list_elem_of_fmap. by exists chunk'.
    + done.
Qed.

(** The [with open(temp_concat_path, 'wb')] block leaves the chunks' bytes,
    in list order, at the intermediate path and touches nothing else. *)
Lemma write_raw_concat_spec temp (chunks : list (nat * Path)) w :
  writable (files w) temp ->
  (forall chunk, chunk ∈ chunks -> is_file (files w) chunk.2) ->
  temp ∉ chunks.*2 ->
  write_raw_concat temp chunks w
  = (Return tt,
     set_files (<[temp := File (concat ((fun chunk : nat * Path =>
                   content_of (files w) chunk.2) <$> chunks))]> (files w)) w).
Proof.
  intros Hw Hfiles Hnot. unfold write_raw_concat.
  erewrite bind_Return by (by apply open_wb_writable).
  rewrite (for_each_write_chunks temp chunks _ []).
  - simpl. rewrite insert_insert_eq. by rewrite contents_insert_ne.
  - simpl. apply lookup_insert_eq.
  - intros chunk Hin. simpl. destruct (Hfiles chunk Hin) as [c Hc].
    exists c. rewrite lookup_node_insert_ne; [done|].
    intros ->. apply Hnot. apply list_elem_of_fmap. by exists chunk.
  - done.
Qed.

Lemma concatenate_raw_chunks_after_write chunks output_path chunk_type temp w w1 :
  chunks <> [] ->
  with_suffix output_path ".temp.webm" = Some temp ->
  write_raw_concat temp chunks w = (Return tt, w1) ->
  concatenate_raw_chunks spawn chunks output_path chunk_type w
  = repair_and_clean_up spawn temp output_path chunk_type w1.
Proof.
  intros Hne Hsfx Hwrite. unfold concatenate_raw_chunks.
  destruct chunks as [|chunk chunks]; [done|].
  rewrite Hsfx. erewrite bind_Return by reflexivity.
  unfold repair_and_clean_up, try_except.
  erewrite bind_Return by exact Hwrite. reflexivity.
Qed.

(** ** C3: the raw intermediate *)

(** C3. For a non-empty fragment sequence (strictly ascending indices) whose
    fragments are regular files, and an intermediate path that can be opened
    for writing and is none of the fragments, [concatenate_raw_chunks] first
    brings the file system into the state where the intermediate holds
    exactly the fragments' bytes laid end to end in ascending index order
    and every other path is as before; the repair command is then run in
    that state. *)
Theorem raw_intermediate_is_concatenation
    (chunks : list (nat * Path)) (output_path temp : Path)
    (chunk_type : string) (w : world) :
  chunks <> [] ->
  ascending chunks ->
  with_suffix output_path ".temp.webm" = Some temp ->
  writable (files w) temp ->
  (forall chunk, chunk ∈ chunks -> is_file (files w) chunk.2) ->
  temp ∉ chunks.*2 ->
  let raw := bytes_in_index_order (files w) chunks in
  let w1 := set_files (<[temp := File raw]> (files w)) w in
  write_raw_concat temp chunks w = (Return tt, w1)
  /\ files w1 !! temp = Some (File raw)
  /\ (forall p, p <> temp -> files w1 !! p = files w !! p)
  /\ concatenate_raw_chunks spawn chunks output_path chunk_type w
     = repair_and_clean_up spawn temp output_path chunk_type w1.
Proof.
  intros Hne Hasc Hsfx Hw Hfiles Hnot raw w1.
  assert (Hwrite : write_raw_concat temp chunks w = (Return tt, w1)).
  { rewrite write_raw_concat_spec by done. subst w1 raw.
    unfold bytes_in_index_order. by rewrite sort_by_index_ascending. }
  split; [exact Hwrite|]. split; [|split].
  - subst w1. simpl. apply lookup_insert_eq.
  - intros p Hp. subst w1. simpl. by rewrite lookup_insert_ne.
  - by apply concatenate_raw_chunks_after_write.
Qed.

(** When the intermediate path is an existing directory the function does
    not return: opening it fails, and so does the clean-up in the handler. *)
Lemma concatenate_raw_chunks_temp_is_directory
    chunks output_path chunk_type temp w :
  chunks <> [] ->
  with_suffix output_path ".temp.webm" = Some temp ->
  files w !! temp = Some Dir ->
  concatenate_raw_chunks spawn chunks output_path chunk_type w
  = (Raise IsADirectoryError, w).
Proof.
  intros Hne Hsfx Hdir. unfold concatenate_raw_chunks.
  destruct chunks as [|chunk chunks]; [done|].
  rewrite Hsfx. erewrite bind_Return by reflexivity.
  assert (Hnode : lookup_node (files w) temp = Some Dir).
  { destruct temp; [|done]. done. }
  assert (Hopen : open_wb temp w = (Raise IsADirectoryError, w)).
  { unfold open_wb. by rewrite Hnode. }
  assert (Hwrite : write_raw_concat temp (chunk :: chunks) w
                   = (Raise IsADirectoryError, w)).
  { unfold write_raw_concat. by apply bind_Raise. }
  erewrite try_except_Raise by (apply bind_Raise; exact Hwrite).
  by erewrite bind_Raise by (by apply unlink_if_exists_dir).
Qed.

End Concatenator.

Lemma raw_intermediate_is_concatenation_witness :
  files (write_raw_concat ["tmp"; "video_concatenated.temp.webm"]
           [(0, ["in"; "video"; "video_0.webm"]);
            (2, ["in"; "video"; "video_2.webm"]);
            (5, ["in"; "video"; "video_5.webm"])] Fixture.world0).2
    !! ["tmp"; "video_concatenated.temp.webm"]
  = Some (File [x01; x02; x03; x04]).
Proof.
  pose (video := [(0, ["in"; "video"; "video_0.webm"]);
                  (2, ["in"; "video"; "video_2.webm"]);
                  (5, ["in"; "video"; "video_5.webm"])]).
  pose (temp := ["tmp"; "video_concatenated.temp.webm"]).
  assert (Hasc : ascending video).
  { unfold ascending, video. simpl. repeat constructor. }
  assert (Hsfx : with_suffix ["tmp"; "video_concatenated.webm"] ".temp.webm"
                 = Some temp)
    by (vm_compute; reflexivity).
  assert (Hw : writable (files Fixture.world0) temp).
  { right. split; vm_compute; reflexivity. }
  assert (Hfiles : forall chunk, chunk ∈ video ->
                     is_file (files Fixture.world0) chunk.2).
  { intros chunk Hin. unfold video in Hin.
    repeat (apply elem_of_cons in Hin as [-> | Hin];
            [eexists; vm_compute; reflexivity|]).
    by apply elem_of_nil in Hin. }
  assert (Hnot : temp ∉ video.*2).
  { unfold video, temp. simpl. intros Hin.
    repeat (apply elem_of_cons in Hin as [Heq | Hin]; [discriminate|]).
    by apply elem_of_nil in Hin. }
  pose proof (raw_intermediate_is_concatenation Fixture.ffmpeg_ok video
                ["tmp"; "video_concatenated.webm"] temp "video" Fixture.world0
                ltac:(discriminate) Hasc Hsfx Hw Hfiles Hnot) as H.
  cbv zeta in H. destruct H as (Hwrite & Hlookup & _).
  fold video temp. rewrite Hwrite. cbn [snd]. rewrite Hlookup.
  vm_compute. reflexivity.
Defined.


(** ** C9: the names of the two outputs *)

(** Against C9 as stated: the run starts at 09:05:07, the repair of the
    video takes the clock to 09:05:09, and both outputs are stamped
    09-05-09, not with the start time. *)
Lemma output_stamp_is_not_the_start_time :
  strftime (clock Fixture.world0) = "2025-06-29_09-05-07"
  /\ (process_chunks Fixture.ffmpeg_ok ["tmp"] Fixture.names 100
        Fixture.processor None Fixture.world0).1
     = Return (Some ["out"; "video"; "output_2025-06-29_09-05-09.mp4"],
               Some ["out"; "audio"; "audio_2025-06-29_09-05-09.wav"])
  /\ (process_chunks Fixture.ffmpeg_ok ["tmp"] Fixture.names 100
        Fixture.processor None Fixture.world0).1
     <> Return (Some (output_paths Fixture.processor (clock Fixture.world0)).1,
                Some (output_paths Fixture.processor (clock Fixture.world0)).2).
Proof.
  split; [vm_compute; reflexivity|].
  split; [vm_compute; reflexivity|].
  vm_compute. discriminate.
Qed.

Section Directories.

Lemma lookup_node_snoc fs q c : lookup_node fs (q ++ [c]) = fs !! (q ++ [c]).
Proof. by destruct q. Qed.

Lemma no_file_on_path_grow fs fs' p :
  (forall q, fs' !! q = fs !! q \/ fs' !! q = Some Dir) ->
  no_file_on_path fs p -> no_file_on_path fs' p.
Proof.
  intros Hg Hp q c Hq. destruct q as [|x q']; [done|]. simpl.
  destruct (Hg (x :: q')) as [-> | ->]; [|done].
  apply (Hp (x :: q') c Hq).
Qed.

Lemma no_file_on_path_parent fs q c :
  no_file_on_path fs (q ++ [c]) -> no_file_on_path fs q.
Proof.
  intros Hp q' content Hq'. apply Hp. by apply prefix_app_r.
Qed.

(** [mkdir(exist_ok=True)] below an existing directory. *)
Lemma mkdir_exist_ok_spec q c w :
  lookup_node (files w) q = Some Dir ->
  (forall content, files w !! (q ++ [c]) <> Some (File content)) ->
  exists w',
    mkdir_exist_ok (q ++ [c]) w = (Return tt, w')
    /\ files w' !! (q ++ [c]) = Some Dir
    /\ (forall p, files w' !! p = files w !! p \/ files w' !! p = Some Dir).
Proof.
  intros Hparent Hfile. unfold mkdir_exist_ok, try_except, os_mkdir.
  rewrite lookup_node_snoc. unfold parent. rewrite removelast_last.
  destruct (files w !! (q ++ [c])) as [[content|]|] eqn:Hp.
  - by destruct (Hfile content).
  - exists w. unfold bind, is_dir, gets. rewrite lookup_node_snoc, Hp.
    split; [done|]. split; [done|]. by left.
  - rewrite Hparent. eexists. split; [reflexivity|]. simpl.
    split; [apply lookup_insert_eq|].
    intros p. destruct (decide (q ++ [c] = p)) as [<-|Hne].
    + right. apply lookup_insert_eq.
    + left. by apply lookup_insert_ne.
Qed.

(** [mkdir(parents=True, exist_ok=True)] succeeds whenever no regular file
    is in the way, and only ever adds directories. *)
Lemma mkdir_parents_rev_spec rp :
  forall w,
    no_file_on_path (files w) (rev rp) ->
    exists w',
      mkdir_parents_rev rp w = (Return tt, w')
      /\ lookup_node (files w') (rev rp) = Some Dir
      /\ (forall p, files w' !! p = files w !! p \/ files w' !! p = Some Dir).
Proof.
  induction rp as [|c rp IH]; intros w Hp.
  - exists w. split; [reflexivity|]. split; [reflexivity|]. by left.
  - simpl in Hp. simpl. set (p := rev rp ++ [c]) in *.
    unfold try_except at 1. unfold os_mkdir at 1.
    subst p. rewrite lookup_node_snoc. unfold parent. rewrite removelast_last.
    destruct (files w !! (rev rp ++ [c])) as [[content|]|] eqn:Hhere.
    + exfalso. apply (Hp (rev rp ++ [c]) content); [done|].
      by rewrite lookup_node_snoc.
    + exists w. unfold bind, is_dir, gets. rewrite !lookup_node_snoc, Hhere.
      split; [done|]. split; [done|]. by left.
    + destruct (lookup_node (files w) (rev rp)) as [[content|]|] eqn:Hpar.
      * exfalso. apply (Hp (rev rp) content); [|done]. by apply prefix_app_r.
      * eexists. split; [reflexivity|]. simpl. rewrite lookup_node_snoc.
        split; [apply lookup_insert_eq|].
        intros p. destruct (decide (rev rp ++ [c] = p)) as [<-|Hne].
        -- right. apply lookup_insert_eq.
        -- left. by apply lookup_insert_ne.
      * destruct (IH w (no_file_on_path_parent _ _ _ Hp)) as (w1 & Hrec & Hdir & Hgrow).
        erewrite bind_Return by exact Hrec.
        destruct (mkdir_exist_ok_spec (rev rp) c w1 Hdir) as (w2 & Hmk & Hnew & Hgrow2).
        { intros content Hc. destruct (Hgrow (rev rp ++ [c])) as [Heq|Heq];
            rewrite Heq in Hc; [by rewrite Hhere in Hc | done]. }
        exists w2. split; [exact Hmk|]. rewrite lookup_node_snoc.
        split; [exact Hnew|].
        intros p. destruct (Hgrow2 p) as [Heq|Heq]; [|by right].
        rewrite Heq. apply Hgrow.
Qed.

Lemma mkdir_parents_spec p w :
  no_file_on_path (files w) p ->
  exists w',
    mkdir_parents p w = (Return tt, w')
    /\ lookup_node (files w') p = Some Dir
    /\ (forall q, files w' !! q = files w !! q \/ files w' !! q = Some Dir).
Proof.
  intros Hp. unfold mkdir_parents.
  destruct (mkdir_parents_rev_spec (rev p) w) as (w' & Hrun & Hdir & Hgrow).
  { by rewrite rev_involutive. }
  exists w'. by rewrite rev_involutive in Hdir.
Qed.

Lemma lookup_node_grow fs fs' p :
  (forall q, fs' !! q = fs !! q \/ fs' !! q = Some Dir) ->
  lookup_node fs p = Some Dir -> lookup_node fs' p = Some Dir.
Proof.
  intros Hg. destruct p as [|x p']; [done|]. simpl.
  destruct (Hg (x :: p')) as [-> | ->]; done.
Qed.

(** [__init__] creates both output directories (and the transcript
    directory, if one is given) whenever no regular file is in the way. *)
Lemma init_creates_output_dirs
    video_chunks_dir audio_chunks_dir video_output_dir audio_output_dir
    transcript_output_dir w :
  no_file_on_path (files w) video_output_dir ->
  no_file_on_path (files w) audio_output_dir ->
  (forall d, transcript_output_dir = Some d -> no_file_on_path (files w) d) ->
  exists w',
    init video_chunks_dir audio_chunks_dir video_output_dir audio_output_dir
         transcript_output_dir w
    = (Return (mk_VideoProcessor video_chunks_dir audio_chunks_dir
                 video_output_dir audio_output_dir transcript_output_dir), w')
    /\ lookup_node (files w') video_output_dir = Some Dir
    /\ lookup_node (files w') audio_output_dir = Some Dir
    /\ (forall d, transcript_output_dir = Some d ->
          lookup_node (files w') d = Some Dir)
    /\ (forall q, files w' !! q = files w !! q \/ files w' !! q = Some Dir).
Proof.
  intros Hv Ha Ht. unfold init.
  destruct (mkdir_parents_spec video_output_dir w Hv) as (w1 & Hrun1 & Hd1 & Hg1).
  erewrite bind_Return by exact Hrun1.
  destruct (mkdir_parents_spec audio_output_dir w1) as (w2 & Hrun2 & Hd2 & Hg2).
  { by eapply no_file_on_path_grow. }
  erewrite bind_Return by exact Hrun2.
  assert (Hg12 : forall q, files w2 !! q = files w !! q \/ files w2 !! q = Some Dir).
  { intros q. destruct (Hg2 q) as [Heq|Heq]; [|by right]. rewrite Heq. apply Hg1. }
  destruct transcript_output_dir as [d|].
  - destruct (mkdir_parents_spec d w2) as (w3 & Hrun3 & Hd3 & Hg3).
    { eapply no_file_on_path_grow; [exact Hg12|]. by apply Ht. }
    erewrite bind_Return by exact Hrun3.
    exists w3. split; [reflexivity|].
    split.
    { apply (lookup_node_grow _ _ _ Hg3). apply (lookup_node_grow _ _ _ Hg2).
      exact Hd1. }
    split; [apply (lookup_node_grow _ _ _ Hg3); exact Hd2|].
    split; [by intros ? [= <-]|].
    intros q. destruct (Hg3 q) as [Heq|Heq]; [|by right]. rewrite Heq. apply Hg12.
  - erewrite bind_Return by reflexivity.
    exists w2. split; [reflexivity|].
    split; [apply (lookup_node_grow _ _ _ Hg2); exact Hd1|].
    split; [exact Hd2|]. split; [done|exact Hg12].
Qed.

End Directories.

Section Naming.

Variable spawn : list string -> world -> proc.
Variable gettempdir : Path.
Variable candidate_names : nat -> string.
Variable TMP_MAX : nat.

Local Abbreviation mkdtemp := (mkdtemp gettempdir candidate_names TMP_MAX).
Local Abbreviation run_chunks :=
  (process_chunks spawn gettempdir candidate_names TMP_MAX).

Lemma append_assoc (a b c : string) : (a +:+ b) +:+ c = a +:+ b +:+ c.
Proof.
  induction a as [|x a IH]; [reflexivity|].
  change (String x ((a +:+ b) +:+ c) = String x (a +:+ b +:+ c)). by f_equal.
Qed.

(** [str(dir / name)] is [str(dir)], a separator, and [name]. *)
Lemma str_joinpath p n : p <> [] -> str (p </> n) = str p +:+ "/" +:+ n.
Proof.
  unfold str, joinpath. induction p as [|a p IH]; [done|]. intros _.
  destruct p as [|b p]; [reflexivity|].
  change (String.concat "/" ((a :: b :: p) ++ [n]))
    with (a +:+ "/" +:+ String.concat "/" ((b :: p) ++ [n])).
  rewrite IH by done.
  change (String.concat "/" (a :: b :: p))
    with (a +:+ "/" +:+ String.concat "/" (b :: p)).
  rewrite !append_assoc. reflexivity.
Qed.

(** C9, amended.  In a run that gets past the concatenation steps, a
    returned video path is [{videoOutputDir}/output_{timestamp}.mp4] and a
    returned audio path is [{audioOutputDir}/audio_{timestamp}.wav] for one
    and the same timestamp; that timestamp is the clock as it stands after
    the video and audio concatenation steps (not at the start of the run),
    rendered down to the second, so that the microseconds do not matter.
    [__init__] creates both output directories whenever no regular file
    stands in the way. *)
Theorem output_names_share_one_late_stamp
    (self : VideoProcessor) (srt_path : option Path) (w w1 w2 w3 : world)
    (video audio : list (nat * Path)) (temp_dir : Path)
    (audio_concat_path : option Path) :
  find_chunk_sequences self w = (Return (video, audio), w) ->
  video <> [] ->
  mkdtemp w = (Return temp_dir, w1) ->
  concatenate_raw_chunks spawn video (temp_dir </> "video_concatenated.webm")
    "video" w1 = (Return true, w2) ->
  concat_audio_step spawn audio temp_dir w2 = (Return audio_concat_path, w3) ->
  let timestamp := strftime (clock w3) in
  let final_video_path :=
    video_output_dir self </> ("output_" +:+ timestamp +:+ ".mp4") in
  let final_audio_path :=
    audio_output_dir self </> ("audio_" +:+ timestamp +:+ ".wav") in
  (forall video_result audio_result,
     (run_chunks self srt_path w).1 = Return (video_result, audio_result) ->
     (video_result = None \/ video_result = Some final_video_path)
     /\ (audio_result = None \/ audio_result = Some final_audio_path))
  /\ (forall us,
        strftime (mk_datetime (year (clock w3)) (month (clock w3)) (day (clock w3))
                    (hour (clock w3)) (minute (clock w3)) (second (clock w3)) us)
        = timestamp)
  /\ (video_output_dir self <> [] ->
      str final_video_path
      = str (video_output_dir self) +:+ "/" +:+ "output_" +:+ timestamp +:+ ".mp4")
  /\ (audio_output_dir self <> [] ->
      str final_audio_path
      = str (audio_output_dir self) +:+ "/" +:+ "audio_" +:+ timestamp +:+ ".wav")
  /\ (forall w0,
        no_file_on_path (files w0) (video_output_dir self) ->
        no_file_on_path (files w0) (audio_output_dir self) ->
        (forall d, transcript_output_dir self = Some d ->
                   no_file_on_path (files w0) d) ->
        exists w0',
          init (video_chunks_dir self) (audio_chunks_dir self)
               (video_output_dir self) (audio_output_dir self)
               (transcript_output_dir self) w0 = (Return self, w0')
          /\ lookup_node (files w0') (video_output_dir self) = Some Dir
          /\ lookup_node (files w0') (audio_output_dir self) = Some Dir).
Proof.
  intros Hfind Hvideo Htmp Hv Ha timestamp final_video_path final_audio_path.
  pose proof (process_chunks_in_workspace spawn gettempdir candidate_names TMP_MAX
                self srt_path w video audio temp_dir w1 Hfind Hvideo Htmp) as Hws.
  clear Hfind.
  split; [|split; [|split; [|split]]].
  - intros video_result audio_result. rewrite Hws. cbn [fst].
    destruct (save_wav_step_Return spawn audio_concat_path
                (output_paths self (clock w3)).2 w3) as (saved & w4 & Hs & Hor).
    erewrite run_in_workspace_after_concat by eassumption.
    destruct (mux_video_audio_with_captions _ _ _ _ _ _) as [[ok|e] w5];
      cbn [fst]; [|discriminate].
    intros Heq. injection Heq as <- <-.
    split; [|exact Hor]. destruct ok; [right|left]; reflexivity.
  - intros us. reflexivity.
  - intros Hne. subst final_video_path. by rewrite str_joinpath.
  - intros Hne. subst final_audio_path. by rewrite str_joinpath.
  - intros w0 Hvd Had Htd.
    destruct (init_creates_output_dirs (video_chunks_dir self) (audio_chunks_dir self)
                (video_output_dir self) (audio_output_dir self)
                (transcript_output_dir self) w0 Hvd Had Htd)
      as (w0' & Hinit & Hd1 & Hd2 & _).
    exists w0'. split; [|by split]. rewrite Hinit. by destruct self.
Qed.

End Naming.

Lemma output_names_share_one_late_stamp_witness :
  exists timestamp,
    (process_chunks Fixture.ffmpeg_ok ["tmp"] Fixture.names 100
       Fixture.processor None Fixture.world0).1
    = Return (Some (["out"; "video"] </> ("output_" +:+ timestamp +:+ ".mp4")),
              Some (["out"; "audio"] </> ("audio_" +:+ timestamp +:+ ".wav")))
    /\ timestamp = "2025-06-29_09-05-09".
Proof.
  pose (spawn := Fixture.ffmpeg_ok).
  pose (video := [(0, ["in"; "video"; "video_0.webm"]);
                  (2, ["in"; "video"; "video_2.webm"]);
                  (5, ["in"; "video"; "video_5.webm"])]).
  pose (audio := [(0, ["in"; "audio"; "audio_0.webm"])]).
  pose (w1 := (mkdtemp ["tmp"] Fixture.names 100 Fixture.world0).2).
  pose (w2 := (concatenate_raw_chunks spawn video
                 (Fixture.workspace </> "video_concatenated.webm") "video" w1).2).
  pose (w3 := (concat_audio_step spawn audio Fixture.workspace w2).2).
  assert (Hfind : find_chunk_sequences Fixture.processor Fixture.world0
                  = (Return (video, audio), Fixture.world0))
    by (vm_compute; reflexivity).
  assert (Htmp : mkdtemp ["tmp"] Fixture.names 100 Fixture.world0
                 = (Return Fixture.workspace, w1))
    by (vm_compute; reflexivity).
  assert (Hv : concatenate_raw_chunks spawn video
                 (Fixture.workspace </> "video_concatenated.webm") "video" w1
               = (Return true, w2))
    by (vm_compute; reflexivity).
  assert (Ha : concat_audio_step spawn audio Fixture.workspace w2
               = (Return (Some (Fixture.workspace </> "audio_concatenated.webm")), w3))
    by (vm_compute; reflexivity).
  pose proof (output_names_share_one_late_stamp spawn ["tmp"] Fixture.names 100
                Fixture.processor None Fixture.world0 w1 w2 w3 video audio
                Fixture.workspace _ Hfind ltac:(discriminate) Htmp Hv Ha) as H.
  cbv zeta in H. destruct H as (Hnames & _).
  clear Hfind Htmp Hv Ha.
  assert (Hrun : (process_chunks Fixture.ffmpeg_ok ["tmp"] Fixture.names 100
                    Fixture.processor None Fixture.world0).1
                 = Return (Some ["out"; "video"; "output_2025-06-29_09-05-09.mp4"],
                           Some ["out"; "audio"; "audio_2025-06-29_09-05-09.wav"]))
    by (vm_compute; reflexivity).
  exists (strftime (clock w3)). split; [|vm_compute; reflexivity].
  rewrite Hrun.
  destruct (Hnames _ _ Hrun) as [[Hvr|Hvr] [Har|Har]].
  - discriminate Hvr.
  - discriminate Hvr.
  - discriminate Har.
  - exact (f_equal2 (fun video_result audio_result =>
                       Return (video_result, audio_result)) Hvr Har).
Defined.
(** ** C10: the concatenator always answers *)

Section Totality.

Variable spawn : list string -> world -> proc.

Lemma set_files_same w : set_files (files w) w = w.
Proof. by destruct w. Qed.

(** [if p.exists(): p.unlink()] succeeds unless a directory stands at
    [p]. *)
Lemma unlink_if_exists_not_dir p w :
  lookup_node (files w) p <> Some Dir ->
  unlink_if_exists p w = (Return tt, set_files (delete p (files w)) w).
Proof.
  intros Hdir. destruct (lookup_node (files w) p) as [[content|]|] eqn:Hp.
  - by eapply unlink_if_exists_file.
  - by destruct Hdir.
  - rewrite unlink_if_exists_missing by exact Hp.
    destruct p as [|c p]; [discriminate Hp|].
    rewrite delete_id by exact Hp. by rewrite set_files_same.
Qed.

Lemma lookup_node_delete fs p q :
  lookup_node fs q <> Some Dir -> lookup_node (delete p fs) q <> Some Dir.
Proof.
  destruct q as [|c q]; [done|]. simpl. intros Hq.
  destruct (decide (p = c :: q)) as [->|Hne].
  - by rewrite lookup_delete_eq.
  - by rewrite lookup_delete_ne.
Qed.

Lemma lookup_node_insert_file fs p q content :
  lookup_node fs q <> Some Dir ->
  lookup_node (<[p := File content]> fs) q <> Some Dir.
Proof.
  destruct q as [|c q]; [done|]. simpl. intros Hq.
  destruct (decide (p = c :: q)) as [->|Hne].
  - by rewrite lookup_insert_eq.
  - by rewrite lookup_insert_ne.
Qed.

(** One turn of the copying loop changes the intermediate at most, and
    leaves it a regular file. *)
Lemma copy_chunk_keeps_temp temp (chunk : nat * Path) w acc r w' :
  files w !! temp = Some (File acc) ->
  (data <- read_bytes chunk.2 ;; write_bytes temp data) w = (r, w') ->
  exists acc', w' = set_files (<[temp := File acc']> (files w)) w.
Proof.
  intros Htemp. unfold bind, read_bytes.
  assert (Hsame : w = set_files (<[temp := File acc]> (files w)) w).
  { rewrite insert_id by exact Htemp. by rewrite set_files_same. }
  destruct (lookup_node (files w) chunk.2) as [[content|]|].
  - unfold write_bytes, modify. rewrite Htemp. intros [= _ <-]. by eexists.
  - intros [= _ <-]. by exists acc.
  - intros [= _ <-]. by exists acc.
Qed.

Lemma for_each_copy_keeps_temp temp (chunks : list (nat * Path)) :
  forall w acc r w',
    files w !! temp = Some (File acc) ->
    for_each chunks (fun chunk =>
      data <- read_bytes chunk.2 ;; write_bytes temp data) w = (r, w') ->
    exists acc', w' = set_files (<[temp := File acc']> (files w)) w.
Proof.
  induction chunks as [|chunk chunks IH]; intros w acc r w' Htemp Hloop.
  - injection Hloop as _ <-. exists acc.
    rewrite insert_id by exact Htemp. by rewrite set_files_same.
  - simpl in Hloop. unfold bind at 1 in Hloop.
    destruct ((data <- read_bytes chunk.2 ;; write_bytes temp data) w)
      as [[[]|e] w1] eqn:Hchunk.
    + destruct (copy_chunk_keeps_temp _ _ _ _ _ _ Htemp Hchunk) as [acc1 ->].
      apply (IH _ acc1) in Hloop as [acc2 ->]; [|simpl; apply lookup_insert_eq].
      exists acc2. simpl. by rewrite insert_insert_eq.
    + injection Hloop as _ <-.
      by apply (copy_chunk_keeps_temp _ _ _ _ _ _ Htemp Hchunk).
Qed.

(** The [with open(...)] block either ends, normally or not, with a regular
    file at the intermediate path and nothing else changed, or fails to
    open a path at which nothing stands and changes nothing. *)
Lemma write_raw_concat_outcome temp (chunks : list (nat * Path)) w :
  lookup_node (files w) temp <> Some Dir ->
  (exists r acc,
      write_raw_concat temp chunks w
      = (r, set_files (<[temp := File acc]> (files w)) w))
  \/ (exists e,
        write_raw_concat temp chunks w = (Raise e, w)
        /\ lookup_node (files w) temp = None).
Proof.
  intros Hdir. unfold write_raw_concat.
  assert (Hloop : writable (files w) temp ->
    exists r acc,
      (open_wb temp ;;;
       for_each chunks (fun chunk =>
         data <- read_bytes chunk.2 ;; write_bytes temp data)) w
      = (r, set_files (<[temp := File acc]> (files w)) w)).
  { intros Hw. erewrite bind_Return by (by apply open_wb_writable).
    destruct (for_each chunks _ _) as [r w1] eqn:Hloop.
    apply (for_each_copy_keeps_temp _ _ _ []) in Hloop as [acc ->];
      [|simpl; apply lookup_insert_eq].
    exists r, acc. simpl. by rewrite insert_insert_eq. }
  destruct (lookup_node (files w) temp) as [[content|]|] eqn:Htemp.
  - left. apply Hloop. left. by exists content.
  - by destruct Hdir.
  - destruct (lookup_node (files w) (parent temp)) as [[content|]|] eqn:Hparent.
    + right. exists NotADirectoryError. split; [|done].
      apply bind_Raise. unfold open_wb. by rewrite Htemp, Hparent.
    + left. apply Hloop. by right.
    + right. exists FileNotFoundError. split; [|done].
      apply bind_Raise. unfold open_wb. by rewrite Htemp, Hparent.
Qed.

(** The handler's clean-up, where no directory stands at the
    intermediate path. *)
Lemma clean_up_returns_false temp w :
  lookup_node (files w) temp <> Some Dir ->
  (unlink_if_exists temp ;;; ret false) w
  = (Return false, set_files (delete temp (files w)) w).
Proof.
  intros Hdir. by erewrite bind_Return by (by apply unlink_if_exists_not_dir).
Qed.

(** Where no directory stands at the intermediate path, and the repair
    command puts none there, [concatenate_raw_chunks] returns a Boolean;
    [True] only if the intermediate was written in full and the repair
    command ran and exited with status 0.  A path at which no directory
    stood, and at which the repair command puts none, has none
    afterwards. *)
Lemma concatenate_raw_chunks_total
    (chunks : list (nat * Path)) (output_path temp : Path)
    (chunk_type : string) (w : world) :
  with_suffix output_path ".temp.webm" = Some temp ->
  lookup_node (files w) temp <> Some Dir ->
  creates_no_directory_at spawn (repair_command temp output_path) temp ->
  exists b w',
    concatenate_raw_chunks spawn chunks output_path chunk_type w = (Return b, w')
    /\ (b = true ->
        exists w1 out err fs now,
          write_raw_concat temp chunks w = (Return tt, w1)
          /\ spawn (repair_command temp output_path)
               (log_command (repair_command temp output_path) w1)
             = Exited 0 out err fs now)
    /\ (forall q,
          creates_no_directory_at spawn (repair_command temp output_path) q ->
          lookup_node (files w) q <> Some Dir ->
          lookup_node (files w') q <> Some Dir).
Proof.
  intros Hsfx Hdir Hsp. unfold concatenate_raw_chunks.
  destruct chunks as [|chunk chunks].
  { exists false, w. split; [reflexivity|]. split; [discriminate|]. by intros q _ Hq. }
  rewrite Hsfx. erewrite bind_Return by reflexivity.
  set (l := chunk :: chunks). clearbody l.
  set (command := repair_command temp output_path) in *.
  destruct (write_raw_concat_outcome temp l w Hdir)
    as [(r & acc & Hwrite) | (e & Hwrite & Hnone)].
  2:{ (* the intermediate could not be opened *)
      erewrite try_except_Raise by (apply bind_Raise; exact Hwrite).
      rewrite clean_up_returns_false by exact Hdir.
      eexists _, _. split; [reflexivity|]. split; [discriminate|].
      intros q _ Hq. simpl. by apply lookup_node_delete. }
  set (w1 := set_files (<[temp := File acc]> (files w)) w) in *.
  assert (Htemp1 : lookup_node (files w1) temp <> Some Dir).
  { simpl. by apply lookup_node_insert_file. }
  assert (Hkeep1 : forall q, lookup_node (files w) q <> Some Dir ->
                     lookup_node (delete temp (files w1)) q <> Some Dir).
  { intros q Hq. apply lookup_node_delete. simpl. by apply lookup_node_insert_file. }
  destruct r as [[]|e].
  2:{ (* a fragment could not be read *)
      erewrite try_except_Raise by (apply bind_Raise; exact Hwrite).
      rewrite clean_up_returns_false by exact Htemp1.
      eexists _, _. split; [reflexivity|]. split; [discriminate|].
      intros q _ Hq. by apply Hkeep1. }
  unfold try_except. erewrite bind_Return by exact Hwrite.
  unfold bind at 1. rewrite run_ffmpeg_eq. unfold after_spawn.
  pose proof (Hsp (log_command command w1) Htemp1) as Hleft.
  destruct (spawn command (log_command command w1))
    as [rc out err fs now| | | |rc fs now] eqn:Hspawn; cbn [run_result].
  - (* the command ran *)
    set (w2 := set_clock now (set_files fs (log_command command w1))).
    assert (Hres : (if (rc =? 0)%Z then Return (true, out) else Return (false, err))
                   = Return ((rc =? 0)%Z, if (rc =? 0)%Z then out else err))
      by (by destruct (rc =? 0)%Z).
    rewrite Hres.
    erewrite bind_Return by (apply unlink_if_exists_not_dir; exact Hleft).
    eexists _, _. split; [reflexivity|]. cbn [fst]. split.
    + intros Hrc. apply Z.eqb_eq in Hrc. subst rc. by exists w1, out, err, fs, now.
    + intros q Hq Hq0. specialize (Hq (log_command command w1)).
      rewrite Hspawn in Hq. simpl. apply lookup_node_delete, Hq.
      simpl. by apply lookup_node_insert_file.
  - rewrite clean_up_returns_false by exact Htemp1.
    eexists _, _. split; [reflexivity|]. split; [discriminate|].
    intros q _ Hq. by apply Hkeep1.
  - rewrite clean_up_returns_false by exact Htemp1.
    eexists _, _. split; [reflexivity|]. split; [discriminate|].
    intros q _ Hq. by apply Hkeep1.
  - rewrite clean_up_returns_false by exact Htemp1.
    eexists _, _. split; [reflexivity|]. split; [discriminate|].
    intros q _ Hq. by apply Hkeep1.
  - (* the command ran, its output does not decode *)
    rewrite clean_up_returns_false by exact Hleft.
    eexists _, _. split; [reflexivity|]. split; [discriminate|].
    intros q Hq Hq0. specialize (Hq (log_command command w1)).
    rewrite Hspawn in Hq. simpl. apply lookup_node_delete, Hq.
    simpl. by apply lookup_node_insert_file.
Qed.

(** A launch failure in the repair step: the handler removes the
    intermediate and the answer is [False]; nothing else has changed on
    disk, and the clock has not moved. *)
Lemma concatenate_raw_chunks_launch_failure
    (chunks : list (nat * Path)) (output_path temp : Path)
    (chunk_type : string) (w : world) :
  chunks <> [] ->
  with_suffix output_path ".temp.webm" = Some temp ->
  lookup_node (files w) temp <> Some Dir ->
  (forall w1, is_Some (launch_error (spawn (repair_command temp output_path) w1))) ->
  exists w',
    concatenate_raw_chunks spawn chunks output_path chunk_type w = (Return false, w')
    /\ files w' = delete temp (files w)
    /\ clock w' = clock w.
Proof.
  intros Hne Hsfx Hdir Hsp. unfold concatenate_raw_chunks.
  destruct chunks as [|chunk chunks]; [by destruct Hne|]. clear Hne.
  rewrite Hsfx. erewrite bind_Return by reflexivity.
  set (l := chunk :: chunks). clearbody l.
  set (command := repair_command temp output_path) in *.
  destruct (write_raw_concat_outcome temp l w Hdir)
    as [(r & acc & Hwrite) | (e & Hwrite & Hnone)].
  2:{ erewrite try_except_Raise by (apply bind_Raise; exact Hwrite).
      rewrite clean_up_returns_false by exact Hdir.
      eexists. split; [reflexivity|]. done. }
  set (w1 := set_files (<[temp := File acc]> (files w)) w) in *.
  assert (Htemp1 : lookup_node (files w1) temp <> Some Dir).
  { simpl. by apply lookup_node_insert_file. }
  assert (Hfiles1 : delete temp (files w1) = delete temp (files w)).
  { simpl. apply delete_insert_eq. }
  destruct r as [[]|e].
  2:{ erewrite try_except_Raise by (apply bind_Raise; exact Hwrite).
      rewrite clean_up_returns_false by exact Htemp1.
      eexists. split; [reflexivity|]. done. }
  unfold try_except. erewrite bind_Return by exact Hwrite.
  unfold bind at 1. rewrite run_ffmpeg_eq. unfold after_spawn.
  pose proof (Hsp (log_command command w1)) as [e He].
  destruct (spawn command (log_command command w1))
    as [rc out err fs now| | | |rc fs now]; cbn [run_result];
    try discriminate He;
    rewrite clean_up_returns_false by exact Htemp1;
    (eexists; split; [reflexivity|]; done).
Qed.

End Totality.

(** *** The workspace [process_chunks] works in *)

Lemma with_suffix_intermediate (d : Path) :
  with_suffix (d </> "video_concatenated.webm") ".temp.webm"
  = Some (d </> "video_concatenated.temp.webm")
  /\ with_suffix (d </> "audio_concatenated.webm") ".temp.webm"
     = Some (d </> "audio_concatenated.temp.webm").
Proof.
  unfold with_suffix, name, parent, joinpath.
  rewrite !last_last, !removelast_last. split; reflexivity.
Qed.

(** Below a path that does not exist, a store closed under parents holds
    nothing. *)
Lemma fresh_workspace_child fs temp_dir name :
  parents_exist fs -> lookup_node fs temp_dir = None ->
  fs !! (temp_dir </> name) = None.
Proof.
  intros Hfs Hfresh. destruct (fs !! (temp_dir </> name)) as [nd|] eqn:Hp; [|done].
  exfalso.
  assert (Hdir : lookup_node fs temp_dir = Some Dir).
  { apply (parents_exist_prefix fs (temp_dir </> name)); [done|by eexists| |].
    - by exists [name].
    - intros Heq. apply (f_equal length) in Heq. unfold joinpath in Heq.
      rewrite length_app in Heq. simpl in Heq. lia. }
  congruence.
Qed.

(** Nothing stands at a name inside the workspace [mkdtemp] has just
    created. *)
Lemma fresh_workspace_free fs temp_dir name :
  parents_exist fs -> lookup_node fs temp_dir = None ->
  lookup_node (<[temp_dir := Dir]> fs) (temp_dir </> name) = None.
Proof.
  intros Hfs Hfresh. unfold joinpath. rewrite lookup_node_snoc.
  rewrite lookup_insert_ne.
  - by apply fresh_workspace_child.
  - intros Heq. apply (f_equal length) in Heq.
    rewrite length_app in Heq. simpl in Heq. lia.
Qed.

(** Removing a workspace that was created fresh, after a computation that
    wrote inside it only, gives back the file system from before. *)
Lemma rmtree_workspace_restores fs temp_dir w2 :
  parents_exist fs ->
  lookup_node fs temp_dir = None ->
  (forall p, ~ temp_dir `prefix_of` p -> files w2 !! p = (<[temp_dir := Dir]> fs) !! p) ->
  files (rmtree temp_dir w2) = fs.
Proof.
  intros Hfs Hfresh Hout. apply map_eq. intros p.
  destruct (decide (temp_dir `prefix_of` p)) as [Hin|Hnot].
  - rewrite rmtree_inside by done. symmetry.
    destruct (fs !! p) as [nd|] eqn:Hp; [|done]. exfalso.
    destruct (decide (temp_dir = p)) as [->|Hne].
    + destruct p; [done|]. simpl in Hfresh. congruence.
    + pose proof (parents_exist_prefix _ _ _ Hfs (mk_is_Some _ _ Hp) Hin Hne).
      congruence.
  - rewrite rmtree_outside by done. rewrite Hout by done.
    apply lookup_insert_ne. intros ->. by apply Hnot.
Qed.

Section CallSites.

Variable spawn : list string -> world -> proc.
Variable gettempdir : Path.
Variable candidate_names : nat -> string.
Variable TMP_MAX : nat.

Local Abbreviation mkdtemp := (mkdtemp gettempdir candidate_names TMP_MAX).


End CallSites.

Lemma touch_output_creates_no_directory outs command fs p :
  lookup_node fs p <> Some Dir ->
  lookup_node (Fixture.touch_output outs command fs) p <> Some Dir.
Proof.
  intros Hp. induction outs as [|o outs IH]; [exact Hp|]. simpl.
  destruct (String.eqb _ _); [by apply lookup_node_insert_file | exact IH].
Qed.

(** ** C2: what becomes of an invocation that fails *)

(** Against C2 as stated: with a binary that cannot be launched,
    [run_ffmpeg] raises, but the concatenator turns that into [False] and
    [process_chunks] returns [(None, None)] normally, as for any failed
    repair.  And a non-zero exit does raise when the captured output is not
    text. *)
Lemma launch_failure_is_swallowed_by_callers :
  (run_ffmpeg Fixture.ffmpeg_missing ["ffmpeg"; "-version"] "probe"
     Fixture.world0).1 = Raise FileNotFoundError
  /\ (concatenate_raw_chunks Fixture.ffmpeg_missing
        [(0, ["in"; "video"; "video_0.webm"])]
        ["tmp"; "video_concatenated.webm"] "video" Fixture.world0).1
     = Return false
  /\ (process_chunks Fixture.ffmpeg_missing ["tmp"] Fixture.names 100
        Fixture.processor None Fixture.world0).1
     = Return (None, None)
  /\ (run_ffmpeg Fixture.ffmpeg_garbled ["ffmpeg"; "-version"] "probe"
        Fixture.world0).1 = Raise UnicodeDecodeError.
Proof. vm_compute. repeat split. Qed.

Section LaunchFailure.

Variable spawn : list string -> world -> proc.
Variable gettempdir : Path.
Variable candidate_names : nat -> string.
Variable TMP_MAX : nat.

Local Abbreviation mkdtemp := (mkdtemp gettempdir candidate_names TMP_MAX).
Local Abbreviation run_chunks :=
  (process_chunks spawn gettempdir candidate_names TMP_MAX).

Lemma run_ffmpeg_launch_error command description w e :
  launch_error (spawn command (log_command command w)) = Some e ->
  run_ffmpeg spawn command description w = (Raise e, log_command command w).
Proof.
  intros He. rewrite run_ffmpeg_eq. unfold after_spawn.
  destruct (spawn command (log_command command w));
    try discriminate He; by injection He as <-.
Qed.

(** C2, amended.  [run_ffmpeg] reports a non-zero exit whose captured
    output is text as [(False, stderr)] and raises nothing for it; when the
    captured output does not decode it raises [UnicodeDecodeError],
    whatever the exit status.  When the binary cannot be launched
    [run_ffmpeg] raises the error of the launch ([FileNotFoundError] for a
    missing binary, [PermissionError] for one that may not be executed)
    and returns nothing.  What becomes of that exception depends on the
    caller: the muxer lets it through, the concatenator catches it, removes
    the raw intermediate and returns [False], and the WAV step catches it
    and saves no audio.  So [process_chunks] returns [(None, None)]
    normally, with the file system as before the call, when the video
    repair cannot be launched, and raises the error of the launch, after
    removing the workspace, when the mux cannot be launched. *)
Theorem launch_failure_handling :
  (forall command description w rc out err fs now,
      spawn command (log_command command w) = Exited rc out err fs now ->
      rc <> 0%Z ->
      run_ffmpeg spawn command description w
      = (Return (false, err), set_clock now (set_files fs (log_command command w))))
  /\ (forall command description w rc fs now,
        spawn command (log_command command w) = Undecodable rc fs now ->
        run_ffmpeg spawn command description w
        = (Raise UnicodeDecodeError,
           set_clock now (set_files fs (log_command command w))))
  /\ (forall command description w,
        (spawn command (log_command command w) = NotLaunched ->
         run_ffmpeg spawn command description w
         = (Raise FileNotFoundError, log_command command w))
        /\ (spawn command (log_command command w) = NotExecutable ->
            run_ffmpeg spawn command description w
            = (Raise PermissionError, log_command command w))
        /\ (forall e,
              launch_error (spawn command (log_command command w)) = Some e ->
              run_ffmpeg spawn command description w
              = (Raise e, log_command command w)))
  /\ (forall video_path audio_path srt_path output_path w e,
        let command := mux_command video_path audio_path
                         (embedded_captions (files w) srt_path) output_path in
        launch_error (spawn command (log_command command w)) = Some e ->
        mux_video_audio_with_captions spawn video_path audio_path srt_path
          output_path w
        = (Raise e, log_command command w))
  /\ (forall (chunks : list (nat * Path)) output_path chunk_type temp w,
        chunks <> [] ->
        with_suffix output_path ".temp.webm" = Some temp ->
        lookup_node (files w) temp <> Some Dir ->
        (forall w1,
           is_Some (launch_error (spawn (repair_command temp output_path) w1))) ->
        exists w',
          concatenate_raw_chunks spawn chunks output_path chunk_type w
          = (Return false, w')
          /\ files w' = delete temp (files w)
          /\ clock w' = clock w)
  /\ (forall p final_audio_path w e,
        is_Some (lookup_node (files w) p) ->
        launch_error (spawn (wav_command p final_audio_path)
                        (log_command (wav_command p final_audio_path) w))
        = Some e ->
        save_wav_step spawn (Some p) final_audio_path w
        = (Return None, log_command (wav_command p final_audio_path) w))
  /\ (forall self srt_path w w1 video audio temp_dir,
        find_chunk_sequences self w = (Return (video, audio), w) ->
        video <> [] ->
        parents_exist (files w) ->
        mkdtemp w = (Return temp_dir, w1) ->
        (forall w',
           is_Some (launch_error
                      (spawn (repair_command
                                (temp_dir </> "video_concatenated.temp.webm")
                                (temp_dir </> "video_concatenated.webm")) w'))) ->
        exists w',
          run_chunks self srt_path w = (Return (None, None), w')
          /\ files w' = files w
          /\ clock w' = clock w)
  /\ (forall self srt_path w w1 w2 w3 w4 video audio temp_dir
             audio_concat_path saved e,
        find_chunk_sequences self w = (Return (video, audio), w) ->
        video <> [] ->
        mkdtemp w = (Return temp_dir, w1) ->
        concatenate_raw_chunks spawn video (temp_dir </> "video_concatenated.webm")
          "video" w1 = (Return true, w2) ->
        concat_audio_step spawn audio temp_dir w2 = (Return audio_concat_path, w3) ->
        save_wav_step spawn audio_concat_path (output_paths self (clock w3)).2 w3
          = (Return saved, w4) ->
        let command := mux_command (temp_dir </> "video_concatenated.webm")
                         audio_concat_path
                         (embedded_captions (files w4) srt_path)
                         (output_paths self (clock w3)).1 in
        launch_error (spawn command (log_command command w4)) = Some e ->
        run_chunks self srt_path w
        = (Raise e, rmtree temp_dir (log_command command w4))).
Proof.
  assert (Hmux : forall video_path audio_path srt_path output_path w e,
    launch_error
      (spawn (mux_command video_path audio_path
                (embedded_captions (files w) srt_path) output_path)
         (log_command (mux_command video_path audio_path
                         (embedded_captions (files w) srt_path) output_path) w))
    = Some e ->
    mux_video_audio_with_captions spawn video_path audio_path srt_path
      output_path w
    = (Raise e,
       log_command (mux_command video_path audio_path
                      (embedded_captions (files w) srt_path) output_path) w)).
  { intros video_path audio_path srt_path output_path w e He.
    rewrite mux_eq. apply bind_Raise. by apply run_ffmpeg_launch_error. }
  split; [|split; [|split; [|split; [|split; [|split; [|split]]]]]].
  - intros command description w rc out err fs now Hsp Hrc.
    rewrite run_ffmpeg_eq. unfold after_spawn. rewrite Hsp. simpl.
    by destruct (Z.eqb_spec rc 0).
  - intros command description w rc fs now Hsp.
    rewrite run_ffmpeg_eq. unfold after_spawn. by rewrite Hsp.
  - intros command description w. split; [|split].
    + intros Hsp. apply run_ffmpeg_launch_error. by rewrite Hsp.
    + intros Hsp. apply run_ffmpeg_launch_error. by rewrite Hsp.
    + intros e. apply run_ffmpeg_launch_error.
  - intros video_path audio_path srt_path output_path w e command.
    apply Hmux.
  - intros chunks output_path chunk_type temp w.
    apply concatenate_raw_chunks_launch_failure.
  - intros p final_audio_path w e Hp He.
    rewrite save_wav_step_eq. rewrite bool_decide_eq_true_2 by done.
    unfold after_spawn.
    destruct (spawn _ _); try discriminate He; reflexivity.
  - intros self srt_path w w1 video audio temp_dir Hfind Hvideo Hfs Htmp Hsp.
    rewrite (process_chunks_in_workspace spawn gettempdir candidate_names TMP_MAX
               self srt_path w video audio temp_dir w1 Hfind Hvideo Htmp).
    clear Hfind.
    apply mkdtemp_from_Return in Htmp as (_ & Hfresh & ->).
    destruct (with_suffix_intermediate temp_dir) as [Hsv _].
    destruct (concatenate_raw_chunks_launch_failure spawn video
                (temp_dir </> "video_concatenated.webm")
                (temp_dir </> "video_concatenated.temp.webm") "video"
                (set_files (<[temp_dir := Dir]> (files w)) w) Hvideo Hsv)
      as (w2 & Hv & Hfiles & Hclock).
    { simpl. by rewrite fresh_workspace_free. }
    { exact Hsp. }
    unfold run_in_workspace. erewrite bind_Return by exact Hv. cbn [negb fst snd].
    exists (rmtree temp_dir w2). split; [reflexivity|]. split.
    + apply rmtree_workspace_restores; [done|done|].
      intros p Hp. rewrite Hfiles. simpl. apply lookup_delete_ne.
      intros <-. apply Hp. by exists ["video_concatenated.temp.webm"].
    + rewrite rmtree_clock. exact Hclock.
  - intros self srt_path w w1 w2 w3 w4 video audio temp_dir audio_concat_path
           saved e Hfind Hvideo Htmp Hv Ha Hwav command He.
    rewrite (process_chunks_in_workspace spawn gettempdir candidate_names TMP_MAX
               self srt_path w video audio temp_dir w1 Hfind Hvideo Htmp).
    clear Hfind.
    erewrite run_in_workspace_after_concat by eassumption.
    by rewrite (Hmux _ _ _ _ _ _ He).
Qed.

End LaunchFailure.

Lemma launch_failure_handling_witness :
  (run_ffmpeg Fixture.ffmpeg_broken ["ffmpeg"; "-i"; "in.webm"; "out.wav"]
     "probe" Fixture.world0).1
  = Return (false, "Invalid data found when processing input")
  /\ (run_ffmpeg Fixture.ffmpeg_not_executable
        ["ffmpeg"; "-i"; "in.webm"; "out.wav"] "probe" Fixture.world0).1
     = Raise PermissionError
  /\ exists w',
       process_chunks Fixture.ffmpeg_missing ["tmp"] Fixture.names 100
         Fixture.processor None Fixture.world0
       = (Return (None, None), w')
       /\ files w' = files Fixture.world0
       /\ clock w' = clock Fixture.world0.
Proof.
  destruct (launch_failure_handling Fixture.ffmpeg_broken ["tmp"] Fixture.names 100)
    as (Hexit & _).
  destruct (launch_failure_handling Fixture.ffmpeg_not_executable
              ["tmp"] Fixture.names 100) as (_ & _ & Hlaunch & _).
  destruct (launch_failure_handling Fixture.ffmpeg_missing ["tmp"] Fixture.names 100)
    as (_ & _ & _ & _ & _ & _ & Hrun & _).
  split; [|split].
  - rewrite (Hexit ["ffmpeg"; "-i"; "in.webm"; "out.wav"] "probe" Fixture.world0
               1%Z "" "Invalid data found when processing input"
               (files Fixture.world0) (clock Fixture.world0)
               eq_refl ltac:(discriminate)).
    reflexivity.
  - destruct (Hlaunch ["ffmpeg"; "-i"; "in.webm"; "out.wav"] "probe"
                Fixture.world0) as (_ & Hperm & _).
    rewrite (Hperm eq_refl). reflexivity.
  - assert (Hfind : find_chunk_sequences Fixture.processor Fixture.world0
                    = (Return ([(0, ["in"; "video"; "video_0.webm"]);
                                (2, ["in"; "video"; "video_2.webm"]);
                                (5, ["in"; "video"; "video_5.webm"])],
                               [(0, ["in"; "audio"; "audio_0.webm"])]),
                       Fixture.world0))
      by (vm_compute; reflexivity).
    assert (Htmp : mkdtemp ["tmp"] Fixture.names 100 Fixture.world0
                   = (Return Fixture.workspace,
                      set_files (<[Fixture.workspace := Dir]> Fixture.disk)
                        Fixture.world0))
      by (vm_compute; reflexivity).
    apply (Hrun Fixture.processor None Fixture.world0 _ _ _ Fixture.workspace
             Hfind ltac:(discriminate) parents_exist_disk Htmp).
    intros w'. by eexists.
Defined.

(** ** The constructor *)

Section Constructor.

(** [mkdir(parents=True, exist_ok=True)] on an existing directory does
    nothing. *)
Lemma mkdir_parents_rev_existing rp w :
  lookup_node (files w) (rev rp) = Some Dir ->
  mkdir_parents_rev rp w = (Return tt, w).
Proof.
  intros Hdir. destruct rp as [|c rp]; [reflexivity|].
  simpl in *. unfold try_except, os_mkdir. rewrite Hdir.
  unfold bind, is_dir, gets. by rewrite Hdir.
Qed.

Lemma mkdir_parents_existing p w :
  lookup_node (files w) p = Some Dir -> mkdir_parents p w = (Return tt, w).
Proof.
  intros Hdir. apply mkdir_parents_rev_existing. by rewrite rev_involutive.
Qed.

(** ... and on a regular file it raises [FileExistsError]. *)
Lemma mkdir_parents_on_file p w content :
  lookup_node (files w) p = Some (File content) ->
  mkdir_parents p w = (Raise FileExistsError, w).
Proof.
  intros Hfile. unfold mkdir_parents.
  rewrite <- (rev_involutive p) in Hfile.
  destruct (rev p) as [|c rp]; [discriminate Hfile|].
  simpl in *. unfold try_except, os_mkdir. rewrite Hfile.
  unfold bind, is_dir, gets. by rewrite Hfile.
Qed.

Lemma mkdir_exist_ok_frame q c w :
  lookup_node (files w) q = Some Dir ->
  (forall content, files w !! (q ++ [c]) <> Some (File content)) ->
  exists w',
    mkdir_exist_ok (q ++ [c]) w = (Return tt, w')
    /\ (forall p, files w' !! p = files w !! p
                  \/ (files w !! p = None /\ files w' !! p = Some Dir
                      /\ p = q ++ [c]))
    /\ clock w' = clock w /\ trace w' = trace w.
Proof.
  intros Hparent Hfile. unfold mkdir_exist_ok, try_except, os_mkdir.
  rewrite lookup_node_snoc. unfold parent. rewrite removelast_last.
  destruct (files w !! (q ++ [c])) as [[content|]|] eqn:Hp.
  - by destruct (Hfile content).
  - exists w. unfold bind, is_dir, gets. rewrite lookup_node_snoc, Hp.
    split; [done|]. split; [by left|done].
  - rewrite Hparent. eexists. split; [reflexivity|]. simpl.
    split; [|done].
    intros p. destruct (decide (q ++ [c] = p)) as [<-|Hne].
    + right. split; [done|]. split; [apply lookup_insert_eq|done].
    + left. by apply lookup_insert_ne.
Qed.

(** What [mkdir(parents=True, exist_ok=True)] changes: entries that were
    missing on the way to the directory become directories; nothing else
    moves. *)
Lemma mkdir_parents_rev_frame rp :
  forall w,
    no_file_on_path (files w) (rev rp) ->
    exists w',
      mkdir_parents_rev rp w = (Return tt, w')
      /\ (forall p, files w' !! p = files w !! p
                    \/ (files w !! p = None /\ files w' !! p = Some Dir
                        /\ p `prefix_of` rev rp))
      /\ clock w' = clock w /\ trace w' = trace w.
Proof.
  induction rp as [|c rp IH]; intros w Hp.
  - exists w. split; [reflexivity|]. split; [by left|done].
  - simpl in Hp. simpl. set (p := rev rp ++ [c]) in *.
    unfold try_except at 1. unfold os_mkdir at 1.
    subst p. rewrite lookup_node_snoc. unfold parent. rewrite removelast_last.
    destruct (files w !! (rev rp ++ [c])) as [[content|]|] eqn:Hhere.
    + exfalso. apply (Hp (rev rp ++ [c]) content); [done|].
      by rewrite lookup_node_snoc.
    + exists w. unfold bind, is_dir, gets. rewrite !lookup_node_snoc, Hhere.
      split; [done|]. split; [by left|done].
    + destruct (lookup_node (files w) (rev rp)) as [[content|]|] eqn:Hpar.
      * exfalso. apply (Hp (rev rp) content); [|done]. by apply prefix_app_r.
      * eexists. split; [reflexivity|]. simpl. split; [|done].
        intros p. destruct (decide (rev rp ++ [c] = p)) as [<-|Hne].
        -- right. split; [done|]. split; [apply lookup_insert_eq|done].
        -- left. by apply lookup_insert_ne.
      * destruct (IH w (no_file_on_path_parent _ _ _ Hp))
          as (w1 & Hrec & Hgrow & Hclock & Htrace).
        erewrite bind_Return by exact Hrec.
        destruct (mkdir_parents_rev_spec rp w (no_file_on_path_parent _ _ _ Hp))
          as (w1' & Hrec' & Hdir & _).
        rewrite Hrec in Hrec'. injection Hrec' as <-.
        destruct (mkdir_exist_ok_frame (rev rp) c w1 Hdir)
          as (w2 & Hmk & Hgrow2 & Hclock2 & Htrace2).
        { intros content Hc. destruct (Hgrow (rev rp ++ [c])) as [Heq|(_ & Heq & _)];
            rewrite Heq in Hc; [by rewrite Hhere in Hc | done]. }
        exists w2. split; [exact Hmk|].
        split; [|split; congruence].
        intros p. destruct (Hgrow2 p) as [Heq|(Hnone & Hnew & ->)].
        -- rewrite Heq. destruct (Hgrow p) as [Heq1|(Hnone1 & Hnew1 & Hpre)];
             [by left|].
           right. split; [done|]. split; [done|]. by apply prefix_app_r.
        -- right. split; [done|]. split; [done|]. done.
Qed.

Lemma mkdir_parents_frame p w :
  no_file_on_path (files w) p ->
  exists w',
    mkdir_parents p w = (Return tt, w')
    /\ lookup_node (files w') p = Some Dir
    /\ (forall q, files w' !! q = files w !! q
                  \/ (files w !! q = None /\ files w' !! q = Some Dir
                      /\ q `prefix_of` p))
    /\ clock w' = clock w /\ trace w' = trace w.
Proof.
  intros Hp.
  destruct (mkdir_parents_spec p w Hp) as (w1 & Hrun1 & Hdir & _).
  unfold mkdir_parents in *.
  destruct (mkdir_parents_rev_frame (rev p) w) as (w' & Hrun & Hgrow & Hct).
  { by rewrite rev_involutive. }
  rewrite Hrun in Hrun1. injection Hrun1 as <-.
  exists w'. rewrite rev_involutive in Hgrow. done.
Qed.

Lemma init_frame
    (video_chunks_dir audio_chunks_dir video_output_dir audio_output_dir : Path)
    (transcript_output_dir : option Path) (w : world) :
  no_file_on_path (files w) video_output_dir ->
  no_file_on_path (files w) audio_output_dir ->
  (forall d, transcript_output_dir = Some d -> no_file_on_path (files w) d) ->
  exists w',
    init video_chunks_dir audio_chunks_dir video_output_dir audio_output_dir
         transcript_output_dir w
    = (Return (mk_VideoProcessor video_chunks_dir audio_chunks_dir
                 video_output_dir audio_output_dir transcript_output_dir), w')
    /\ (forall d, transcript_output_dir = Some d ->
          lookup_node (files w') d = Some Dir)
    /\ (forall q nd, files w !! q = Some nd -> files w' !! q = Some nd)
    /\ (forall q, files w !! q = None ->
          files w' !! q = None
          \/ (files w' !! q = Some Dir
              /\ (q `prefix_of` video_output_dir
                  \/ q `prefix_of` audio_output_dir
                  \/ exists d, transcript_output_dir = Some d /\ q `prefix_of` d)))
    /\ clock w' = clock w
    /\ trace w' = trace w.
Proof.
  intros Hv Ha Ht. unfold init.
  destruct (mkdir_parents_frame video_output_dir w Hv)
    as (w1 & Hrun1 & Hd1 & Hg1 & Hc1 & Ht1).
  erewrite bind_Return by exact Hrun1.
  assert (Hweak1 : forall q, files w1 !! q = files w !! q \/ files w1 !! q = Some Dir).
  { intros q. destruct (Hg1 q) as [Heq|(_ & Heq & _)]; [by left|by right]. }
  destruct (mkdir_parents_frame audio_output_dir w1)
    as (w2 & Hrun2 & Hd2 & Hg2 & Hc2 & Ht2).
  { by eapply no_file_on_path_grow. }
  erewrite bind_Return by exact Hrun2.
  assert (Hweak2 : forall q, files w2 !! q = files w !! q \/ files w2 !! q = Some Dir).
  { intros q. destruct (Hg2 q) as [Heq|(_ & Heq & _)]; [|by right].
    rewrite Heq. apply Hweak1. }
  assert (Hstep : exists w3,
    match transcript_output_dir with
    | Some d => mkdir_parents d
    | None => ret tt
    end w2 = (Return tt, w3)
    /\ (forall d, transcript_output_dir = Some d -> lookup_node (files w3) d = Some Dir)
    /\ (forall q, files w3 !! q = files w2 !! q
                  \/ (files w2 !! q = None /\ files w3 !! q = Some Dir
                      /\ exists d, transcript_output_dir = Some d /\ q `prefix_of` d))
    /\ clock w3 = clock w2 /\ trace w3 = trace w2).
  { destruct transcript_output_dir as [d|].
    - destruct (mkdir_parents_frame d w2) as (w3 & Hrun3 & Hd3 & Hg3 & Hct3).
      { eapply no_file_on_path_grow; [exact Hweak2|]. by apply Ht. }
      exists w3. split; [exact Hrun3|]. split; [by intros ? [= <-]|].
      split; [|exact Hct3].
      intros q. destruct (Hg3 q) as [Heq|(Hn & Hnew & Hpre)]; [by left|].
      right. split; [done|]. split; [done|]. by exists d.
    - exists w2. split; [reflexivity|]. split; [done|]. split; [by left|done]. }
  destruct Hstep as (w3 & Hrun3 & Hd3 & Hg3 & Hc3 & Ht3).
  erewrite bind_Return by exact Hrun3.
  exists w3. split; [reflexivity|]. split; [exact Hd3|].
  assert (Hall : forall q,
    files w3 !! q = files w !! q
    \/ (files w !! q = None /\ files w3 !! q = Some Dir
        /\ (q `prefix_of` video_output_dir
            \/ q `prefix_of` audio_output_dir
            \/ exists d, transcript_output_dir = Some d /\ q `prefix_of` d))).
  { intros q.
    destruct (Hg1 q) as [Heq1|(Hn1 & Hnew1 & Hpre1)];
      destruct (Hg2 q) as [Heq2|(Hn2 & Hnew2 & Hpre2)];
      destruct (Hg3 q) as [Heq3|(Hn3 & Hnew3 & Hpre3)];
      try (left; congruence);
      right; (split; [congruence|]); (split; [congruence|]); eauto. }
  split; [|split; [|split; congruence]].
  - intros q nd Hq. destruct (Hall q) as [Heq|(Hn & _)]; congruence.
  - intros q Hq. destruct (Hall q) as [Heq|(_ & Hnew & Hpre)].
    + left. congruence.
    + right. done.
Qed.

(** [__init__] only ever adds directories, and only on the way to the three
    output directories: whenever no regular file stands on those paths it
    returns the processor holding the five paths it was given, all three
    output directories exist afterwards, the old file system is contained in
    the new one, every entry of the new one that is not an old one is a
    directory at or above one of the output directories, and neither the
    clock nor the trace of external commands has moved. *)
Theorem init_only_adds_directories
    (video_chunks_dir audio_chunks_dir video_output_dir audio_output_dir : Path)
    (transcript_output_dir : option Path) (w : world) :
  no_file_on_path (files w) video_output_dir ->
  no_file_on_path (files w) audio_output_dir ->
  (forall d, transcript_output_dir = Some d -> no_file_on_path (files w) d) ->
  exists self w',
    init video_chunks_dir audio_chunks_dir video_output_dir audio_output_dir
         transcript_output_dir w = (Return self, w')
    /\ self = mk_VideoProcessor video_chunks_dir audio_chunks_dir
                video_output_dir audio_output_dir transcript_output_dir
    /\ lookup_node (files w') video_output_dir = Some Dir
    /\ lookup_node (files w') audio_output_dir = Some Dir
    /\ (forall d, transcript_output_dir = Some d ->
          lookup_node (files w') d = Some Dir)
    /\ files w ⊆ files w'
    /\ (forall q nd, files w' !! q = Some nd ->
          files w !! q = Some nd
          \/ (nd = Dir
              /\ (q `prefix_of` video_output_dir
                  \/ q `prefix_of` audio_output_dir
                  \/ exists d, transcript_output_dir = Some d /\ q `prefix_of` d)))
    /\ clock w' = clock w
    /\ trace w' = trace w.
Proof.
  intros Hv Ha Ht.
  destruct (init_frame video_chunks_dir audio_chunks_dir video_output_dir
              audio_output_dir transcript_output_dir w Hv Ha Ht)
    as (w' & Hinit & Htd & Hold & Hnew & Hclock & Htrace).
  destruct (init_creates_output_dirs video_chunks_dir audio_chunks_dir
              video_output_dir audio_output_dir transcript_output_dir w Hv Ha Ht)
    as (w'' & Hinit' & Hvd & Had & _).
  rewrite Hinit in Hinit'. injection Hinit' as <-.
  eexists _, w'. split; [exact Hinit|]. split; [reflexivity|].
  split; [exact Hvd|]. split; [exact Had|]. split; [exact Htd|].
  split; [|split; [|done]].
  - apply map_subseteq_spec. intros q nd Hq. by apply Hold.
  - intros q nd Hq. destruct (files w !! q) as [nd0|] eqn:Hq0.
    + left. apply Hold in Hq0. congruence.
    + right. destruct (Hnew q Hq0) as [Hnone|[Hdir Hpre]]; [congruence|].
      split; [congruence|exact Hpre].
Qed.

(** Constructing a processor whose output directories are all in place
    changes nothing at all. *)
Theorem init_on_existing_directories
    (video_chunks_dir audio_chunks_dir video_output_dir audio_output_dir : Path)
    (transcript_output_dir : option Path) (w : world) :
  lookup_node (files w) video_output_dir = Some Dir ->
  lookup_node (files w) audio_output_dir = Some Dir ->
  (forall d, transcript_output_dir = Some d -> lookup_node (files w) d = Some Dir) ->
  init video_chunks_dir audio_chunks_dir video_output_dir audio_output_dir
       transcript_output_dir w
  = (Return (mk_VideoProcessor video_chunks_dir audio_chunks_dir
               video_output_dir audio_output_dir transcript_output_dir), w).
Proof.
  intros Hv Ha Ht. unfold init.
  erewrite bind_Return by (by apply mkdir_parents_existing).
  erewrite bind_Return by (by apply mkdir_parents_existing).
  destruct transcript_output_dir as [d|].
  - erewrite bind_Return by (apply mkdir_parents_existing; by apply Ht).
    reflexivity.
  - erewrite bind_Return by reflexivity. reflexivity.
Qed.

(** A regular file where an output directory should be makes the
    constructor fail with [FileExistsError]: at the video output path before
    anything is created, at the audio output path after the video output
    directory has been dealt with. *)
Theorem init_rejects_regular_file
    (video_chunks_dir audio_chunks_dir video_output_dir audio_output_dir : Path)
    (transcript_output_dir : option Path) (w : world) :
  is_file (files w) video_output_dir
  \/ (lookup_node (files w) video_output_dir = Some Dir
      /\ is_file (files w) audio_output_dir) ->
  init video_chunks_dir audio_chunks_dir video_output_dir audio_output_dir
       transcript_output_dir w
  = (Raise FileExistsError, w).
Proof.
  intros [[content Hv] | [Hv [content Ha]]]; unfold init.
  - by erewrite bind_Raise by (by eapply mkdir_parents_on_file).
  - erewrite bind_Return by (by apply mkdir_parents_existing).
    by erewrite bind_Raise by (by eapply mkdir_parents_on_file).
Qed.

End Constructor.

(** ** More on the runner and the concatenator *)

Section Invocation.

Variable spawn : list string -> world -> proc.

(** [run_ffmpeg] never lets a [CalledProcessError] out, reports success
    exactly when the process exited with status 0 and its output decoded
    (and then hands back its standard output), raises only when the binary
    could not be launched, with the error of the launch and nothing but
    the command logged, or when the captured output does not decode, and
    in every case has logged exactly the one command it was given. *)
Theorem run_ffmpeg_outcome (command : list string) (description : string)
                           (w : world) :
  let r := run_ffmpeg spawn command description w in
  (forall rc err, r.1 <> Raise (CalledProcessError rc err))
  /\ (forall out,
        r.1 = Return (true, out)
        <-> exists err fs now,
              spawn command (log_command command w) = Exited 0 out err fs now)
  /\ (forall e,
        r.1 = Raise e ->
        (launch_error (spawn command (log_command command w)) = Some e
         /\ r.2 = log_command command w)
        \/ (e = UnicodeDecodeError
            /\ exists rc fs now,
                 spawn command (log_command command w) = Undecodable rc fs now))
  /\ trace r.2 = trace w ++ [command].
Proof.
  intros r. subst r. rewrite run_ffmpeg_eq. cbn [fst snd].
  split; [|split; [|split]].
  - intros rc err. destruct (spawn command (log_command command w))
      as [rc' out' err' fs now| | | |rc' fs now]; try discriminate.
    simpl. destruct (rc' =? 0)%Z; discriminate.
  - intros out. destruct (spawn command (log_command command w))
      as [rc' out' err' fs now| | | |rc' fs now] eqn:Hsp; simpl.
    2-5: (split; [discriminate|]; intros (? & ? & ? & ?); discriminate).
    destruct (Z.eqb_spec rc' 0) as [->|Hrc]; split.
    + intros [= <-]. by exists err', fs, now.
    + intros (? & ? & ? & [= <- _ _ _]). reflexivity.
    + discriminate.
    + intros (? & ? & ? & [= -> _ _ _ _]). by destruct Hrc.
  - intros e. unfold after_spawn.
    destruct (spawn command (log_command command w))
      as [rc' out' err' fs now| | | |rc' fs now] eqn:Hsp; simpl.
    + destruct (rc' =? 0)%Z; discriminate.
    + intros [= <-]. by left.
    + intros [= <-]. by left.
    + intros [= <-]. by left.
    + intros [= <-]. right. split; [reflexivity|]. by exists rc', fs, now.
  - apply after_spawn_trace.
Qed.

(** *** The copying loop never touches the clock or the trace *)

Lemma copy_chunk_quiet temp (chunk : nat * Path) w r w' :
  (data <- read_bytes chunk.2 ;; write_bytes temp data) w = (r, w') ->
  clock w' = clock w /\ trace w' = trace w.
Proof.
  unfold bind, read_bytes, write_bytes, modify.
  destruct (lookup_node (files w) chunk.2) as [[content|]|];
    [|by intros [= _ <-]|by intros [= _ <-]].
  intros [= _ <-]. by destruct (files w !! temp) as [[?|]|].
Qed.

Lemma for_each_copy_quiet temp (chunks : list (nat * Path)) :
  forall w r w',
    for_each chunks (fun chunk =>
      data <- read_bytes chunk.2 ;; write_bytes temp data) w = (r, w') ->
    clock w' = clock w /\ trace w' = trace w.
Proof.
  induction chunks as [|chunk chunks IH]; intros w r w' Hloop.
  - by injection Hloop as _ <-.
  - simpl in Hloop. unfold bind at 1 in Hloop.
    destruct ((data <- read_bytes chunk.2 ;; write_bytes temp data) w)
      as [[[]|e] w1] eqn:Hchunk.
    + apply copy_chunk_quiet in Hchunk as [Hc Ht].
      apply IH in Hloop as [Hc' Ht']. split; congruence.
    + injection Hloop as _ <-. by apply copy_chunk_quiet in Hchunk.
Qed.

Lemma open_wb_quiet temp w r w' :
  open_wb temp w = (r, w') -> clock w' = clock w /\ trace w' = trace w.
Proof.
  unfold open_wb.
  destruct (lookup_node (files w) temp) as [[?|]|];
    [| |destruct (lookup_node (files w) (parent temp)) as [[?|]|]];
    by intros [= _ <-].
Qed.

Lemma write_raw_concat_quiet temp chunks w :
  clock (write_raw_concat temp chunks w).2 = clock w
  /\ trace (write_raw_concat temp chunks w).2 = trace w.
Proof.
  unfold write_raw_concat, bind.
  destruct (open_wb temp w) as [[[]|e] w1] eqn:Hopen.
  - apply open_wb_quiet in Hopen as [Hc Ht].
    destruct (for_each chunks _ w1) as [r w2] eqn:Hloop.
    apply for_each_copy_quiet in Hloop as [Hc' Ht']. simpl. split; congruence.
  - by apply open_wb_quiet in Hopen.
Qed.

(** *** A fragment that cannot be read *)

Lemma copy_chunk_file temp (chunk : nat * Path) w acc content :
  files w !! temp = Some (File acc) ->
  lookup_node (files w) chunk.2 = Some (File content) ->
  (data <- read_bytes chunk.2 ;; write_bytes temp data) w
  = (Return tt, set_files (<[temp := File (acc ++ content)]> (files w)) w).
Proof.
  intros Htemp Hchunk. unfold bind, read_bytes. rewrite Hchunk.
  unfold write_bytes, modify. by rewrite Htemp.
Qed.

Lemma copy_chunk_not_file temp (chunk : nat * Path) w :
  ~ is_file (files w) chunk.2 ->
  exists e, (data <- read_bytes chunk.2 ;; write_bytes temp data) w = (Raise e, w).
Proof.
  intros Hbad. unfold bind, read_bytes.
  destruct (lookup_node (files w) chunk.2) as [[content|]|] eqn:Hchunk.
  - exfalso. apply Hbad. by exists content.
  - by eexists.
  - by eexists.
Qed.

(** Once the intermediate is open, the loop fails at the first chunk that is
    not a regular file, leaving the intermediate a regular file and
    everything else as it was. *)
Lemma for_each_copy_unreadable temp (chunks : list (nat * Path)) :
  forall w acc,
    temp <> [] ->
    files w !! temp = Some (File acc) ->
    (exists bad, bad ∈ chunks /\ bad.2 <> temp /\ ~ is_file (files w) bad.2) ->
    exists e acc',
      for_each chunks (fun chunk =>
        data <- read_bytes chunk.2 ;; write_bytes temp data) w
      = (Raise e, set_files (<[temp := File acc']> (files w)) w).
Proof.
  induction chunks as [|chunk chunks IH]; intros w acc Hroot Htemp (bad & Hin & Hne & Hbad).
  - by apply elem_of_nil in Hin.
  - simpl.
    destruct (lookup_node (files w) chunk.2) as [[content|]|] eqn:Hchunk.
    + erewrite bind_Return by (by eapply copy_chunk_file).
      apply elem_of_cons in Hin as [-> | Hin].
      { exfalso. apply Hbad. by exists content. }
      destruct (IH (set_files (<[temp := File (acc ++ content)]> (files w)) w)
                   (acc ++ content)) as (e & acc' & Hloop).
      * done.
      * simpl. apply lookup_insert_eq.
      * exists bad. split; [done|]. split; [done|]. simpl.
        intros [c Hc]. apply Hbad. exists c.
        by rewrite lookup_node_insert_ne in Hc.
      * exists e, acc'. rewrite Hloop. simpl. by rewrite insert_insert_eq.
    + destruct (copy_chunk_not_file temp chunk w) as [e He].
      { intros [c Hc]. congruence. }
      exists e, acc. erewrite bind_Raise by exact He.
      rewrite insert_id by done. by destruct w.
    + destruct (copy_chunk_not_file temp chunk w) as [e He].
      { intros [c Hc]. congruence. }
      exists e, acc. erewrite bind_Raise by exact He.
      rewrite insert_id by done. by destruct w.
Qed.

Lemma concatenate_raw_chunks_unreadable
    (chunks : list (nat * Path)) (output_path temp : Path)
    (chunk_type : string) (w : world) (bad : nat * Path) :
  with_suffix output_path ".temp.webm" = Some temp ->
  writable (files w) temp ->
  bad ∈ chunks ->
  bad.2 <> temp ->
  ~ is_file (files w) bad.2 ->
  exists w',
    concatenate_raw_chunks spawn chunks output_path chunk_type w = (Return false, w')
    /\ files w' = delete temp (files w)
    /\ trace w' = trace w
    /\ clock w' = clock w.
Proof.
  intros Hsfx Hw Hin Hne Hbad. unfold concatenate_raw_chunks.
  destruct chunks as [|chunk chunks]; [by apply elem_of_nil in Hin|].
  rewrite Hsfx. erewrite bind_Return by reflexivity.
  pose proof (writable_nonroot _ _ Hw) as Hroot.
  destruct (for_each_copy_unreadable temp (chunk :: chunks)
              (set_files (<[temp := File []]> (files w)) w) [])
    as (e & acc' & Hloop).
  - done.
  - simpl. apply lookup_insert_eq.
  - exists bad. split; [done|]. split; [done|]. simpl.
    intros [c Hc]. apply Hbad. exists c. by rewrite lookup_node_insert_ne in Hc.
  - assert (Hwrite : write_raw_concat temp (chunk :: chunks) w
                     = (Raise e, set_files (<[temp := File acc']> (files w)) w)).
    { unfold write_raw_concat.
      erewrite bind_Return by (by apply open_wb_writable).
      rewrite Hloop. simpl. by rewrite insert_insert_eq. }
    erewrite try_except_Raise by (apply bind_Raise; exact Hwrite).
    erewrite bind_Return.
    2:{ eapply unlink_if_exists_file. rewrite lookup_node_nonroot by done.
        simpl. apply lookup_insert_eq. }
    eexists. split; [reflexivity|]. simpl.
    split; [apply delete_insert_eq|done].
Qed.

(** If one of the chunks handed to [concatenate_raw_chunks] is not a regular
    file (it has disappeared since the scan, or it is a directory with a
    chunk's name), the function returns [False] without ever invoking the
    external binary, and the raw intermediate it had started is gone
    again: nothing stands at the intermediate's path, and every other path,
    the clock and the trace are as before the call. *)
Theorem concatenate_raw_chunks_unreadable_chunk
    (chunks : list (nat * Path)) (output_path temp : Path)
    (chunk_type : string) (w : world) (bad : nat * Path) :
  with_suffix output_path ".temp.webm" = Some temp ->
  writable (files w) temp ->
  bad ∈ chunks ->
  bad.2 <> temp ->
  lookup_node (files w) bad.2 = None \/ lookup_node (files w) bad.2 = Some Dir ->
  exists w',
    concatenate_raw_chunks spawn chunks output_path chunk_type w = (Return false, w')
    /\ files w' !! temp = None
    /\ (forall p, p <> temp -> files w' !! p = files w !! p)
    /\ trace w' = trace w
    /\ clock w' = clock w.
Proof.
  intros Hsfx Hw Hin Hne Hbad.
  destruct (concatenate_raw_chunks_unreadable chunks output_path temp chunk_type
              w bad Hsfx Hw Hin Hne) as (w' & Hrun & Hfiles & Htrace & Hclock).
  { intros [c Hc]. destruct Hbad as [Hbad|Hbad]; congruence. }
  exists w'. split; [exact Hrun|]. rewrite Hfiles.
  split; [apply lookup_delete_eq|]. split; [|done].
  intros p Hp. by apply lookup_delete_ne.
Qed.

(** *** The result of a concatenation whose chunks can all be read *)


(** *** What a [True] result means *)

Lemma clean_up_handler_not_true temp w w' :
  (unlink_if_exists temp ;;; ret false) w <> (Return true, w').
Proof.
  unfold bind. destruct (unlink_if_exists temp w) as [[[]|e] w1]; discriminate.
Qed.

Lemma concatenate_raw_chunks_true_inv
    (chunks : list (nat * Path)) (output_path : Path) (chunk_type : string)
    (w w' : world) :
  concatenate_raw_chunks spawn chunks output_path chunk_type w = (Return true, w') ->
  exists temp w1 out err fs now,
    chunks <> []
    /\ with_suffix output_path ".temp.webm" = Some temp
    /\ write_raw_concat temp chunks w = (Return tt, w1)
    /\ spawn (repair_command temp output_path)
             (log_command (repair_command temp output_path) w1)
       = Exited 0 out err fs now
    /\ lookup_node fs temp <> Some Dir
    /\ w' = mk_world (delete temp fs) now (trace w ++ [repair_command temp output_path]).
Proof.
  unfold concatenate_raw_chunks.
  destruct chunks as [|chunk chunks]; [discriminate|].
  destruct (with_suffix output_path ".temp.webm") as [temp|]; [|discriminate].
  erewrite bind_Return by reflexivity.
  unfold try_except. unfold bind at 1.
  destruct (write_raw_concat temp (chunk :: chunks) w) as [[[]|e] w1] eqn:Hwrite.
  2:{ intros H. by apply clean_up_handler_not_true in H. }
  unfold bind at 1. rewrite run_ffmpeg_eq.
  pose proof (write_raw_concat_quiet temp (chunk :: chunks) w) as [_ Htr].
  rewrite Hwrite in Htr. simpl in Htr.
  unfold after_spawn.
  destruct (spawn (repair_command temp output_path)
              (log_command (repair_command temp output_path) w1))
    as [rc out err fs now| | | |rc fs now] eqn:Hsp; cbn [run_result].
  2-5: (intros H; by apply clean_up_handler_not_true in H).
  set (w2 := set_clock now (set_files fs
               (log_command (repair_command temp output_path) w1))).
  destruct (Z.eqb_spec rc 0) as [->|Hrc].
  - unfold bind at 1.
    destruct (lookup_node fs temp) as [[content|]|] eqn:Hnode.
    + erewrite (unlink_if_exists_file temp w2) by exact Hnode.
      intros [= <-]. exists temp, w1, out, err, fs, now.
      split; [done|]. split; [done|]. split; [done|]. split; [done|].
      split; [by rewrite Hnode|]. rewrite <- Htr. reflexivity.
    + rewrite (unlink_if_exists_dir temp w2) by exact Hnode.
      intros H. by apply clean_up_handler_not_true in H.
    + rewrite (unlink_if_exists_missing temp w2) by exact Hnode.
      intros [= <-]. exists temp, w1, out, err, fs, now.
      split; [done|]. split; [done|]. split; [done|]. split; [done|].
      split; [by rewrite Hnode|]. rewrite <- Htr.
      rewrite delete_id; [reflexivity|].
      destruct temp as [|c temp]; [discriminate Hnode|exact Hnode].
  - unfold bind at 1.
    destruct (unlink_if_exists temp w2) as [[[]|e] w3] eqn:Hunlink.
    + discriminate.
    + intros H. by apply clean_up_handler_not_true in H.
Qed.

(** [concatenate_raw_chunks] returns [True] exactly when the chunk list is
    not empty, the raw intermediate could be written in full, the repair
    command was launched on it and exited with status 0, and the command did
    not leave a directory at the intermediate's path.  The world is then the
    one the command left, minus the intermediate, with that one command
    added to the trace. *)
Theorem concatenate_raw_chunks_true_iff
    (chunks : list (nat * Path)) (output_path : Path) (chunk_type : string)
    (w w' : world) :
  concatenate_raw_chunks spawn chunks output_path chunk_type w = (Return true, w')
  <-> exists temp w1 out err fs now,
        chunks <> []
        /\ with_suffix output_path ".temp.webm" = Some temp
        /\ write_raw_concat temp chunks w = (Return tt, w1)
        /\ spawn (repair_command temp output_path)
                 (log_command (repair_command temp output_path) w1)
           = Exited 0 out err fs now
        /\ lookup_node fs temp <> Some Dir
        /\ w' = mk_world (delete temp fs) now
                   (trace w ++ [repair_command temp output_path]).
Proof.
  split; [apply concatenate_raw_chunks_true_inv|].
  intros (temp & w1 & out & err & fs & now & Hne & Hsfx & Hwrite & Hsp & Hdir & ->).
  erewrite concatenate_raw_chunks_after_write by eassumption.
  unfold repair_and_clean_up, try_except.
  pose proof (write_raw_concat_quiet temp chunks w) as [_ Htr].
  rewrite Hwrite in Htr. simpl in Htr.
  set (command := repair_command temp output_path) in *.
  set (w2 := set_clock now (set_files fs (log_command command w1))).
  assert (Hrun : run_ffmpeg spawn command
                   ("Fixing concatenated " +:+ chunk_type +:+ " file") w1
                 = (Return (true, out), w2)).
  { rewrite run_ffmpeg_eq. unfold after_spawn. by rewrite Hsp. }
  erewrite bind_Return by exact Hrun.
  destruct (lookup_node fs temp) as [[content|]|] eqn:Hnode.
  - erewrite bind_Return by (eapply (unlink_if_exists_file temp w2); exact Hnode).
    unfold ret. rewrite <- Htr. reflexivity.
  - done.
  - erewrite bind_Return by (apply (unlink_if_exists_missing temp w2); exact Hnode).
    unfold ret. rewrite <- Htr. rewrite delete_id; [reflexivity|].
    destruct temp as [|c temp]; [discriminate Hnode|exact Hnode].
Qed.

End Invocation.

(** ** What the program itself writes *)

Section Footprint.

(** *** The footprint of the monad's combinators and of the primitives *)

Lemma touches_only_weaken {A} (R R' : Path -> Prop) (m : M A) :
  (forall p, R p -> R' p) -> touches_only R m -> touches_only R' m.
Proof. intros Hsub Hm w p Hp. apply Hm. intros Hr. by apply Hp, Hsub. Qed.

Lemma touches_only_ret {A} R (a : A) : touches_only R (ret a).
Proof. by intros w p _. Qed.

Lemma touches_only_raise {A} R e : touches_only R (@raise A e).
Proof. by intros w p _. Qed.

Lemma touches_only_gets {A} R (f : world -> A) : touches_only R (gets f).
Proof. by intros w p _. Qed.

Lemma touches_only_bind {A B} R (m : M A) (k : A -> M B) :
  touches_only R m -> (forall a, touches_only R (k a)) ->
  touches_only R (bind m k).
Proof.
  intros Hm Hk w p Hp. unfold bind. specialize (Hm w p Hp).
  destruct (m w) as [[a|e] w1]; simpl in *; [|done].
  by rewrite (Hk a w1 p Hp).
Qed.

Lemma touches_only_try_except {A} R (m : M A) (h : exn -> M A) :
  touches_only R m -> (forall e, touches_only R (h e)) ->
  touches_only R (try_except m h).
Proof.
  intros Hm Hh w p Hp. unfold try_except. specialize (Hm w p Hp).
  destruct (m w) as [[a|e] w1]; simpl in *; [done|].
  by rewrite (Hh e w1 p Hp).
Qed.

Lemma touches_only_for_each {A} R (xs : list A) (body : A -> M unit) :
  (forall x, touches_only R (body x)) -> touches_only R (for_each xs body).
Proof.
  intros Hbody. induction xs as [|x xs IH]; simpl.
  - apply touches_only_ret.
  - apply touches_only_bind; [apply Hbody|]. intros _. apply IH.
Qed.

Lemma touches_only_open_wb R p : R p -> touches_only R (open_wb p).
Proof.
  intros Hr w q Hq. assert (p <> q) by (by intros ->).
  unfold open_wb.
  destruct (lookup_node (files w) p) as [[?|]|];
    [| |destruct (lookup_node (files w) (parent p)) as [[?|]|]];
    simpl; try done; by rewrite lookup_insert_ne.
Qed.

Lemma touches_only_read_bytes R p : touches_only R (read_bytes p).
Proof.
  intros w q _. unfold read_bytes.
  by destruct (lookup_node (files w) p) as [[?|]|].
Qed.

Lemma touches_only_write_bytes R p data : R p -> touches_only R (write_bytes p data).
Proof.
  intros Hr w q Hq. assert (p <> q) by (by intros ->).
  unfold write_bytes, modify. simpl.
  destruct (files w !! p) as [[?|]|]; simpl; try done.
  by rewrite lookup_insert_ne.
Qed.

Lemma touches_only_unlink_if_exists R p : R p -> touches_only R (unlink_if_exists p).
Proof.
  intros Hr w q Hq. assert (p <> q) by (by intros ->).
  unfold unlink_if_exists, bind, path_exists, gets, unlink.
  destruct (bool_decide (is_Some (lookup_node (files w) p))); [|done].
  destruct (lookup_node (files w) p) as [[?|]|]; simpl; try done.
  by rewrite lookup_delete_ne.
Qed.

Variable spawn : list string -> world -> proc.
Hypothesis spawn_keeps_files : keeps_files spawn.

Lemma touches_only_subprocess_run R command :
  touches_only R (subprocess_run spawn command).
Proof.
  intros w p _. unfold subprocess_run.
  pose proof (spawn_keeps_files command (log_command command w)) as Hk.
  destruct (spawn command (log_command command w))
    as [rc out err fs now| | | |rc fs now]; try done.
  - subst fs. by destruct (rc =? 0)%Z.
  - by subst fs.
Qed.

Lemma touches_only_run_ffmpeg R command description :
  touches_only R (run_ffmpeg spawn command description).
Proof.
  apply touches_only_try_except.
  - apply touches_only_bind; [apply touches_only_subprocess_run|].
    intros out. apply touches_only_ret.
  - intros []; (apply touches_only_ret || apply touches_only_raise).
Qed.

Lemma touches_only_mux R video_path audio_path srt_path output_path :
  touches_only R (mux_video_audio_with_captions spawn video_path audio_path
                    srt_path output_path).
Proof.
  unfold mux_video_audio_with_captions.
  apply touches_only_bind.
  - destruct srt_path; [apply touches_only_gets | apply touches_only_ret].
  - intros with_srt. apply touches_only_bind; [apply touches_only_run_ffmpeg|].
    intros r. apply touches_only_ret.
Qed.

Lemma touches_only_save_wav_step R audio_concat_path final_audio_path :
  touches_only R (save_wav_step spawn audio_concat_path final_audio_path).
Proof.
  unfold save_wav_step. destruct audio_concat_path as [p|];
    [|apply touches_only_ret].
  apply touches_only_bind; [apply touches_only_gets|].
  intros []; [|apply touches_only_ret].
  apply touches_only_try_except.
  - apply touches_only_bind; [apply touches_only_run_ffmpeg|].
    intros r. apply touches_only_ret.
  - intros e. apply touches_only_ret.
Qed.

(** Whatever [concatenate_raw_chunks] does and however it ends, the only
    entry of the file system it writes itself is the raw intermediate. *)
Lemma concatenate_raw_chunks_touches_temp_only chunks output_path chunk_type :
  touches_only (fun p => with_suffix output_path ".temp.webm" = Some p)
    (concatenate_raw_chunks spawn chunks output_path chunk_type).
Proof.
  intros w p Hp. unfold concatenate_raw_chunks.
  destruct chunks as [|chunk chunks]; [done|].
  destruct (with_suffix output_path ".temp.webm") as [temp|]; [|done].
  erewrite bind_Return by reflexivity.
  assert (Hbody : touches_only (fun q => q = temp)
    (try_except
       (write_raw_concat temp (chunk :: chunks) ;;;
        r <- run_ffmpeg spawn (repair_command temp output_path)
               ("Fixing concatenated " +:+ chunk_type +:+ " file") ;;
        unlink_if_exists temp ;;;
        ret r.1)
       (fun e => unlink_if_exists temp ;;; ret false))).
  { apply touches_only_try_except.
    - apply touches_only_bind.
      + unfold write_raw_concat. apply touches_only_bind.
        * by apply touches_only_open_wb.
        * intros _. apply touches_only_for_each. intros x.
          apply touches_only_bind; [apply touches_only_read_bytes|].
          intros data. by apply touches_only_write_bytes.
      + intros _. apply touches_only_bind; [apply touches_only_run_ffmpeg|].
        intros r. apply touches_only_bind; [by apply touches_only_unlink_if_exists|].
        intros _. apply touches_only_ret.
    - intros e. apply touches_only_bind; [by apply touches_only_unlink_if_exists|].
      intros _. apply touches_only_ret. }
  apply Hbody. intros ->. by apply Hp.
Qed.

Lemma touches_only_concat_audio_step audio temp_dir :
  touches_only (fun p => temp_dir `prefix_of` p)
    (concat_audio_step spawn audio temp_dir).
Proof.
  unfold concat_audio_step. destruct audio as [|chunk audio];
    [apply touches_only_ret|].
  apply touches_only_bind; [|intros ok; apply touches_only_ret].
  eapply touches_only_weaken; [|apply concatenate_raw_chunks_touches_temp_only].
  intros p. destruct (with_suffix_intermediate temp_dir) as [_ ->].
  intros [= <-]. by exists ["audio_concatenated.temp.webm"].
Qed.

(** The body of the [with] block writes inside the workspace only. *)
Lemma touches_only_run_in_workspace self srt_path video audio temp_dir :
  touches_only (fun p => temp_dir `prefix_of` p)
    (run_in_workspace spawn self srt_path video audio temp_dir).
Proof.
  unfold run_in_workspace. apply touches_only_bind.
  - eapply touches_only_weaken; [|apply concatenate_raw_chunks_touches_temp_only].
    intros p. destruct (with_suffix_intermediate temp_dir) as [-> _].
    intros [= <-]. by exists ["video_concatenated.temp.webm"].
  - intros ok. destruct (negb ok); [apply touches_only_ret|].
    apply touches_only_bind; [apply touches_only_concat_audio_step|].
    intros audio_concat_path.
    apply touches_only_bind; [apply touches_only_gets|]. intros now.
    apply touches_only_bind; [apply touches_only_save_wav_step|]. intros saved.
    apply touches_only_bind; [apply touches_only_mux|].
    intros []; apply touches_only_ret.
Qed.

Variable gettempdir : Path.
Variable candidate_names : nat -> string.
Variable TMP_MAX : nat.

Lemma mkdtemp_from_Raise seq attempts w e w1 :
  mkdtemp_from gettempdir candidate_names seq attempts w = (Raise e, w1) -> w1 = w.
Proof.
  revert seq. induction attempts as [|n IH]; intros seq; simpl.
  - by intros [= _ <-].
  - unfold try_except, bind, os_mkdir, ret.
    destruct (lookup_node (files w) (gettempdir </> ("tmp" +:+ candidate_names seq)))
      as [nd|] eqn:Hnode.
    + apply IH.
    + destruct (lookup_node (files w)
                  (parent (gettempdir </> ("tmp" +:+ candidate_names seq))))
        as [[c|]|]; try done; by intros [= _ <-].
Qed.

(** With an external binary that leaves the file system alone, a run leaves
    it exactly as it found it, however the run ends: the raw intermediates
    and the workspace are the only things the program writes itself, and
    they are gone afterwards.  Everything that persists after a run was
    written by the external binary. *)
Theorem process_chunks_leaves_no_residue
    (self : VideoProcessor) (srt_path : option Path) (w : world) :
  parents_exist (files w) ->
  files (process_chunks spawn gettempdir candidate_names TMP_MAX
           self srt_path w).2 = files w.
Proof.
  intros Hfs. unfold process_chunks.
  erewrite bind_Return by apply find_chunk_sequences_eq.
  set (video := expected_chunks _ (video_chunks_dir self) _ _).
  set (audio := expected_chunks _ (audio_chunks_dir self) _ _).
  clearbody video audio.
  destruct video as [|chunk video]; [reflexivity|].
  unfold with_TemporaryDirectory, bind.
  destruct (mkdtemp gettempdir candidate_names TMP_MAX w) as [[temp_dir|e] w1] eqn:Htmp.
  2:{ apply mkdtemp_from_Raise in Htmp. by subst w1. }
  apply mkdtemp_from_Return in Htmp as (_ & Hfresh & ->).
  unfold finally.
  pose proof (touches_only_run_in_workspace self srt_path (chunk :: video) audio
                temp_dir (set_files (<[temp_dir := Dir]> (files w)) w)) as Hbody.
  destruct (run_in_workspace _ _ _ _ _ _ _) as [r w2]. simpl in Hbody.
  cbn [snd]. apply map_eq. intros p.
  destruct (decide (temp_dir `prefix_of` p)) as [Hin|Hout].
  - rewrite rmtree_inside by done. symmetry.
    destruct (files w !! p) as [nd|] eqn:Hp; [|done]. exfalso.
    destruct (decide (temp_dir = p)) as [->|Hne].
    + destruct p; [done|]. simpl in Hfresh. congruence.
    + pose proof (parents_exist_prefix _ _ _ Hfs (mk_is_Some _ _ Hp) Hin Hne).
      congruence.
  - rewrite rmtree_outside by done. rewrite Hbody by done.
    apply lookup_insert_ne. intros ->. by apply Hout.
Qed.

End Footprint.

(** ** More on the orchestrator *)

Section Orchestrator.

Variable spawn : list string -> world -> proc.
Variable gettempdir : Path.
Variable candidate_names : nat -> string.
Variable TMP_MAX : nat.

Local Abbreviation mkdtemp := (mkdtemp gettempdir candidate_names TMP_MAX).
Local Abbreviation run_chunks :=
  (process_chunks spawn gettempdir candidate_names TMP_MAX).

(** If the video concatenation returns [False], the run is over: the
    outcome is [(None, None)], the audio chunks are never looked at, no
    timestamp is taken and no further command is run; the workspace is
    removed from the world the video step left. *)
Theorem video_failure_aborts_run
    (self : VideoProcessor) (srt_path : option Path) (w w1 w2 : world)
    (video audio : list (nat * Path)) (temp_dir : Path) :
  find_chunk_sequences self w = (Return (video, audio), w) ->
  video <> [] ->
  mkdtemp w = (Return temp_dir, w1) ->
  concatenate_raw_chunks spawn video (temp_dir </> "video_concatenated.webm")
    "video" w1 = (Return false, w2) ->
  run_chunks self srt_path w = (Return (None, None), rmtree temp_dir w2)
  /\ trace (run_chunks self srt_path w).2 = trace w2
  /\ (forall audio',
        run_in_workspace spawn self srt_path video audio' temp_dir w1
        = run_in_workspace spawn self srt_path video audio temp_dir w1).
Proof.
  intros Hfind Hvideo Htmp Hv.
  pose proof (process_chunks_in_workspace spawn gettempdir candidate_names TMP_MAX
                self srt_path w video audio temp_dir w1 Hfind Hvideo Htmp) as Hws.
  clear Hfind.
  assert (Hbody : forall audio',
            run_in_workspace spawn self srt_path video audio' temp_dir w1
            = (Return (None, None), w2)).
  { intros audio'. unfold run_in_workspace.
    erewrite bind_Return by exact Hv. reflexivity. }
  rewrite Hws, Hbody. cbn [fst snd].
  split; [reflexivity|]. split; [apply rmtree_trace|].
  intros audio'. by rewrite !Hbody.
Qed.

Lemma unreadable_video_chunk_body
    (self : VideoProcessor) (srt_path : option Path) (w : world)
    (video audio : list (nat * Path)) (temp_dir : Path) (bad : nat * Path) :
  parents_exist (files w) ->
  lookup_node (files w) temp_dir = None ->
  bad ∈ video ->
  lookup_node (files w) bad.2 = Some Dir ->
  exists w2,
    run_in_workspace spawn self srt_path video audio temp_dir
      (set_files (<[temp_dir := Dir]> (files w)) w)
    = (Return (None, None), w2)
    /\ files (rmtree temp_dir w2) = files w
    /\ trace w2 = trace w
    /\ clock w2 = clock w.
Proof.
  intros Hfs Hfresh Hin Hdir.
  set (temp := temp_dir </> "video_concatenated.temp.webm").
  assert (Hroot : temp_dir <> []) by (intros ->; discriminate Hfresh).
  assert (Htemp : files w !! temp = None) by (by apply fresh_workspace_child).
  assert (Hne : temp <> temp_dir).
  { intros Heq. apply (f_equal length) in Heq. unfold temp, joinpath in Heq.
    rewrite length_app in Heq. simpl in Heq. lia. }
  assert (Hbadne : bad.2 <> temp).
  { intros Heq. rewrite Heq in Hdir.
    unfold temp, joinpath in Hdir. rewrite lookup_node_snoc in Hdir.
    unfold temp, joinpath in Htemp. congruence. }
  assert (Hbaddir : bad.2 <> temp_dir).
  { intros Heq. rewrite Heq in Hdir. congruence. }
  destruct (concatenate_raw_chunks_unreadable spawn video
              (temp_dir </> "video_concatenated.webm") temp "video"
              (set_files (<[temp_dir := Dir]> (files w)) w) bad)
    as (w2 & Hrun & Hfiles & Htrace & Hclock).
  - apply with_suffix_intermediate.
  - right. simpl. split.
    + unfold temp, joinpath. rewrite lookup_node_snoc.
      rewrite lookup_insert_ne by done. exact Htemp.
    + unfold temp, joinpath, parent. rewrite removelast_last.
      rewrite lookup_node_nonroot by done. apply lookup_insert_eq.
  - exact Hin.
  - exact Hbadne.
  - simpl. intros [c Hc]. rewrite lookup_node_insert_ne in Hc by done.
    congruence.
  - exists w2. split; [|split; [|done]].
    + unfold run_in_workspace. erewrite bind_Return by exact Hrun. reflexivity.
    + apply rmtree_workspace_restores; [done|done|].
      intros p Hp. rewrite Hfiles. simpl. apply lookup_delete_ne.
      intros <-. apply Hp. by exists ["video_concatenated.temp.webm"].
Qed.

(** A directory whose name is that of a video fragment is picked up by the
    scan like a file ([exists] does not tell them apart); the copying loop
    then fails on it, so that the run ends with [(None, None)] before the
    external binary is ever invoked, and leaves the file system, the clock
    and the trace as they were. *)
Theorem directory_named_like_a_fragment_fails_the_run
    (self : VideoProcessor) (srt_path : option Path) (w w1 : world)
    (temp_dir : Path) (i : nat) :
  (i < MAX_INDEX)%nat ->
  lookup_node (files w) (video_chunks_dir self </> chunk_name "video" i) = Some Dir ->
  parents_exist (files w) ->
  mkdtemp w = (Return temp_dir, w1) ->
  exists w',
    run_chunks self srt_path w = (Return (None, None), w')
    /\ files w' = files w
    /\ trace w' = trace w
    /\ clock w' = clock w.
Proof.
  intros Hi Hdir Hfs Htmp.
  pose proof (find_chunk_sequences_eq self w) as Hfind.
  set (video := expected_chunks _ (video_chunks_dir self) _ _) in Hfind.
  set (audio := expected_chunks _ (audio_chunks_dir self) _ _) in Hfind.
  set (bad := (i, video_chunks_dir self </> chunk_name "video" i)).
  assert (Hin : bad ∈ video).
  { clear Hfind. apply elem_of_expected_chunks. split; [|split].
    - apply elem_of_seq. lia.
    - reflexivity.
    - unfold present, chunk_file. rewrite Hdir. by eexists. }
  assert (Hvideo : video <> []).
  { clear Hfind. intros Hnil. rewrite Hnil in Hin. by apply elem_of_nil in Hin. }
  clearbody video audio.
  rewrite (process_chunks_in_workspace spawn gettempdir candidate_names TMP_MAX
             self srt_path w video audio temp_dir w1 Hfind Hvideo Htmp).
  clear Hfind.
  apply mkdtemp_from_Return in Htmp as (_ & Hfresh & ->).
  destruct (unreadable_video_chunk_body self srt_path w video audio temp_dir bad
              Hfs Hfresh Hin Hdir) as (w2 & Hbody & Hfiles & Htrace & Hclock).
  rewrite Hbody. cbn [fst snd].
  exists (rmtree temp_dir w2).
  split; [reflexivity|]. split; [exact Hfiles|].
  split; [exact Htrace|exact Hclock].
Qed.

Lemma mux_trace video_path audio_path srt_path output_path w :
  trace (mux_video_audio_with_captions spawn video_path audio_path srt_path
           output_path w).2
  = trace w ++ [mux_command video_path audio_path
                  (embedded_captions (files w) srt_path) output_path].
Proof.
  rewrite mux_eq. unfold bind.
  pose proof (run_ffmpeg_trace spawn
    (mux_command video_path audio_path (embedded_captions (files w) srt_path)
       output_path)
    "Creating MP4 with video, audio, and soft captions" w) as Ht.
  by destruct (run_ffmpeg spawn _ _ w) as [[r|e] w'].
Qed.

(** A run that hands back both a video and an audio path has invoked the
    external binary exactly four times, in this order: repair of the raw
    video, repair of the raw audio, conversion of the repaired audio to the
    returned WAV path, and the mux of the two repaired intermediates into
    the returned video path, with the subtitle file given or none.  Both
    returned paths carry the stamp of one reading of the clock. *)
Theorem both_outputs_mean_four_commands
    (self : VideoProcessor) (srt_path : option Path) (w w' : world)
    (final_video final_audio : Path) :
  run_chunks self srt_path w = (Return (Some final_video, Some final_audio), w') ->
  exists temp_dir now captions,
    trace w'
    = trace w ++
      [repair_command (temp_dir </> "video_concatenated.temp.webm")
                      (temp_dir </> "video_concatenated.webm");
       repair_command (temp_dir </> "audio_concatenated.temp.webm")
                      (temp_dir </> "audio_concatenated.webm");
       wav_command (temp_dir </> "audio_concatenated.webm") final_audio;
       mux_command (temp_dir </> "video_concatenated.webm")
                   (Some (temp_dir </> "audio_concatenated.webm"))
                   captions final_video]
    /\ (captions = None \/ captions = srt_path)
    /\ final_video = (output_paths self now).1
    /\ final_audio = (output_paths self now).2.
Proof.
  unfold process_chunks.
  erewrite bind_Return by apply find_chunk_sequences_eq.
  set (video := expected_chunks _ (video_chunks_dir self) _ _).
  set (audio := expected_chunks _ (audio_chunks_dir self) _ _).
  clearbody video audio.
  destruct video as [|chunk video]; [discriminate|].
  unfold with_TemporaryDirectory. unfold bind at 1.
  destruct (mkdtemp w) as [[temp_dir|e] w1] eqn:Htmp; [|discriminate].
  apply mkdtemp_from_Return in Htmp as (_ & _ & ->).
  set (w1 := set_files (<[temp_dir := Dir]> (files w)) w).
  assert (Htr1 : trace w1 = trace w) by reflexivity.
  clearbody w1.
  unfold finally.
  destruct (run_in_workspace spawn self srt_path (chunk :: video) audio temp_dir w1)
    as [r w2] eqn:Hbody.
  intros Heq. injection Heq as -> <-. rewrite rmtree_trace.
  set (chunks := chunk :: video) in *. clearbody chunks.
  (* the video step *)
  destruct (concatenate_raw_chunks spawn chunks
              (temp_dir </> "video_concatenated.webm") "video" w1)
    as [[ok|e] wv] eqn:Hv.
  2:{ unfold run_in_workspace in Hbody.
      erewrite bind_Raise in Hbody by exact Hv. discriminate. }
  destruct ok.
  2:{ unfold run_in_workspace in Hbody.
      erewrite bind_Return in Hbody by exact Hv. discriminate. }
  (* the audio step *)
  destruct (concat_audio_step spawn audio temp_dir wv) as [[acp|e] wa] eqn:Ha.
  2:{ unfold run_in_workspace in Hbody.
      erewrite bind_Return in Hbody by exact Hv. cbn [negb] in Hbody.
      erewrite bind_Raise in Hbody by exact Ha. discriminate. }
  destruct (save_wav_step_Return spawn acp (output_paths self (clock wa)).2 wa)
    as (saved & w4 & Hwav & _).
  rewrite (run_in_workspace_after_concat spawn self srt_path chunks audio temp_dir
             w1 wv acp wa saved w4 Hv Ha Hwav) in Hbody.
  destruct (mux_video_audio_with_captions spawn _ acp srt_path _ w4)
    as [[ok|e] wm] eqn:Hm; [|discriminate].
  destruct ok; [|discriminate].
  injection Hbody as Hfv Hsaved <-. subst saved final_video.
  (* the WAV step ran on the repaired audio *)
  rewrite save_wav_step_eq in Hwav.
  destruct acp as [p|]; [|discriminate].
  destruct (bool_decide (is_Some (lookup_node (files wa) p))); [|discriminate].
  assert (Hfa : final_audio = (output_paths self (clock wa)).2
                /\ w4 = after_spawn spawn
                          (wav_command p (output_paths self (clock wa)).2) wa).
  { destruct (spawn _ _) as [rc out err fs now| | | |rc fs now];
      try discriminate Hwav.
    destruct (rc =? 0)%Z; [|discriminate]. by injection Hwav as <- <-. }
  clear Hwav. destruct Hfa as [-> Hw4].
  (* the audio intermediate *)
  assert (Hp : p = temp_dir </> "audio_concatenated.webm"
               /\ concatenate_raw_chunks spawn audio
                    (temp_dir </> "audio_concatenated.webm") "audio" wv
                  = (Return true, wa)).
  { unfold concat_audio_step in Ha. destruct audio as [|a audio]; [discriminate|].
    unfold bind in Ha.
    destruct (concatenate_raw_chunks spawn (a :: audio) _ "audio" wv)
      as [[ok|e] wx]; [|discriminate].
    destruct ok; [|discriminate]. by injection Ha as <- <-. }
  clear Ha. destruct Hp as [-> Ha].
  (* the traces *)
  destruct (with_suffix_intermediate temp_dir) as [Hiv Hia].
  apply concatenate_raw_chunks_true_inv in Hv
    as (tv & ? & ? & ? & ? & ? & _ & Hsv & _ & _ & _ & Hwv).
  apply concatenate_raw_chunks_true_inv in Ha
    as (ta & ? & ? & ? & ? & ? & _ & Hsa & _ & _ & _ & Hwa).
  rewrite Hiv in Hsv. rewrite Hia in Hsa.
  injection Hsv as <-. injection Hsa as <-.
  assert (Htv : trace wv = trace w1
                ++ [repair_command (temp_dir </> "video_concatenated.temp.webm")
                                   (temp_dir </> "video_concatenated.webm")])
    by (by rewrite Hwv).
  assert (Hta : trace wa = trace wv
                ++ [repair_command (temp_dir </> "audio_concatenated.temp.webm")
                                   (temp_dir </> "audio_concatenated.webm")])
    by (by rewrite Hwa).
  clear Hwv Hwa.
  pose proof (mux_trace (temp_dir </> "video_concatenated.webm")
                (Some (temp_dir </> "audio_concatenated.webm")) srt_path
                (output_paths self (clock wa)).1 w4) as Htm.
  rewrite Hm in Htm. cbn [snd] in Htm.
  exists temp_dir, (clock wa), (embedded_captions (files w4) srt_path).
  split; [|split; [|done]].
  - rewrite Htm, Hw4, after_spawn_trace, Hta, Htv, Htr1.
    rewrite <- !app_assoc. reflexivity.
  - unfold embedded_captions. destruct srt_path as [s|]; [|by left].
    destruct (bool_decide _); [by right|by left].
Qed.

(** A run lets an exception through in two cases only: the workspace could
    not be created, or the invocation of the mux command raised (the binary
    could not be launched, or its output did not decode).  A repair or a
    conversion that fails, in whatever way, never makes the run raise.
    This is for an external binary that puts no directory where none
    stood. *)
Theorem process_chunks_raises_only_from_the_mux
    (self : VideoProcessor) (srt_path : option Path) (w w' : world) (e : exn) :
  parents_exist (files w) ->
  (forall command p, creates_no_directory_at spawn command p) ->
  run_chunks self srt_path w = (Raise e, w') ->
  mkdtemp w = (Raise e, w)
  \/ (exists command w4,
        "libx264" ∈ command
        /\ (run_ffmpeg spawn command
              "Creating MP4 with video, audio, and soft captions" w4).1
           = Raise e).
Proof.
  intros Hfs Hsp. unfold process_chunks.
  erewrite bind_Return by apply find_chunk_sequences_eq.
  set (video := expected_chunks _ (video_chunks_dir self) _ _).
  set (audio := expected_chunks _ (audio_chunks_dir self) _ _).
  clearbody video audio.
  destruct video as [|chunk video]; [discriminate|].
  set (chunks := chunk :: video). clearbody chunks.
  unfold with_TemporaryDirectory. unfold bind at 1.
  destruct (mkdtemp w) as [[temp_dir|e'] w1] eqn:Htmp.
  2:{ intros [= -> _]. left. f_equal.
      by apply (mkdtemp_from_Raise gettempdir candidate_names) in Htmp. }
  intros Hrun. right.
  apply mkdtemp_from_Return in Htmp as (_ & Hfresh & ->).
  destruct (with_suffix_intermediate temp_dir) as [Hsv Hsa].
  set (w1 := set_files (<[temp_dir := Dir]> (files w)) w) in *.
  assert (Hfree : forall name, lookup_node (files w1) (temp_dir </> name) <> Some Dir).
  { intros name. simpl. by rewrite fresh_workspace_free. }
  clearbody w1. clear Hfs Hfresh.
  unfold finally in Hrun.
  destruct (run_in_workspace spawn self srt_path chunks audio temp_dir w1)
    as [r w2] eqn:Hbody.
  injection Hrun as -> _.
  (* the two concatenation steps return *)
  destruct (concatenate_raw_chunks_total spawn chunks
              (temp_dir </> "video_concatenated.webm")
              (temp_dir </> "video_concatenated.temp.webm") "video" w1
              Hsv (Hfree _) (Hsp _ _)) as (ok & wv & Hv & _ & Hkeep).
  destruct ok.
  2:{ unfold run_in_workspace in Hbody.
      erewrite bind_Return in Hbody by exact Hv. discriminate Hbody. }
  assert (Ha : exists acp wa, concat_audio_step spawn audio temp_dir wv
                              = (Return acp, wa)).
  { unfold concat_audio_step. destruct audio as [|a audio]; [by eexists _, _|].
    destruct (concatenate_raw_chunks_total spawn (a :: audio)
                (temp_dir </> "audio_concatenated.webm")
                (temp_dir </> "audio_concatenated.temp.webm") "audio" wv
                Hsa (Hkeep _ (Hsp _ _) (Hfree _)) (Hsp _ _)) as (b & wa & Ha & _).
    erewrite bind_Return by exact Ha. by eexists _, _. }
  destruct Ha as (acp & wa & Ha).
  destruct (save_wav_step_Return spawn acp (output_paths self (clock wa)).2 wa)
    as (saved & w4 & Hwav & _).
  rewrite (run_in_workspace_after_concat spawn self srt_path chunks audio temp_dir
             w1 wv acp wa saved w4 Hv Ha Hwav) in Hbody.
  rewrite mux_eq in Hbody. unfold bind in Hbody.
  set (command := mux_command (temp_dir </> "video_concatenated.webm") acp
                    (embedded_captions (files w4) srt_path)
                    (output_paths self (clock wa)).1) in *.
  exists command, w4. split.
  - unfold command, mux_command. set_solver.
  - destruct (run_ffmpeg spawn command _ w4) as [[[[] out]|e'] w5].
    + discriminate Hbody.
    + discriminate Hbody.
    + by injection Hbody as ->.
Qed.

End Orchestrator.

(** ** The entry point *)

Section EntryPointFacts.

Variable spawn : list string -> world -> proc.
Variable gettempdir : Path.
Variable candidate_names : nat -> string.
Variable TMP_MAX : nat.
Variable LOCAL_DIR OUTPUT_DIR : Path.

Local Abbreviation run_main :=
  (main spawn gettempdir candidate_names TMP_MAX LOCAL_DIR OUTPUT_DIR).

(** The probe by cases on what the external process did. *)
Lemma ffmpeg_found_eq w :
  ffmpeg_found spawn w
  = (probe_result (spawn probe_command (log_command probe_command w)),
     after_spawn spawn probe_command w).
Proof.
  unfold ffmpeg_found, try_except, bind, subprocess_run_bytes, after_spawn,
    probe_result.
  fold probe_command.
  destruct (spawn probe_command (log_command probe_command w))
    as [rc out err fs now| | | |rc fs now]; try reflexivity;
    by destruct (rc =? 0)%Z.
Qed.

Lemma main_after_probe w :
  run_main w
  = match probe_result (spawn probe_command (log_command probe_command w)) with
    | Return found =>
        (if found : bool then
           (video_dir_exists <- path_exists (LOCAL_DIR </> "video") ;;
            if negb video_dir_exists then ret tt
            else
              audio_dir_exists <- path_exists (LOCAL_DIR </> "audio") ;;
              processor <- init (LOCAL_DIR </> "video") (LOCAL_DIR </> "audio")
                             (OUTPUT_DIR </> "video") (OUTPUT_DIR </> "audio")
                             (Some (OUTPUT_DIR </> "transcripts")) ;;
              results <- process_chunks spawn gettempdir candidate_names TMP_MAX
                           processor None ;;
              end_time <- datetime_now ;;
              ret tt)
         else ret tt) (after_spawn spawn probe_command w)
    | Raise e => (Raise e, after_spawn spawn probe_command w)
    end.
Proof.
  unfold main. cbv zeta.
  erewrite bind_Return by reflexivity.
  unfold bind at 1. rewrite ffmpeg_found_eq.
  destruct (probe_result (spawn probe_command (log_command probe_command w)))
    as [[|]|e]; reflexivity.
Qed.


(** The probe catches [CalledProcessError] and [FileNotFoundError] only.
    A binary that is found but may not be executed makes [main] raise
    [PermissionError] right after the probe, instead of reporting that the
    binary is missing and returning; nothing on disk has changed. *)
Theorem main_raises_when_ffmpeg_may_not_be_executed (w : world) :
  spawn probe_command (log_command probe_command w) = NotExecutable ->
  run_main w = (Raise PermissionError, log_command probe_command w)
  /\ files (run_main w).2 = files w
  /\ trace (run_main w).2 = trace w ++ [probe_command].
Proof.
  intros Hsp.
  assert (Hrun : run_main w = (Raise PermissionError, log_command probe_command w)).
  { rewrite main_after_probe. unfold after_spawn. rewrite Hsp. reflexivity. }
  rewrite Hrun. repeat split; reflexivity.
Qed.




End EntryPointFacts.

(** ** Names: the raw intermediate and the timestamp *)

Section StringFacts.

Lemma append_String x a b : String x a +:+ b = String x (a +:+ b).
Proof. reflexivity. Qed.

Lemma length_append a b :
  String.length (a +:+ b) = (String.length a + String.length b)%nat.
Proof.
  induction a as [|x a IH]; [done|]. rewrite append_String. simpl. by rewrite IH.
Qed.

Lemma append_inj_length a a' b b' :
  String.length a = String.length a' -> a +:+ b = a' +:+ b' -> a = a' /\ b = b'.
Proof.
  revert a'. induction a as [|x a IH]; intros [|x' a'] Hlen Heq;
    try discriminate Hlen.
  - done.
  - rewrite !append_String in Heq. injection Heq as -> Heq.
    destruct (IH a') as [-> ->]; [by injection Hlen|done|done].
Qed.

Lemma append_nonempty_ne a b : b <> "" -> a +:+ b <> a.
Proof.
  intros Hb Heq. apply (f_equal String.length) in Heq.
  rewrite length_append in Heq. destruct b; [done|]. simpl in Heq. lia.
Qed.

(** [rfind] returns the last position of the character. *)
Lemma rfind_from_spec c s :
  forall k,
    match rfind_from c s k with
    | Some j => exists m, j = (k + m)%nat /\ get m s = Some c
                          /\ forall n, (m < n)%nat -> get n s <> Some c
    | None => forall n, get n s <> Some c
    end.
Proof.
  induction s as [|a s IH]; intros k; simpl.
  - by intros [].
  - specialize (IH (S k)). destruct (rfind_from c s (S k)) as [j|].
    + destruct IH as (m & -> & Hget & Hlast). exists (S m).
      split; [lia|]. split; [exact Hget|].
      intros [|n] Hn; [lia|]. simpl. apply Hlast. lia.
    + destruct (Ascii.eqb_spec a c) as [->|Hac].
      * exists 0%nat. split; [lia|]. split; [done|].
        intros [|n] Hn; [lia|]. simpl. apply IH.
      * intros [|n]; simpl; [congruence|apply IH].
Qed.

Lemma length_substring_0 i s :
  (i <= String.length s)%nat -> String.length (substring 0 i s) = i.
Proof.
  revert i. induction s as [|a s IH]; intros [|i] Hi; simpl in *; try done; try lia.
  rewrite IH; [done|lia].
Qed.

Lemma prefix_substring_0 i s : String.prefix (substring 0 i s) s = true.
Proof.
  revert i. induction s as [|a s IH]; intros [|i]; simpl; try done.
  destruct (ascii_dec a a); [apply IH|done].
Qed.

Lemma prefix_refl s : String.prefix s s = true.
Proof.
  induction s as [|a s IH]; [done|]. simpl. by destruct (ascii_dec a a).
Qed.

(** Replacing the suffix of a name by [.temp.webm] never gives the name
    back: the old suffix holds the last dot of the name, the new name has a
    later one. *)
Lemma with_suffix_name_differs nm i :
  suffix_start nm = Some i -> substring 0 i nm +:+ ".temp.webm" <> nm.
Proof.
  unfold suffix_start, rfind. intros Hstart Heq.
  pose proof (rfind_from_spec "." nm 0) as Hspec.
  destruct (rfind_from "." nm 0) as [j|]; [|discriminate].
  destruct ((0 <? j)%nat && (j <? String.length nm - 1)%nat) eqn:Hrange;
    [|discriminate].
  injection Hstart as ->.
  apply andb_prop in Hrange as [_ Hlt]. apply Nat.ltb_lt in Hlt.
  destruct Hspec as (m & Hm & _ & Hlast). simpl in Hm. subst m.
  assert (Hlen : String.length (substring 0 i nm) = i)
    by (apply length_substring_0; lia).
  set (pre := substring 0 i nm) in *.
  apply (Hlast (5 + i)%nat); [lia|].
  rewrite <- Heq at 1. rewrite <- Hlen.
  by rewrite <- (append_correct2 pre ".temp.webm" 5).
Qed.

End StringFacts.

Section IntermediatePath.

Variable spawn : list string -> world -> proc.

(** The path of the raw intermediate, [output_path.with_suffix('.temp.webm')]:
    it is a sibling of the output path, it is never the output path itself
    (so that the repair command never reads the file it writes, and the
    clean-up never deletes the repaired output), and its name is a prefix
    of the output's name followed by [.temp.webm].  There is no such path
    exactly when the output path has an empty name, and then a call with
    chunks raises [ValueError] before anything is written or run. *)
Theorem raw_intermediate_is_a_sibling_of_the_output
    (chunks : list (nat * Path)) (output_path : Path) (chunk_type : string)
    (w : world) :
  (forall temp,
     with_suffix output_path ".temp.webm" = Some temp ->
     parent temp = parent output_path
     /\ temp <> output_path
     /\ exists stem,
          name temp = stem +:+ ".temp.webm"
          /\ String.prefix stem (name output_path) = true)
  /\ (with_suffix output_path ".temp.webm" = None <-> name output_path = "")
  /\ (name output_path = "" -> chunks <> [] ->
      concatenate_raw_chunks spawn chunks output_path chunk_type w
      = (Raise ValueError, w)).
Proof.
  assert (Hnone : with_suffix output_path ".temp.webm" = None
                  <-> name output_path = "").
  { unfold with_suffix. cbn [contains_char startswith_dot String.eqb Ascii.eqb
                              Bool.eqb negb andb orb].
    destruct (String.eqb_spec (name output_path) "") as [Hnm|Hnm];
      [done|]. split; [discriminate|done]. }
  split; [|split; [exact Hnone|]].
  - intros temp Hsfx. unfold with_suffix in Hsfx.
    cbn [contains_char startswith_dot String.eqb Ascii.eqb Bool.eqb negb andb orb]
      in Hsfx.
    destruct (String.eqb_spec (name output_path) "") as [Hnm|Hnm];
      [discriminate|].
    injection Hsfx as <-.
    assert (Hroot : output_path <> []) by (intros ->; by apply Hnm).
    split; [|split].
    + unfold parent, joinpath. by rewrite removelast_last.
    + intros Heq.
      rewrite (app_removelast_last "" Hroot) in Heq at 3.
      unfold joinpath, parent in Heq. apply app_inv_head in Heq.
      injection Heq as Heq. fold (name output_path) in Heq.
      destruct (suffix_start (name output_path)) as [i|] eqn:Hstart.
      * by apply with_suffix_name_differs in Heq.
      * by apply append_nonempty_ne in Heq.
    + unfold name at 1, joinpath. rewrite last_last.
      destruct (suffix_start (name output_path)) as [i|].
      * eexists. split; [reflexivity|]. apply prefix_substring_0.
      * exists (name output_path). split; [reflexivity|apply prefix_refl].
  - intros Hnm Hne. apply Hnone in Hnm.
    unfold concatenate_raw_chunks. destruct chunks as [|chunk chunks]; [done|].
    by rewrite Hnm.
Qed.

End IntermediatePath.

Section Timestamp.

Lemma forallb_seq (f : nat -> bool) (start len : nat) :
  forallb f (seq start len) = true ->
  forall n, (start <= n < start + len)%nat -> f n = true.
Proof.
  rewrite forallb_forall. intros Hall n Hn. apply Hall. apply in_seq. lia.
Qed.

(** Two-digit fields: fixed width, and no two values share a rendering. *)
Lemma zfill_2_length n : (n < 100)%nat -> String.length (zfill 2 n) = 2%nat.
Proof.
  intros Hn.
  assert (Hall : forallb (fun n => String.length (zfill 2 n) =? 2)%nat (seq 0 100) = true)
    by (vm_compute; reflexivity).
  apply Nat.eqb_eq. apply (forallb_seq _ _ _ Hall). lia.
Qed.

Lemma zfill_2_inj n m :
  (n < 100)%nat -> (m < 100)%nat -> zfill 2 n = zfill 2 m -> n = m.
Proof.
  intros Hn Hm Heq.
  assert (Hall : forallb (fun n =>
                   forallb (fun m => implb (String.eqb (zfill 2 n) (zfill 2 m))
                                           (n =? m)%nat) (seq 0 100))
                   (seq 0 100) = true)
    by (vm_compute; reflexivity).
  pose proof (forallb_seq _ _ _ Hall n ltac:(lia)) as Hrow. cbv beta in Hrow.
  pose proof (forallb_seq _ _ _ Hrow m ltac:(lia)) as Hcell. cbv beta in Hcell.
  rewrite Heq, String.eqb_refl in Hcell. by apply Nat.eqb_eq.
Qed.

(** Years of four digits are rendered as they are. *)
Lemma zfill_4_year n :
  (1000 <= n <= 9999)%nat ->
  zfill 4 n = pretty n /\ String.length (zfill 4 n) = 4%nat.
Proof.
  intros Hn.
  assert (Hall : forallb (fun n => String.length (pretty n) =? 4)%nat
                   (seq 1000 9000) = true)
    by (vm_compute; reflexivity).
  assert (Hlen : String.length (pretty n) = 4%nat).
  { apply Nat.eqb_eq. apply (forallb_seq _ _ _ Hall).
    assert (Z.of_nat 9000 = 9000%Z) by (vm_compute; reflexivity).
    assert (Z.of_nat 9999 = 9999%Z) by (vm_compute; reflexivity).
    lia. }
  unfold zfill. rewrite Hlen. split; [reflexivity|exact Hlen].
Qed.

Lemma strftime_inj a b :
  valid_datetime a -> valid_datetime b ->
  strftime a = strftime b -> same_second a b.
Proof.
  intros (Hya & Hmoa & Hda & Hha & Hmia & Hsa) (Hyb & Hmob & Hdb & Hhb & Hmib & Hsb).
  unfold strftime. intros Heq.
  destruct (zfill_4_year _ Hya) as [Hpa Hla], (zfill_4_year _ Hyb) as [Hpb Hlb].
  apply append_inj_length in Heq as [Hy Heq]; [|congruence].
  apply append_inj_length in Heq as [_ Heq]; [|done].
  apply append_inj_length in Heq as [Hmo Heq];
    [|rewrite !zfill_2_length; [done|lia|lia]].
  apply append_inj_length in Heq as [_ Heq]; [|done].
  apply append_inj_length in Heq as [Hd Heq];
    [|rewrite !zfill_2_length; [done|lia|lia]].
  apply append_inj_length in Heq as [_ Heq]; [|done].
  apply append_inj_length in Heq as [Hh Heq];
    [|rewrite !zfill_2_length; [done|lia|lia]].
  apply append_inj_length in Heq as [_ Heq]; [|done].
  apply append_inj_length in Heq as [Hmi Heq];
    [|rewrite !zfill_2_length; [done|lia|lia]].
  apply append_inj_length in Heq as [_ Hs]; [|done].
  rewrite Hpa, Hpb in Hy. apply (inj pretty) in Hy.
  apply zfill_2_inj in Hmo, Hd, Hh, Hmi, Hs; try lia.
  done.
Qed.

(** The timestamp determines the second and nothing more: it is always 19
    characters long, and two readings of the clock give the same pair of
    output paths exactly when they fall in the same second.  So two runs
    that reach step 3 in the same second write to the same files, and runs
    that reach it in different seconds never do. *)
Theorem timestamp_identifies_the_second
    (self : VideoProcessor) (a b : datetime) :
  valid_datetime a -> valid_datetime b ->
  String.length (strftime a) = 19%nat
  /\ (strftime a = strftime b <-> same_second a b)
  /\ (output_paths self a = output_paths self b <-> same_second a b).
Proof.
  intros Ha Hb.
  assert (Hsame : same_second a b -> strftime a = strftime b).
  { intros (Hy & Hmo & Hd & Hh & Hmi & Hs). unfold strftime. congruence. }
  split; [|split].
  - destruct Ha as (Hya & Hmoa & Hda & Hha & Hmia & Hsa). unfold strftime.
    destruct (zfill_4_year _ Hya) as [_ Hla].
    rewrite !length_append, Hla, !zfill_2_length by lia. reflexivity.
  - split; [by apply strftime_inj|exact Hsame].
  - split.
    + unfold output_paths. intros Heq. injection Heq as Hv _.
      unfold joinpath in Hv. apply app_inv_head in Hv. injection Hv as Hv.
      apply append_inj_length in Hv as [_ Hv]; [|done].
      apply strftime_inj; [done|done|].
      assert (Hlen : String.length (strftime a) = String.length (strftime b)).
      { apply (f_equal String.length) in Hv. rewrite !length_append in Hv.
        simpl in Hv. lia. }
      by apply append_inj_length in Hv as [Hv _].
    + intros Hs. unfold output_paths. by rewrite (Hsame Hs).
Qed.

End Timestamp.

(** ** The statements above on concrete worlds *)

(** No regular file on a concrete path of a concrete store: every prefix
    is looked up. *)
Ltac no_file_on_concrete_path :=
  let q := fresh "q" in
  let content := fresh "content" in
  let r := fresh "r" in
  let Hr := fresh "Hr" in
  let Hq := fresh "Hq" in
  intros q content [r Hr] Hq;
  repeat (destruct q as [|? q];
          [ simpl in Hr; subst; vm_compute in Hq; discriminate Hq
          | simpl in Hr; try discriminate Hr; injection Hr as <- Hr ]).

Lemma init_only_adds_directories_witness :
  lookup_node
    (files (init ["in"; "video"] ["in"; "audio"] ["out"; "video"] ["out"; "audio"]
                 (Some ["out"; "transcripts"]) Fixture.world_bare).2)
    ["out"; "video"] = Some Dir
  /\ trace (init ["in"; "video"] ["in"; "audio"] ["out"; "video"] ["out"; "audio"]
                 (Some ["out"; "transcripts"]) Fixture.world_bare).2 = [].
Proof.
  assert (Hv : no_file_on_path (files Fixture.world_bare) ["out"; "video"])
    by no_file_on_concrete_path.
  assert (Ha : no_file_on_path (files Fixture.world_bare) ["out"; "audio"])
    by no_file_on_concrete_path.
  assert (Ht : forall d, Some ["out"; "transcripts"] = Some d ->
                         no_file_on_path (files Fixture.world_bare) d).
  { intros d Hd. injection Hd as <-. no_file_on_concrete_path. }
  destruct (init_only_adds_directories ["in"; "video"] ["in"; "audio"]
              ["out"; "video"] ["out"; "audio"] (Some ["out"; "transcripts"])
              Fixture.world_bare Hv Ha Ht)
    as (self & w' & Hinit & _ & Hvd & _ & _ & _ & _ & _ & Htrace).
  rewrite Hinit. cbn [snd]. split; [exact Hvd|]. rewrite Htrace. reflexivity.
Defined.

Lemma init_on_existing_directories_witness :
  init ["in"; "video"] ["in"; "audio"] ["out"; "video"] ["out"; "audio"] None
       Fixture.world0
  = (Return Fixture.processor, Fixture.world0).
Proof.
  apply (init_on_existing_directories ["in"; "video"] ["in"; "audio"]
           ["out"; "video"] ["out"; "audio"] None Fixture.world0).
  - vm_compute. reflexivity.
  - vm_compute. reflexivity.
  - intros d Hd. discriminate Hd.
Defined.

Lemma init_rejects_regular_file_witness :
  init ["in"; "video"] ["in"; "audio"] ["out"; "video"] ["out"; "audio"] None
       Scenario.world_output_is_file
  = (Raise FileExistsError, Scenario.world_output_is_file).
Proof.
  apply (init_rejects_regular_file ["in"; "video"] ["in"; "audio"]
           ["out"; "video"] ["out"; "audio"] None Scenario.world_output_is_file).
  left. exists [x00]. vm_compute. reflexivity.
Defined.

Lemma concatenate_raw_chunks_unreadable_chunk_witness :
  (concatenate_raw_chunks Fixture.ffmpeg_ok
     [(0, ["in"; "video"; "video_0.webm"]); (1, ["in"; "video"; "video_1.webm"])]
     ["tmp"; "video_concatenated.webm"] "video" Fixture.world0).1
  = Return false
  /\ trace (concatenate_raw_chunks Fixture.ffmpeg_ok
              [(0, ["in"; "video"; "video_0.webm"]);
               (1, ["in"; "video"; "video_1.webm"])]
              ["tmp"; "video_concatenated.webm"] "video" Fixture.world0).2
     = [].
Proof.
  assert (Hsfx : with_suffix ["tmp"; "video_concatenated.webm"] ".temp.webm"
                 = Some ["tmp"; "video_concatenated.temp.webm"])
    by (vm_compute; reflexivity).
  assert (Hw : writable (files Fixture.world0) ["tmp"; "video_concatenated.temp.webm"]).
  { right. split; vm_compute; reflexivity. }
  assert (Hin : (1, ["in"; "video"; "video_1.webm"])
                ∈ [(0, ["in"; "video"; "video_0.webm"]);
                   (1, ["in"; "video"; "video_1.webm"])]).
  { apply elem_of_cons. right. apply elem_of_cons. by left. }
  assert (Hbad : lookup_node (files Fixture.world0) ["in"; "video"; "video_1.webm"] = None
                 \/ lookup_node (files Fixture.world0) ["in"; "video"; "video_1.webm"]
                    = Some Dir).
  { left. vm_compute. reflexivity. }
  destruct (concatenate_raw_chunks_unreadable_chunk Fixture.ffmpeg_ok
              [(0, ["in"; "video"; "video_0.webm"]);
               (1, ["in"; "video"; "video_1.webm"])]
              ["tmp"; "video_concatenated.webm"] ["tmp"; "video_concatenated.temp.webm"]
              "video" Fixture.world0 (1, ["in"; "video"; "video_1.webm"])
              Hsfx Hw Hin ltac:(discriminate) Hbad)
    as (w' & Hrun & _ & _ & Htrace & _).
  rewrite Hrun. cbn [fst snd]. split; [reflexivity|]. rewrite Htrace. reflexivity.
Defined.


Lemma keeps_files_ffmpeg_broken : keeps_files Fixture.ffmpeg_broken.
Proof. intros command w. reflexivity. Qed.

Lemma process_chunks_leaves_no_residue_witness :
  files (process_chunks Fixture.ffmpeg_broken ["tmp"] Fixture.names 100
           Fixture.processor None Fixture.world0).2
  = files Fixture.world0.
Proof.
  apply (process_chunks_leaves_no_residue Fixture.ffmpeg_broken
           keeps_files_ffmpeg_broken ["tmp"] Fixture.names 100
           Fixture.processor None Fixture.world0).
  exact parents_exist_disk.
Defined.

Lemma video_failure_aborts_run_witness :
  (process_chunks Fixture.ffmpeg_broken ["tmp"] Fixture.names 100
     Fixture.processor None Fixture.world0).1
  = Return (None, None).
Proof.
  pose (video := [(0, ["in"; "video"; "video_0.webm"]);
                  (2, ["in"; "video"; "video_2.webm"]);
                  (5, ["in"; "video"; "video_5.webm"])]).
  pose (audio := [(0, ["in"; "audio"; "audio_0.webm"])]).
  pose (w1 := (mkdtemp ["tmp"] Fixture.names 100 Fixture.world0).2).
  pose (w2 := (concatenate_raw_chunks Fixture.ffmpeg_broken video
                 (Fixture.workspace </> "video_concatenated.webm") "video" w1).2).
  assert (Hfind : find_chunk_sequences Fixture.processor Fixture.world0
                  = (Return (video, audio), Fixture.world0))
    by (vm_compute; reflexivity).
  assert (Htmp : mkdtemp ["tmp"] Fixture.names 100 Fixture.world0
                 = (Return Fixture.workspace, w1))
    by (vm_compute; reflexivity).
  assert (Hv : concatenate_raw_chunks Fixture.ffmpeg_broken video
                 (Fixture.workspace </> "video_concatenated.webm") "video" w1
               = (Return false, w2))
    by (vm_compute; reflexivity).
  destruct (video_failure_aborts_run Fixture.ffmpeg_broken ["tmp"] Fixture.names 100
              Fixture.processor None Fixture.world0 w1 w2 video audio
              Fixture.workspace Hfind ltac:(discriminate) Htmp Hv)
    as (Hrun & _).
  rewrite Hrun. reflexivity.
Defined.

Lemma parents_exist_directory_fragment :
  parents_exist Scenario.disk_directory_fragment.
Proof.
  apply map_Forall_to_list. vm_compute. repeat constructor.
Qed.

Lemma directory_named_like_a_fragment_fails_the_run_witness :
  exists w',
    process_chunks Fixture.ffmpeg_ok ["tmp"] Fixture.names 100
      Fixture.processor None Scenario.world_directory_fragment
    = (Return (None, None), w')
    /\ files w' = Scenario.disk_directory_fragment.
Proof.
  assert (Hi : (1 < MAX_INDEX)%nat) by (unfold MAX_INDEX; lia).
  assert (Hdir : lookup_node (files Scenario.world_directory_fragment)
                   (video_chunks_dir Fixture.processor </> chunk_name "video" 1)
                 = Some Dir)
    by (vm_compute; reflexivity).
  assert (Htmp : mkdtemp ["tmp"] Fixture.names 100 Scenario.world_directory_fragment
                 = (Return Fixture.workspace,
                    (mkdtemp ["tmp"] Fixture.names 100
                       Scenario.world_directory_fragment).2))
    by (vm_compute; reflexivity).
  destruct (directory_named_like_a_fragment_fails_the_run Fixture.ffmpeg_ok ["tmp"]
              Fixture.names 100 Fixture.processor None
              Scenario.world_directory_fragment _ Fixture.workspace 1
              Hi Hdir parents_exist_directory_fragment Htmp)
    as (w' & Hrun & Hfiles & _).
  exists w'. split; [exact Hrun|exact Hfiles].
Defined.

Lemma both_outputs_mean_four_commands_witness :
  List.length
    (trace (process_chunks Fixture.ffmpeg_ok ["tmp"] Fixture.names 100
              Fixture.processor None Fixture.world0).2) = 4%nat.
Proof.
  assert (Hrun : process_chunks Fixture.ffmpeg_ok ["tmp"] Fixture.names 100
                   Fixture.processor None Fixture.world0
                 = (Return (Some ["out"; "video"; "output_2025-06-29_09-05-09.mp4"],
                            Some ["out"; "audio"; "audio_2025-06-29_09-05-09.wav"]),
                    (process_chunks Fixture.ffmpeg_ok ["tmp"] Fixture.names 100
                       Fixture.processor None Fixture.world0).2))
    by (vm_compute; reflexivity).
  destruct (both_outputs_mean_four_commands Fixture.ffmpeg_ok ["tmp"] Fixture.names
              100 Fixture.processor None Fixture.world0 _ _ _ Hrun)
    as (temp_dir & now & captions & Htrace & _).
  rewrite Htrace. reflexivity.
Defined.

Lemma creates_no_directory_ffmpeg_vanishes command p :
  creates_no_directory_at Scenario.ffmpeg_vanishes command p.
Proof.
  intros w Hw. unfold Scenario.ffmpeg_vanishes.
  destruct (Fixture.is_mux command); [exact I|].
  by apply touch_output_creates_no_directory.
Qed.

Lemma process_chunks_raises_only_from_the_mux_witness :
  (process_chunks Scenario.ffmpeg_vanishes ["tmp"] Fixture.names 100
     Fixture.processor None Fixture.world0).1 = Raise FileNotFoundError
  /\ exists command w4,
       "libx264" ∈ command
       /\ (run_ffmpeg Scenario.ffmpeg_vanishes command
             "Creating MP4 with video, audio, and soft captions" w4).1
          = Raise FileNotFoundError.
Proof.
  assert (Hrun : process_chunks Scenario.ffmpeg_vanishes ["tmp"] Fixture.names 100
                   Fixture.processor None Fixture.world0
                 = (Raise FileNotFoundError,
                    (process_chunks Scenario.ffmpeg_vanishes ["tmp"] Fixture.names
                       100 Fixture.processor None Fixture.world0).2))
    by (vm_compute; reflexivity).
  split; [by rewrite Hrun|].
  destruct (process_chunks_raises_only_from_the_mux Scenario.ffmpeg_vanishes
              ["tmp"] Fixture.names 100 Fixture.processor None Fixture.world0 _
              FileNotFoundError parents_exist_disk
              creates_no_directory_ffmpeg_vanishes Hrun)
    as [Htmp | Hmux].
  - exfalso. vm_compute in Htmp. discriminate Htmp.
  - exact Hmux.
Defined.


Lemma main_raises_when_ffmpeg_may_not_be_executed_witness :
  (main Fixture.ffmpeg_not_executable ["tmp"] Fixture.names 100 ["in"] ["out"]
     Fixture.world0).1 = Raise PermissionError
  /\ files (main Fixture.ffmpeg_not_executable ["tmp"] Fixture.names 100
              ["in"] ["out"] Fixture.world0).2 = files Fixture.world0.
Proof.
  destruct (main_raises_when_ffmpeg_may_not_be_executed
              Fixture.ffmpeg_not_executable ["tmp"] Fixture.names 100
              ["in"] ["out"] Fixture.world0 eq_refl)
    as (Hrun & Hfiles & _).
  split; [by rewrite Hrun|exact Hfiles].
Defined.



Lemma valid_datetime_started : valid_datetime Fixture.started.
Proof. repeat split; apply Nat.leb_le; vm_compute; reflexivity. Qed.

Lemma valid_datetime_later : valid_datetime Fixture.later.
Proof. repeat split; apply Nat.leb_le; vm_compute; reflexivity. Qed.

Lemma timestamp_identifies_the_second_witness :
  String.length (strftime Fixture.started) = 19%nat
  /\ output_paths Fixture.processor Fixture.started
     <> output_paths Fixture.processor Fixture.later.
Proof.
  destruct (timestamp_identifies_the_second Fixture.processor Fixture.started
              Fixture.later valid_datetime_started valid_datetime_later)
    as (Hlen & _ & Hpaths).
  split; [exact Hlen|]. intros Heq. apply Hpaths in Heq.
  destruct Heq as (_ & _ & _ & _ & _ & Hs). discriminate Hs.
Defined.
